(** * LocalRender.createTask: the render-task orchestrator of
      src/plantuml/renders/local.ts

    The orchestrator spawns one engine process per page in a synchronous
    [reduce] loop, then drains the pages one at a time through a promise
    chain.  The embedding is a labelled transition system:

    - [createTask] is the preflight of lines 58-68 and yields the initial
      state;
    - [step] runs one piece of JavaScript to completion ([ARun]: one
      iteration of the [reduce] callback, which throws out of [createTask]
      where line 107 finds no workspace folder, one [then] handler of the
      chain, or the final handler of lines 188-195), or lets the environment
      act ([AExit]: an engine process finishes and closes its output,
      [AKill]: the caller kills a process through the task's handle list);
    - every effect on the outside world is appended to a trace of [Event]s.

    Collaborators that live outside local.ts (the configuration provider,
    [localize], [addFileIndex], [processWrapper], Node's [path], [fs] and
    [child_process]) are fields of an environment record [Env]. *)

From Stdlib Require Import List String Ascii Bool Arith Lia DecimalString.
From Stdlib Require DecimalNat DecimalFacts.
Import ListNotations.
Open Scope string_scope.
Open Scope list_scope.

Infix "^^" := String.append (at level 60, right associativity).

(** ** Data *)

Definition Buffer := string.
Definition Uri := string.

(** The fields of [Diagram] that [createTask] reads. *)
Record Diagram := {
  content : string;
  pageCount : nat;
  path : string;
  dir : string;
  parentUri : Uri;
  title : string
}.

(** JavaScript truthiness of a string: only the empty string is falsy. *)
Definition truthy (s : string) : bool := negb (String.eqb s "").

(** [format == "emf"] *)
Definition is_emf (o : option string) : bool :=
  match o with Some s => String.eqb s "emf" | None => false end.

(** Template literal [`${index}`]. *)
Definition string_of_nat (n : nat) : string :=
  NilZero.string_of_uint (Nat.to_uint n).

(** The object returned by [path.parse]. *)
Record ParsedPath := {
  pp_root : string;
  pp_dir : string;
  pp_base : string;
  pp_ext : string;
  pp_name : string
}.

(** [path.format({dir, name, ext})] as Node defines it for an object that
    carries neither [root] nor [base]; [sep] is the platform separator. *)
Definition path_format (sep dir name ext : string) : string :=
  if truthy dir then dir ^^ sep ^^ name ^^ ext else name ^^ ext.

(** A process handle, named by the call site that spawned it and the page
    index of the iteration: [EngineProc i] is the result of line 127 in
    iteration [i], [ConverterProc i] the result of line 167 in link [i]. *)
Inductive Handle :=
| EngineProc (index : nat)
| ConverterProc (index : nat).

Definition handle_eqb (a b : Handle) : bool :=
  match a, b with
  | EngineProc i, EngineProc j => Nat.eqb i j
  | ConverterProc i, ConverterProc j => Nat.eqb i j
  | _, _ => false
  end.

Definition handle_in (h : Handle) (l : list Handle) : bool :=
  existsb (handle_eqb h) l.

(** How the promise of [processWrapper] settles: with the produced bytes, or
    with a [RenderError]-shaped object [{error, out}]. *)
Inductive AdapterResult :=
| AdapterOk (stdout : Buffer)
| AdapterErr (error : string) (out : Buffer).

(** [child_process.execFileSync] returns, or throws when the program cannot
    be run or exits with a non-zero status. *)
Inductive ExecResult :=
| ExecReturns
| ExecThrows (e : string).

(** Values a promise of this file is rejected with. *)
Inductive Rejection :=
| RejMessage (msg : string)                      (* a localized string, lines 59 and 63 *)
| RejRenderError (error : string) (out : Buffer) (* <RenderError>{error, out}, line 146 *)
| RejTypeError                                   (* [buffers.push] on [null], line 145 *)
| RejExecError (e : string).                     (* thrown by [execFileSync], line 171 *)

(** State of the promise that feeds a link.  The handlers ignore the value
    of a fulfilled promise, so it is not recorded. *)
Inductive Settled :=
| Fulfilled
| Rejected (r : Rejection).

(** How a call of [createTask] ends for the caller: [RenderTask.promise]
    settles ([artifacts] is [None] for [null]), or [createTask] itself
    throws and the caller gets no task at all. *)
Inductive Outcome :=
| Resolved (artifacts : option (list Buffer))
| RejectedWith (r : Rejection)
| CreateTaskThrew.              (* the TypeError of line 107, [ws] being undefined *)

(** Effects on the outside world. *)
Inductive Event :=
| EvSpawn (h : Handle) (cmd : string) (args : list string)
| EvStdinWrite (h : Handle) (data : string)
| EvStdinEnd (h : Handle)
| EvAdapterCall (h : Handle) (savePath2 : string)
| EvAdapterSettle (h : Handle) (r : AdapterResult)
| EvExecFileSync (cmd : string) (args : list string) (r : ExecResult).

(** ** Environment *)

Record Env := {
  config_java : string;
  config_jar : Uri -> string;
  config_includepaths : Uri -> list string;
  config_diagramsRoot : Uri -> option string;   (* [fsPath] of the root, if any *)
  config_commandArgs : Uri -> list string;
  config_jarArgs : Uri -> list string;
  (* [getWorkspaceFolder(uri)]: the [uri.fsPath] of the folder, [None] for
     [undefined] when no workspace folder contains [uri] *)
  workspaceFolder_fsPath : Uri -> option string;
  fs_existsSync : string -> bool;
  localize : nat -> option string -> list string -> string;
  extensionPath : string;
  addFileIndex : string -> nat -> nat -> string;
  path_sep : string;
  path_delimiter : string;
  path_isAbsolute : string -> bool;
  path_join : string -> string -> string;
  path_basename : string -> string;
  path_parse : string -> ParsedPath;
  (* settled result of the adapter on a process and a destination *)
  processWrapper : Handle -> string -> AdapterResult;
  execFileSync : string -> list string -> ExecResult
}.

(** ** State *)

(** What the closure of one link captures (lines 76, 72 and 127). *)
Record Link := {
  lk_index : nat;
  lk_origFormat : option string;
  lk_process : Handle
}.

Inductive Phase :=
| Launching (index : nat)                 (* [reduce] is about to run iteration [index] *)
| LinkPending (index : nat) (v : Settled) (* the promise feeding link [index] is settled *)
| LinkAwaiting (index : nat) (savePath2 : string)
                                          (* link [index] waits for [processWrapper] *)
| Finished.                               (* [RenderTask.promise] is settled *)

Record State := {
  st_format : option string;            (* parameter [format], reassigned at line 78 *)
  st_savePath : string;                 (* parameter [savePath], reassigned at line 80 *)
  st_processes : option (list Handle);  (* [RenderTask.processes]; [None] when absent *)
  st_buffers : option (list Buffer);    (* [buffers]; [None] for [null] *)
  st_links : list Link;
  st_phase : Phase;
  st_outcome : option Outcome;          (* how the call ended; [None] while pending *)
  st_killed : list Handle;              (* handles whose [killed] flag is set *)
  st_exited : list Handle;              (* processes that have finished *)
  st_trace : list Event
}.

Definition set_phase (p : Phase) (s : State) : State :=
  {| st_format := st_format s; st_savePath := st_savePath s;
     st_processes := st_processes s; st_buffers := st_buffers s;
     st_links := st_links s; st_phase := p; st_outcome := st_outcome s;
     st_killed := st_killed s; st_exited := st_exited s;
     st_trace := st_trace s |}.

Definition set_buffers (b : option (list Buffer)) (s : State) : State :=
  {| st_format := st_format s; st_savePath := st_savePath s;
     st_processes := st_processes s; st_buffers := b;
     st_links := st_links s; st_phase := st_phase s; st_outcome := st_outcome s;
     st_killed := st_killed s; st_exited := st_exited s;
     st_trace := st_trace s |}.

Definition set_outcome (o : Outcome) (s : State) : State :=
  {| st_format := st_format s; st_savePath := st_savePath s;
     st_processes := st_processes s; st_buffers := st_buffers s;
     st_links := st_links s; st_phase := st_phase s; st_outcome := Some o;
     st_killed := st_killed s; st_exited := st_exited s;
     st_trace := st_trace s |}.

Definition emit (evs : list Event) (s : State) : State :=
  {| st_format := st_format s; st_savePath := st_savePath s;
     st_processes := st_processes s; st_buffers := st_buffers s;
     st_links := st_links s; st_phase := st_phase s; st_outcome := st_outcome s;
     st_killed := st_killed s; st_exited := st_exited s;
     st_trace := st_trace s ++ evs |}.

Definition mark_killed (h : Handle) (s : State) : State :=
  {| st_format := st_format s; st_savePath := st_savePath s;
     st_processes := st_processes s; st_buffers := st_buffers s;
     st_links := st_links s; st_phase := st_phase s; st_outcome := st_outcome s;
     st_killed := h :: st_killed s; st_exited := st_exited s;
     st_trace := st_trace s |}.

Definition mark_exited (h : Handle) (s : State) : State :=
  {| st_format := st_format s; st_savePath := st_savePath s;
     st_processes := st_processes s; st_buffers := st_buffers s;
     st_links := st_links s; st_phase := st_phase s; st_outcome := st_outcome s;
     st_killed := st_killed s; st_exited := h :: st_exited s;
     st_trace := st_trace s |}.

(** The handle list as the caller sees it (empty when the field is absent). *)
Definition procs (s : State) : list Handle :=
  match st_processes s with Some l => l | None => [] end.

(** What can happen next: the event loop runs the next piece of the task's
    JavaScript, an engine process finishes, or the caller kills a process. *)
Inductive Action :=
| ARun
| AExit (h : Handle)
| AKill (h : Handle).

(** ** The orchestrator *)

Definition inkscape : string := "/usr/bin/inkscape".

(** Lines 19-21. *)
Definition limitConcurrency : bool := true.

(** Lines 26-42: the formats the renderer advertises. *)
Definition formats : list string :=
  ["png"; "svg"; "emf"; "eps"; "pdf"; "vdx"; "xmi"; "scxml"; "html"; "txt";
   "utxt"; "latex"; "latex:nopreamble"].

(** An effect of the conversion stage. *)
Definition is_converter (ev : Event) : bool :=
  match ev with
  | EvSpawn (ConverterProc _) _ _ => true
  | EvExecFileSync _ _ _ => true
  | _ => false
  end.

(** Lines 102 and 106-108: an include folder as it enters the include path.
    A relative folder is joined to the workspace folder of the diagram;
    [None] when there is no such folder, where [ws.uri] throws a
    TypeError. *)
Definition resolveFolder (env : Env) (diagram : Diagram) (folderPath : string)
  : option string :=
  if path_isAbsolute env folderPath then Some folderPath
  else
    match workspaceFolder_fsPath env (parentUri diagram) with
    | Some ws => Some (path_join env ws folderPath)
    | None => None
    end.

(** [createTask] threw inside the [reduce] loop: the exception leaves
    [reduce] and [createTask], and the caller gets neither a handle list
    nor a promise. *)
Definition createTaskThrows (s : State) : State :=
  {| st_format := st_format s; st_savePath := st_savePath s;
     st_processes := None; st_buffers := st_buffers s;
     st_links := st_links s; st_phase := Finished;
     st_outcome := Some CreateTaskThrew;
     st_killed := st_killed s; st_exited := st_exited s;
     st_trace := st_trace s |}.

Section CreateTask.

Variable env : Env.
Variable diagram : Diagram.
Variable taskType : string.

(** Lines 104-110, one round of the loop over the include folders; [acc]
    is [None] once line 107 has thrown. *)
Definition addIncludeFolder (acc : option string) (folderPath : string)
  : option string :=
  match acc with
  | None => None
  | Some includePath =>
      if truthy folderPath then
        match resolveFolder env diagram folderPath with
        | Some folder => Some (includePath ^^ path_delimiter env ^^ folder)
        | None => None
        end
      else Some includePath
  end.

(** Lines 97-115: the include path handed to the engine; [None] when line
    107 throws. *)
Definition includePath : option string :=
  let uri := parentUri diagram in
  let own :=
    if truthy (dir diagram) && path_isAbsolute env (dir diagram)
    then dir diagram else "" in
  match fold_left addIncludeFolder (config_includepaths env uri) (Some own) with
  | None => None
  | Some withFolders =>
      Some match config_diagramsRoot env uri with
           | Some root => withFolders ^^ path_delimiter env ^^ root
           | None => withFolders
           end
  end.

(** Lines 87-95 and 117-126: the argument vector of the engine for page
    [index], given the include path [incl] of lines 97-115 and the current
    value of [format]. *)
Definition engineParams (incl : string) (format : option string) (index : nat)
  : list string :=
  let uri := parentUri diagram in
  config_commandArgs env uri
  ++ ["-Dplantuml.include.path=" ^^ incl]
  ++ ["-Djava.awt.headless=true"; "-jar"; config_jar env uri;
      "-pipeimageindex"; string_of_nat index; "-charset"; "utf-8"]
  ++ [taskType]
  ++ match format with
     | Some f => if truthy f then ["-t" ^^ f] else []
     | None => []
     end
  ++ (if truthy (path diagram)
      then ["-filename"; path_basename env (path diagram)] else [])
  ++ config_jarArgs env uri.

(** Lines 79-84: the destination with its extension replaced by [.svg]. *)
Definition svgSavePath (savePath : string) : string :=
  let savePathParsed := path_parse env savePath in
  path_format (path_sep env) (pp_dir savePathParsed) (pp_name savePathParsed) ".svg".

(** Lines 73-85 and 117-130, one [reduce] iteration whose include path
    is [incl]: capture [origFormat], swap [format] and [savePath] when
    [format] is "emf", spawn the engine, record its handle, and chain the
    link. *)
Definition spawnPage (incl : string) (index : nat) (s : State) : State :=
  let origFormat := st_format s in
  let format := if is_emf (st_format s) then Some "svg" else st_format s in
  let savePath :=
    if is_emf (st_format s) then svgSavePath (st_savePath s) else st_savePath s in
  let process := EngineProc index in
  {| st_format := format;
     st_savePath := savePath;
     st_processes := Some (procs s ++ [process]);
     st_buffers := st_buffers s;
     st_links := st_links s ++ [ {| lk_index := index;
                                    lk_origFormat := origFormat;
                                    lk_process := process |} ];
     st_phase := Launching (S index);
     st_outcome := st_outcome s;
     st_killed := st_killed s;
     st_exited := st_exited s;
     st_trace := st_trace s
                 ++ [EvSpawn process (config_java env)
                       (engineParams incl format index)] |}.

(** Lines 73-130, the synchronous part of one [reduce] iteration: it
    throws where the include path cannot be built, before the engine is
    spawned. *)
Definition launchPage (index : nat) (s : State) : State :=
  match includePath with
  | Some incl => spawnPage incl index s
  | None => createTaskThrows s
  end.

(** Line 142. *)
Definition savePath2Of (savePath : string) (index : nat) : string :=
  if truthy savePath then addFileIndex env savePath index (pageCount diagram)
  else "".

(** Lines 131-144, the fulfilment handler of a link up to the call of
    [processWrapper]. *)
Definition linkFulfilled (pos : nat) (lk : Link) (s : State) : State :=
  if handle_in (lk_process lk) (st_killed s) then
    set_phase (LinkPending (S pos) Fulfilled) (set_buffers None s)
  else
    let s1 :=
      if truthy (content diagram)
      then emit [EvStdinWrite (lk_process lk) (content diagram);
                 EvStdinEnd (lk_process lk)] s
      else s in
    let savePath2 := savePath2Of (st_savePath s) (lk_index lk) in
    set_phase (LinkAwaiting pos savePath2)
      (emit [EvAdapterCall (lk_process lk) savePath2] s1).

(** Lines 154-159. *)
Definition emfOutputFileName (savePath2 : string) : string :=
  let svgInputFile := path_parse env savePath2 in
  path_format (path_sep env) (pp_dir svgInputFile) (pp_name svgInputFile) ".emf".

(** Lines 161-165. *)
Definition converterParams (savePath2 : string) : list string :=
  ["--without-gui"; "--export-emf=" ^^ emfOutputFileName savePath2; savePath2].

(** Lines 147-174, the conversion stage that follows a successful push. *)
Definition convertStage (pos : nat) (lk : Link) (savePath2 : string) (s : State)
  : State :=
  if is_emf (lk_origFormat lk) then
    let params := converterParams savePath2 in
    let r := execFileSync env inkscape params in
    set_phase
      (LinkPending (S pos)
         match r with
         | ExecReturns => Fulfilled
         | ExecThrows e => Rejected (RejExecError e)
         end)
      (emit [EvSpawn (ConverterProc (lk_index lk)) inkscape params;
             EvExecFileSync inkscape params r] s)
  else set_phase (LinkPending (S pos) Fulfilled) s.

(** Lines 144-174, run when the promise of [processWrapper] settles. *)
Definition adapterSettled (pos : nat) (lk : Link) (savePath2 : string) (s : State)
  : State :=
  let r := processWrapper env (lk_process lk) savePath2 in
  let s1 := emit [EvAdapterSettle (lk_process lk) r] s in
  match r with
  | AdapterErr error out =>
      set_phase
        (LinkPending (S pos)
           (Rejected
              (RejRenderError (localize env 10 None [title diagram; error]) out)))
        s1
  | AdapterOk stdout =>
      match st_buffers s1 with
      | None => set_phase (LinkPending (S pos) (Rejected RejTypeError)) s1
      | Some bs => convertStage pos lk savePath2 (set_buffers (Some (bs ++ [stdout])) s1)
      end
  end.

(** Lines 186-197: the handlers that settle [RenderTask.promise]. *)
Definition settleTask (v : Settled) (s : State) : State :=
  set_phase Finished
    (set_outcome
       match v with
       | Fulfilled => Resolved (st_buffers s)
       | Rejected r => RejectedWith r
       end s).

(** Lines 58-68: preflight and the initial values of the locals. *)
Definition createTask (savePath : string) (format : option string) : State :=
  let rejected msg :=
    {| st_format := format; st_savePath := savePath;
       st_processes := None; st_buffers := Some [];
       st_links := []; st_phase := Finished;
       st_outcome := Some (RejectedWith (RejMessage msg));
       st_killed := []; st_exited := []; st_trace := [] |} in
  if negb (truthy (config_java env)) then
    rejected (localize env 5 None [])
  else if negb (fs_existsSync env (config_jar env (parentUri diagram))) then
    rejected (localize env 6 None [extensionPath env])
  else
    {| st_format := format; st_savePath := savePath;
       st_processes := Some []; st_buffers := Some [];
       st_links := []; st_phase := Launching 0;
       st_outcome := None;
       st_killed := []; st_exited := []; st_trace := [] |}.

(** One transition.  [ARun] runs the next piece of JavaScript; it changes
    nothing while the chain waits for a process that has not finished.
    The rejection handler of a link (lines 177-179) forwards the error. *)
Definition step (a : Action) (s : State) : State :=
  match a with
  | AKill h => if handle_in h (procs s) then mark_killed h s else s
  | AExit h => if handle_in h (procs s) then mark_exited h s else s
  | ARun =>
      match st_phase s with
      | Launching index =>
          if Nat.ltb index (pageCount diagram) then launchPage index s
          else set_phase (LinkPending 0 Fulfilled) s
      | LinkPending pos v =>
          match nth_error (st_links s) pos with
          | Some lk =>
              match v with
              | Fulfilled => linkFulfilled pos lk s
              | Rejected r => set_phase (LinkPending (S pos) (Rejected r)) s
              end
          | None => settleTask v s
          end
      | LinkAwaiting pos savePath2 =>
          match nth_error (st_links s) pos with
          | Some lk =>
              if handle_in (lk_process lk) (st_exited s)
              then adapterSettled pos lk savePath2 s
              else s
          | None => s
          end
      | Finished => s
      end
  end.

Definition exec (acts : list Action) (s : State) : State :=
  fold_left (fun st a => step a st) acts s.

Definition run (savePath : string) (format : option string) (acts : list Action)
  : State :=
  exec acts (createTask savePath format).

End CreateTask.

(** Lines 50-56, the two entry points: the runs of the task each returns. *)
Definition render (env : Env) (diagram : Diagram) (format savePath : string)
  (acts : list Action) : State :=
  run env diagram "-pipe" savePath (Some format) acts.

Definition getMapData (env : Env) (diagram : Diagram) (savePath : string)
  (acts : list Action) : State :=
  run env diagram "-pipemap" savePath None acts.

(** ** A POSIX environment for the examples *)

(** Position of the last occurrence of [c] in [s]. *)
Fixpoint rindex (c : ascii) (s : string) : option nat :=
  match s with
  | EmptyString => None
  | String a r =>
      match rindex c r with
      | Some i => Some (S i)
      | None => if Ascii.eqb a c then Some 0 else None
      end
  end.

(** [path.parse] of Node's POSIX flavour, for paths that do not end in a
    separator. *)
Definition posix_parse (p : string) : ParsedPath :=
  let root := match p with String "/" _ => "/" | _ => "" end in
  let '(d, b) :=
    match rindex "/" p with
    | None => ("", p)
    | Some i =>
        (if Nat.eqb i 0 then "/" else substring 0 i p,
         substring (S i) (String.length p - S i) p)
    end in
  let '(n, e) :=
    match rindex "." b with
    | Some (S j) =>
        if String.eqb b ".." then (b, "")
        else (substring 0 (S j) b, substring (S j) (String.length b - S j) b)
    | _ => (b, "")
    end in
  {| pp_root := root; pp_dir := d; pp_base := b; pp_ext := e; pp_name := n |}.

Definition posix_join (a b : string) : string :=
  if truthy a then a ^^ "/" ^^ b else b.

(** A page-indexed file name for the examples: unchanged for a single
    page, otherwise [-page<index+1>] goes before the extension. *)
Definition sample_addFileIndex (fileName : string) (index count : nat) : string :=
  if Nat.eqb count 1 then fileName
  else
    let p := posix_parse fileName in
    posix_join (pp_dir p)
      (pp_name p ^^ "-page" ^^ string_of_nat (index + 1) ^^ pp_ext p).

Definition sample_localize (key : nat) (dflt : option string) (args : list string)
  : string :=
  "msg" ^^ string_of_nat key ^^ "(" ^^ String.concat "," args ^^ ")".

Definition sampleEnvIn (ws : option string) (java : string) (jarExists : bool)
  (adapter : Handle -> string -> AdapterResult)
  (converter : string -> list string -> ExecResult) : Env :=
  {| config_java := java;
     config_jar := fun _ => "/ext/plantuml.jar";
     config_includepaths := fun _ => ["inc"; ""; "/abs"];
     config_diagramsRoot := fun _ => Some "/ws/diagrams";
     config_commandArgs := fun _ => ["-Xmx64m"];
     config_jarArgs := fun _ => ["-nbthread"; "1"];
     workspaceFolder_fsPath := fun _ => ws;
     fs_existsSync := fun _ => jarExists;
     localize := sample_localize;
     extensionPath := "/ext";
     addFileIndex := sample_addFileIndex;
     path_sep := "/";
     path_delimiter := ":";
     path_isAbsolute := fun p => match p with String "/" _ => true | _ => false end;
     path_join := posix_join;
     path_basename := fun p => pp_base (posix_parse p);
     path_parse := posix_parse;
     processWrapper := adapter;
     execFileSync := converter |}.

(** The diagram lies in the workspace folder /ws. *)
Definition sampleEnv := sampleEnvIn (Some "/ws").

Definition sampleDiagram (pages : nat) : Diagram :=
  {| content := "@startuml"; pageCount := pages; path := "/ws/a.puml";
     dir := "/ws"; parentUri := "file:///ws/a.puml"; title := "a" |}.

(** Every engine process answers with the bytes ["page<i>"]. *)
Definition adapterAllOk (h : Handle) (savePath2 : string) : AdapterResult :=
  match h with
  | EngineProc i => AdapterOk ("page" ^^ string_of_nat i)
  | ConverterProc _ => AdapterErr "no adapter" ""
  end.

(** As [adapterAllOk], but the engine of page [k] fails. *)
Definition adapterFailsAt (k : nat) (h : Handle) (savePath2 : string)
  : AdapterResult :=
  match h with
  | EngineProc i =>
      if Nat.eqb i k then AdapterErr "syntax error" "partial"
      else AdapterOk ("page" ^^ string_of_nat i)
  | ConverterProc _ => AdapterErr "no adapter" ""
  end.

Definition converterOk (cmd : string) (args : list string) : ExecResult :=
  ExecReturns.

Definition converterFails (cmd : string) (args : list string) : ExecResult :=
  ExecThrows "spawnSync /usr/bin/inkscape ENOENT".

(** A schedule for [n] pages: the loop and the return of [createTask], then
    the caller kills the processes of [kills], the processes finish in the
    order [exits], and the event loop takes enough turns to drain the chain. *)
Definition sampleSchedule (n : nat) (kills exits : list nat) : list Action :=
  repeat ARun (S n)
  ++ map (fun i => AKill (EngineProc i)) kills
  ++ map (fun i => AExit (EngineProc i)) exits
  ++ repeat ARun (2 * n + 1).

(** Sample runs: two pages to buffers, drained in page order although page
    1 finishes first; two pages on the two-stage path; a diagram without
    content. *)
Definition plainEnv : Env := sampleEnv "java" true adapterAllOk converterOk.

(** As [plainEnv], but no workspace folder contains the diagram; "inc" is a
    relative include folder of the sample configuration. *)
Definition noWorkspaceEnv : Env :=
  sampleEnvIn None "java" true adapterAllOk converterOk.

Abbreviation twoPagesDrained :=
  (run plainEnv (sampleDiagram 2) "-pipe" "" (Some "png") (sampleSchedule 2 [] [1; 0])).

Abbreviation twoPagesEmf :=
  (run plainEnv (sampleDiagram 2) "-pipe" "/out/d.emf" (Some "emf")
     (sampleSchedule 2 [] [0; 1])).

Definition silentDiagram : Diagram :=
  {| content := ""; pageCount := 1; path := ""; dir := "rel";
     parentUri := "untitled:1"; title := "untitled" |}.

(** Number of turns of the event loop in a schedule. *)
Fixpoint runs (acts : list Action) : nat :=
  match acts with
  | [] => 0
  | ARun :: rest => S (runs rest)
  | _ :: rest => runs rest
  end.

(** The effects one transition can add to the trace. *)
Inductive Block : list Event -> Prop :=
| BkNone : Block []
| BkSpawn i cmd args : Block [EvSpawn (EngineProc i) cmd args]
| BkFeedWrite i data sp2 :
    Block [EvStdinWrite (EngineProc i) data; EvStdinEnd (EngineProc i);
           EvAdapterCall (EngineProc i) sp2]
| BkFeed i sp2 : Block [EvAdapterCall (EngineProc i) sp2]
| BkSettle i r : Block [EvAdapterSettle (EngineProc i) r]
| BkConvert i b args r :
    Block [EvAdapterSettle (EngineProc i) (AdapterOk b);
           EvSpawn (ConverterProc i) inkscape args;
           EvExecFileSync inkscape args r].

Inductive Blocks : list Event -> Prop :=
| BlocksNil : Blocks []
| BlocksApp tr new : Blocks tr -> Block new -> Blocks (tr ++ new).

(** ** Reachable states of one task *)

Section Task.

Variable env : Env.
Variable diagram : Diagram.
Variable taskType : string.
Variable savePath : string.
Variable format : option string.

Local Abbreviation N := (pageCount diagram) (only parsing).
Local Abbreviation step' := (step env diagram taskType) (only parsing).
Local Abbreviation exec' := (exec env diagram taskType) (only parsing).
Local Abbreviation run' := (run env diagram taskType savePath format) (only parsing).

(** The preflight of lines 58-65 lets the task start. *)
Definition preflight_ok : bool :=
  truthy (config_java env) && fs_existsSync env (config_jar env (parentUri diagram)).

(** The loop of lines 71-183 gets past the include path: there is no
    iteration at all, or line 107 does not throw. *)
Definition launch_ok : bool :=
  Nat.eqb N 0
  || match includePath env diagram with Some _ => true | None => false end.

(** The task starts: [createTask] returns a task whose promise is pending. *)
Definition started : bool := preflight_ok && launch_ok.

(** The include path of a task that starts. *)
Definition includeArg : string :=
  match includePath env diagram with Some incl => incl | None => "" end.

(** Values of the reassigned parameters once [k] iterations have run: the
    first iteration swaps them when "emf" was requested, and later ones
    find [format] already changed. *)
Definition formatAfter (k : nat) : option string :=
  match k with
  | 0 => format
  | S _ => if is_emf format then Some "svg" else format
  end.

Definition savePathAfter (k : nat) : string :=
  match k with
  | 0 => savePath
  | S _ => if is_emf format then svgSavePath env savePath else savePath
  end.

(** The closure chained by iteration [i]. *)
Definition linkOf (i : nat) : Link :=
  {| lk_index := i; lk_origFormat := formatAfter i; lk_process := EngineProc i |}.

(** The spawn of iteration [i]. *)
Definition spawnOf (i : nat) : Event :=
  EvSpawn (EngineProc i) (config_java env)
    (engineParams env diagram taskType includeArg (formatAfter (S i)) i).

(** The destination handed to the adapter for page [i]. *)
Definition savePath2At (i : nat) : string :=
  savePath2Of env diagram (savePathAfter N) i.

(** What link [i] does to its process before it waits for the adapter. *)
Definition feedEvents (i : nat) : list Event :=
  (if truthy (content diagram)
   then [EvStdinWrite (EngineProc i) (content diagram); EvStdinEnd (EngineProc i)]
   else [])
  ++ [EvAdapterCall (EngineProc i) (savePath2At i)].

Definition reachable (s : State) : Prop := exists acts, s = run' acts.

(** The two states of a call that throws at line 107: the loop has not run
    yet, or its first iteration has thrown. *)
Definition initial : State :=
  {| st_format := format; st_savePath := savePath;
     st_processes := Some []; st_buffers := Some [];
     st_links := []; st_phase := Launching 0;
     st_outcome := None;
     st_killed := []; st_exited := []; st_trace := [] |}.

Definition aborted (s : State) : Prop :=
  s = initial \/ s = createTaskThrows initial.

(** The shape of the task's own variables in a state of a started task. *)
Definition wf (s : State) : Prop :=
  let k := List.length (st_links s) in
  st_links s = map linkOf (seq 0 k)
  /\ st_processes s = Some (map EngineProc (seq 0 k))
  /\ st_format s = formatAfter k
  /\ st_savePath s = savePathAfter k
  /\ k <= N
  /\ match st_phase s with
     | Launching j => j = k /\ st_outcome s = None /\ launch_ok = true
     | LinkPending i v => k = N /\ i <= N /\ st_outcome s = None
     | LinkAwaiting i sp2 =>
         k = N /\ i < N /\ sp2 = savePath2At i /\ st_outcome s = None
     | Finished => k = N /\ exists o, st_outcome s = Some o
     end.

(** The transitions of a started task, one constructor per path through
    [step]. *)
Inductive Moves (s : State) : State -> Prop :=
| MvStutter : Moves s s
| MvKill h : In h (procs s) -> Moves s (mark_killed h s)
| MvExit h : In h (procs s) -> Moves s (mark_exited h s)
| MvLaunch j :
    st_phase s = Launching j -> j < N ->
    Moves s (spawnPage env diagram taskType includeArg j s)
| MvLaunched :
    st_phase s = Launching N ->
    Moves s (set_phase (LinkPending 0 Fulfilled) s)
| MvSkipKilled i :
    st_phase s = LinkPending i Fulfilled -> i < N ->
    In (EngineProc i) (st_killed s) ->
    Moves s (set_phase (LinkPending (S i) Fulfilled) (set_buffers None s))
| MvFeed i :
    st_phase s = LinkPending i Fulfilled -> i < N ->
    ~ In (EngineProc i) (st_killed s) ->
    Moves s (set_phase (LinkAwaiting i (savePath2At i)) (emit (feedEvents i) s))
| MvForward i r :
    st_phase s = LinkPending i (Rejected r) -> i < N ->
    Moves s (set_phase (LinkPending (S i) (Rejected r)) s)
| MvSettle v :
    st_phase s = LinkPending N v ->
    Moves s (settleTask v s)
| MvAdapterErr i e out :
    st_phase s = LinkAwaiting i (savePath2At i) -> i < N ->
    In (EngineProc i) (st_exited s) ->
    processWrapper env (EngineProc i) (savePath2At i) = AdapterErr e out ->
    Moves s
      (set_phase
         (LinkPending (S i)
            (Rejected (RejRenderError (localize env 10 None [title diagram; e]) out)))
         (emit [EvAdapterSettle (EngineProc i) (AdapterErr e out)] s))
| MvPushNull i b :
    st_phase s = LinkAwaiting i (savePath2At i) -> i < N ->
    In (EngineProc i) (st_exited s) ->
    processWrapper env (EngineProc i) (savePath2At i) = AdapterOk b ->
    st_buffers s = None ->
    Moves s
      (set_phase (LinkPending (S i) (Rejected RejTypeError))
         (emit [EvAdapterSettle (EngineProc i) (AdapterOk b)] s))
| MvPush i b bs :
    st_phase s = LinkAwaiting i (savePath2At i) -> i < N ->
    In (EngineProc i) (st_exited s) ->
    processWrapper env (EngineProc i) (savePath2At i) = AdapterOk b ->
    st_buffers s = Some bs ->
    is_emf (formatAfter i) = false ->
    Moves s
      (set_phase (LinkPending (S i) Fulfilled)
         (set_buffers (Some (bs ++ [b]))
            (emit [EvAdapterSettle (EngineProc i) (AdapterOk b)] s)))
| MvConvert i b bs r :
    st_phase s = LinkAwaiting i (savePath2At i) -> i < N ->
    In (EngineProc i) (st_exited s) ->
    processWrapper env (EngineProc i) (savePath2At i) = AdapterOk b ->
    st_buffers s = Some bs ->
    is_emf (formatAfter i) = true ->
    execFileSync env inkscape (converterParams env (savePath2At i)) = r ->
    Moves s
      (set_phase
         (LinkPending (S i)
            match r with
            | ExecReturns => Fulfilled
            | ExecThrows e => Rejected (RejExecError e)
            end)
         (set_buffers (Some (bs ++ [b]))
            (emit [EvAdapterSettle (EngineProc i) (AdapterOk b);
                   EvSpawn (ConverterProc i) inkscape
                     (converterParams env (savePath2At i));
                   EvExecFileSync inkscape
                     (converterParams env (savePath2At i)) r] s))).

(** The chain carries rejection [r] to the task's promise, or has done so. *)
Definition failing (r : Rejection) (s : State) : Prop :=
  (exists i, st_phase s = LinkPending i (Rejected r))
  \/ (st_phase s = Finished /\ st_outcome s = Some (RejectedWith r)).

(** The rejection an effect stands for, if it is a failure. *)
Definition rejection_of (ev : Event) : option Rejection :=
  match ev with
  | EvAdapterSettle _ (AdapterErr e out) =>
      Some (RejRenderError (localize env 10 None [title diagram; e]) out)
  | EvExecFileSync _ _ (ExecThrows e) => Some (RejExecError e)
  | _ => None
  end.

(** Bounds on the pages the trace may already mention: pages below
    [fed_bound] may have been fed, pages below [settled_bound] consumed. *)
Definition fed_bound (s : State) : nat :=
  match st_phase s with
  | Launching _ => 0
  | LinkPending i _ => i
  | LinkAwaiting i _ => S i
  | Finished => N
  end.

Definition settled_bound (s : State) : nat :=
  match st_phase s with
  | Launching _ => 0
  | LinkPending i _ => i
  | LinkAwaiting i _ => i
  | Finished => N
  end.

(** Page index an effect of the drain phase belongs to. *)
Definition fed_page (ev : Event) : option nat :=
  match ev with
  | EvStdinWrite (EngineProc i) _ => Some i
  | EvStdinEnd (EngineProc i) => Some i
  | EvAdapterCall (EngineProc i) _ => Some i
  | _ => None
  end.

Definition settled_page (ev : Event) : option nat :=
  match ev with
  | EvAdapterSettle (EngineProc i) _ => Some i
  | EvSpawn (ConverterProc i) _ _ => Some i
  | _ => None
  end.

(** Page [i] is behind the chain: its output was consumed (and, when its
    link captured "emf", converted), or its process was killed and its link
    skipped, so that the adapter was never called on it. *)
Definition page_done (i : nat) (tr : list Event) (killed : list Handle) : Prop :=
  (exists b,
      In (EvAdapterSettle (EngineProc i) (AdapterOk b)) tr
      /\ (is_emf (formatAfter i) = true ->
          exists args,
            In (EvSpawn (ConverterProc i) inkscape args) tr
            /\ In (EvExecFileSync inkscape args ExecReturns) tr))
  \/ (In (EngineProc i) killed
      /\ forall sp, ~ In (EvAdapterCall (EngineProc i) sp) tr).

(** The chain stands before page [i+1], or has fed it, only when page [i]
    is behind it. *)
Definition page_gate (s : State) : Prop :=
  (forall i,
      st_phase s = LinkPending (S i) Fulfilled ->
      page_done i (st_trace s) (st_killed s))
  /\ (forall i data pre post,
         st_trace s = pre ++ EvStdinWrite (EngineProc (S i)) data :: post ->
         page_done i pre (st_killed s)).

(** [b] is what the adapter produced for some page. *)
Definition adapter_output (b : Buffer) : Prop :=
  exists i, i < N /\ processWrapper env (EngineProc i) (savePath2At i) = AdapterOk b.

(** With no process killed, no adapter failure and no converter failure,
    [buffers] holds the outputs [out 0 .. out (i-1)] of the pages behind the
    chain, and the chain is not rejected. *)
Definition on_track (out : nat -> Buffer) (s : State) : Prop :=
  st_killed s = [] ->
  match st_phase s with
  | Launching _ => st_buffers s = Some []
  | LinkPending i v => v = Fulfilled /\ st_buffers s = Some (map out (seq 0 i))
  | LinkAwaiting i _ => st_buffers s = Some (map out (seq 0 i))
  | Finished => st_outcome s = Some (Resolved (Some (map out (seq 0 N))))
  end.

(** The artifact list and the resolved value hold adapter outputs only. *)
Definition only_adapter_outputs (s : State) : Prop :=
  (forall bs, st_buffers s = Some bs -> Forall adapter_output bs)
  /\ (forall bs, st_outcome s = Some (Resolved (Some bs)) -> Forall adapter_output bs).

(** Upper bound on the turns of the event loop a task still needs once its
    processes have finished. *)
Definition turns_left (s : State) : nat :=
  match st_phase s with
  | Launching j => (N - j) + 2 * N + 2
  | LinkPending i _ => 2 * (N - i) + 1
  | LinkAwaiting i _ => 2 * (N - i)
  | Finished => 0
  end.

(** The trace mentions only pages the chain has reached. *)
Definition pages_in_order (s : State) : Prop :=
  forall ev m, In ev (st_trace s) ->
    (fed_page ev = Some m -> m < fed_bound s)
    /\ (settled_page ev = Some m -> m < settled_bound s).

(** Every failure in the trace is on its way to the task's promise. *)
Definition failures_carried (s : State) : Prop :=
  forall ev r, In ev (st_trace s) -> rejection_of ev = Some r -> failing r s.

(** After an adapter failure on page [k] only pages up to [k] were fed. *)
Definition fed_up_to_failure (s : State) : Prop :=
  forall k e out,
    In (EvAdapterSettle (EngineProc k) (AdapterErr e out)) (st_trace s) ->
    forall ev j, In ev (st_trace s) -> fed_page ev = Some j -> j <= k.

(** Handlers a rejection still has to pass before it reaches the task. *)
Definition hops_left (s : State) : nat :=
  match st_phase s with
  | LinkPending i _ => S N - i
  | _ => 0
  end.

(** Pages are fed in increasing order: an effect on a page never comes
    after an effect on a later page. *)
Definition fed_in_order (s : State) : Prop :=
  forall pre e1 e2 post i j,
    st_trace s = pre ++ e2 :: post -> In e1 pre ->
    fed_page e1 = Some i -> fed_page e2 = Some j -> i <= j.

(** Around a call of the adapter on page [i]: no earlier call on that page,
    and only later pages afterwards. *)
Definition called_once (s : State) : Prop :=
  forall pre i sp post,
    st_trace s = pre ++ EvAdapterCall (EngineProc i) sp :: post ->
    (forall sp', ~ In (EvAdapterCall (EngineProc i) sp') pre)
    /\ (forall ev j, In ev post -> fed_page ev = Some j -> i < j).

(** An effect on the standard input of a process. *)
Definition is_stdin (ev : Event) : bool :=
  match ev with
  | EvStdinWrite _ _ => true
  | EvStdinEnd _ => true
  | _ => false
  end.

(** What stands behind a rejection of the chain. *)
Definition rejection_cause (r : Rejection) (s : State) : Prop :=
  match r with
  | RejMessage _ => False
  | RejRenderError m out =>
      exists k e,
        In (EvAdapterSettle (EngineProc k) (AdapterErr e out)) (st_trace s)
        /\ m = localize env 10 None [title diagram; e]
  | RejTypeError => st_buffers s = None
  | RejExecError e =>
      is_emf format = true
      /\ exists args, In (EvExecFileSync inkscape args (ExecThrows e)) (st_trace s)
  end.

(** Rejections of the chain and of the task have a cause; a resolved task
    holds the artifact list; a discarded list goes back to a kill. *)
Definition accounted (s : State) : Prop :=
  (forall i r, st_phase s = LinkPending i (Rejected r) -> rejection_cause r s)
  /\ (forall r, st_outcome s = Some (RejectedWith r) -> rejection_cause r s)
  /\ (forall b, st_outcome s = Some (Resolved b) -> b = st_buffers s)
  /\ (st_buffers s = None -> exists k, In (EngineProc k) (st_killed s)).

(** ** General facts *)

Lemma handle_eqb_eq (a b : Handle) : handle_eqb a b = true <-> a = b.
Proof.
  destruct a as [i|i], b as [j|j]; simpl; try rewrite Nat.eqb_eq;
    split; intro H; try discriminate; try (inversion H; reflexivity);
    subst; reflexivity.
Qed.

Lemma handle_in_In (h : Handle) (l : list Handle) :
  handle_in h l = true <-> In h l.
Proof.
  unfold handle_in. rewrite existsb_exists. split.
  - intros [x [Hx He]]. apply handle_eqb_eq in He. subst. exact Hx.
  - intro Hin. exists h. split; [exact Hin | apply handle_eqb_eq; reflexivity].
Qed.

Lemma handle_in_false (h : Handle) (l : list Handle) :
  handle_in h l = false <-> ~ In h l.
Proof.
  rewrite <- handle_in_In. destruct (handle_in h l); split; intro H;
    try discriminate; try reflexivity; try (exfalso; apply H; reflexivity).
Qed.

Lemma nth_error_map_seq {A} (f : nat -> A) (n i : nat) :
  nth_error (map f (seq 0 n)) i = if Nat.ltb i n then Some (f i) else None.
Proof.
  destruct (Nat.ltb_spec i n) as [Hlt|Hge].
  - rewrite nth_error_map, nth_error_seq.
    apply Nat.ltb_lt in Hlt. rewrite Hlt. reflexivity.
  - apply nth_error_None. rewrite length_map, length_seq. exact Hge.
Qed.

Lemma In_map_seq {A} (f : nat -> A) (n : nat) (x : A) :
  In x (map f (seq 0 n)) <-> exists i, i < n /\ x = f i.
Proof.
  rewrite in_map_iff. split.
  - intros [i [He Hi]]. apply in_seq in Hi. exists i. split; [lia | congruence].
  - intros [i [Hi He]]. exists i. split; [congruence | apply in_seq; lia].
Qed.

Lemma map_seq_S {A} (f : nat -> A) (n : nat) :
  map f (seq 0 (S n)) = map f (seq 0 n) ++ [f n].
Proof. rewrite seq_S, map_app. reflexivity. Qed.

(** Splitting an occurrence in a trace that was extended at its end. *)
Lemma app_split_occurrence {A} (tr new pre post : list A) (x : A) :
  tr ++ new = pre ++ x :: post ->
  (exists post', tr = pre ++ x :: post' /\ post = post' ++ new)
  \/ (exists pre', pre = tr ++ pre' /\ new = pre' ++ x :: post).
Proof.
  revert pre. induction tr as [|a tr IH]; intros pre Heq.
  - right. exists pre. simpl in *. split; [reflexivity | exact Heq].
  - destruct pre as [|b pre]; simpl in Heq.
    + inversion Heq; subst. left. exists tr. split; reflexivity.
    + inversion Heq; subst.
      destruct (IH pre H1) as [[post' [H2 H3]]|[pre' [H2 H3]]].
      * left. exists post'. subst. split; reflexivity.
      * right. exists pre'. subst. split; reflexivity.
Qed.

Lemma append_assoc (a b c : string) : (a ^^ b) ^^ c = a ^^ (b ^^ c).
Proof.
  induction a as [|x a IH]; simpl; [reflexivity | rewrite IH; reflexivity].
Qed.

(** A formatted path ends with the extension it was given. *)
Lemma path_format_suffix (sep dir name ext : string) :
  exists stem, path_format sep dir name ext = stem ^^ ext.
Proof.
  unfold path_format. destruct (truthy dir).
  - exists (dir ^^ sep ^^ name). rewrite !append_assoc. reflexivity.
  - exists name. reflexivity.
Qed.

Lemma runs_app (a1 a2 : list Action) : runs (a1 ++ a2) = runs a1 + runs a2.
Proof.
  induction a1 as [|a a1 IH]; [reflexivity |].
  destruct a; simpl; rewrite IH; reflexivity.
Qed.

(** ** Runs *)

Lemma exec_app (a1 a2 : list Action) (s : State) :
  exec' (a1 ++ a2) s = exec' a2 (exec' a1 s).
Proof. unfold exec. apply fold_left_app. Qed.

Lemma run_app (a1 a2 : list Action) : run' (a1 ++ a2) = exec' a2 (run' a1).
Proof. unfold run. apply exec_app. Qed.

Lemma exec_cons (a : Action) (acts : list Action) (s : State) :
  exec' (a :: acts) s = exec' acts (step' a s).
Proof. reflexivity. Qed.

Lemma reachable_exec (s : State) (acts : list Action) :
  reachable s -> reachable (exec' acts s).
Proof.
  intros [a0 ->]. exists (a0 ++ acts). symmetry. apply run_app.
Qed.

Lemma reachable_run (acts : list Action) : reachable (run' acts).
Proof. exists acts. reflexivity. Qed.

Lemma formatAfter_not_emf (k : nat) : is_emf (formatAfter (S k)) = false.
Proof.
  simpl. destruct (is_emf format) eqn:E; [reflexivity | exact E].
Qed.

Lemma formatAfter_S (k : nat) :
  (if is_emf (formatAfter k) then Some "svg" else formatAfter k) = formatAfter (S k).
Proof.
  destruct k as [|k]; [reflexivity |].
  rewrite formatAfter_not_emf. reflexivity.
Qed.

Lemma savePathAfter_S (k : nat) :
  (if is_emf (formatAfter k) then svgSavePath env (savePathAfter k)
   else savePathAfter k) = savePathAfter (S k).
Proof.
  destruct k as [|k]; [reflexivity |].
  rewrite formatAfter_not_emf. reflexivity.
Qed.

Lemma started_preflight : started = true -> preflight_ok = true.
Proof. unfold started. intro H. apply andb_true_iff in H. tauto. Qed.

Lemma started_launch : started = true -> launch_ok = true.
Proof. unfold started. intro H. apply andb_true_iff in H. tauto. Qed.

Lemma launch_ok_include :
  launch_ok = true -> 0 < N -> includePath env diagram = Some includeArg.
Proof.
  unfold launch_ok, includeArg. intros H HN.
  destruct (Nat.eqb_spec (pageCount diagram) 0) as [E|_]; [lia |].
  destruct (includePath env diagram); [reflexivity | discriminate H].
Qed.

Lemma launch_fails_include :
  launch_ok = false -> 0 < N /\ includePath env diagram = None.
Proof.
  unfold launch_ok. intro H. apply orb_false_iff in H. destruct H as [H1 H2].
  apply Nat.eqb_neq in H1.
  destruct (includePath env diagram); [discriminate H2 | split; [lia | reflexivity]].
Qed.

Lemma createTask_passes :
  preflight_ok = true ->
  createTask env diagram savePath format =
    {| st_format := format; st_savePath := savePath;
       st_processes := Some []; st_buffers := Some [];
       st_links := []; st_phase := Launching 0;
       st_outcome := None;
       st_killed := []; st_exited := []; st_trace := [] |}.
Proof.
  unfold preflight_ok, createTask. intro H.
  apply andb_true_iff in H. destruct H as [H1 H2].
  rewrite H1, H2. reflexivity.
Qed.

Lemma createTask_ok :
  started = true ->
  createTask env diagram savePath format =
    {| st_format := format; st_savePath := savePath;
       st_processes := Some []; st_buffers := Some [];
       st_links := []; st_phase := Launching 0;
       st_outcome := None;
       st_killed := []; st_exited := []; st_trace := [] |}.
Proof. intro H. apply createTask_passes, started_preflight, H. Qed.

Lemma createTask_rejected :
  preflight_ok = false ->
  createTask env diagram savePath format =
    {| st_format := format; st_savePath := savePath;
       st_processes := None; st_buffers := Some [];
       st_links := []; st_phase := Finished;
       st_outcome :=
         Some (RejectedWith
                 (RejMessage
                    (if truthy (config_java env)
                     then localize env 6 None [extensionPath env]
                     else localize env 5 None [])));
       st_killed := []; st_exited := []; st_trace := [] |}.
Proof.
  unfold preflight_ok, createTask. intro H.
  destruct (truthy (config_java env)); simpl in *; [| reflexivity].
  rewrite H. reflexivity.
Qed.

(** A task rejected by the preflight never moves. *)
Lemma rejected_task_is_stuck (acts : list Action) :
  preflight_ok = false -> run' acts = createTask env diagram savePath format.
Proof.
  intro H. induction acts as [|a acts IH] using rev_ind; [reflexivity |].
  rewrite run_app, IH, (createTask_rejected H). simpl.
  destruct a; reflexivity.
Qed.

(** Every transition of a well-shaped state is one of [Moves]. *)
Lemma step_moves (s : State) (a : Action) : wf s -> Moves s (step' a s).
Proof.
  intros (Hl & Hp & Hf & Hsp & Hk & Hph).
  destruct a as [|h|h]; simpl.
  - destruct (st_phase s) as [j|i v|i sp2|] eqn:Ephase.
    + destruct Hph as (Hj & _ & Hlaunch).
      destruct (Nat.ltb_spec j (pageCount diagram)) as [Hlt|Hge].
      * unfold launchPage.
        rewrite (launch_ok_include Hlaunch); [| lia].
        apply MvLaunch; assumption.
      * assert (j = pageCount diagram) by lia. subst j.
        rewrite H in Ephase. apply MvLaunched. exact Ephase.
    + destruct Hph as (HkN & Hi & _).
      rewrite Hl, HkN, nth_error_map_seq.
      destruct (Nat.ltb_spec i (pageCount diagram)) as [Hlt|Hge].
      * destruct v as [|r].
        -- unfold linkFulfilled. simpl lk_process. simpl lk_index.
           destruct (handle_in (EngineProc i) (st_killed s)) eqn:Ekill.
           ++ apply MvSkipKilled; try assumption. apply handle_in_In. exact Ekill.
           ++ replace (set_phase _ _)
                with (set_phase (LinkAwaiting i (savePath2At i)) (emit (feedEvents i) s)).
              ** apply MvFeed; try assumption. apply handle_in_false. exact Ekill.
              ** unfold savePath2At, feedEvents, savePath2At.
                 rewrite Hsp, HkN.
                 destruct (truthy (content diagram)); unfold set_phase, emit; simpl;
                   f_equal; rewrite <- app_assoc; reflexivity.
        -- apply MvForward; assumption.
      * assert (i = pageCount diagram) by lia. subst i.
        apply MvSettle. exact Ephase.
    + destruct Hph as (HkN & Hi & Hsp2 & _). subst sp2.
      rewrite Hl, HkN, nth_error_map_seq.
      apply Nat.ltb_lt in Hi. rewrite Hi. apply Nat.ltb_lt in Hi.
      simpl lk_process.
      destruct (handle_in (EngineProc i) (st_exited s)) eqn:Eexit;
        [| apply MvStutter].
      apply handle_in_In in Eexit.
      unfold adapterSettled. simpl lk_process.
      destruct (processWrapper env (EngineProc i) (savePath2At i)) as [b|e out] eqn:Ew.
      * simpl st_buffers.
        destruct (st_buffers s) as [bs|] eqn:Eb.
        -- unfold convertStage. simpl lk_origFormat. simpl lk_index.
           destruct (is_emf (formatAfter i)) eqn:Eemf.
           ++ match goal with
              | |- Moves _ ?t =>
                  replace t with
                    (set_phase
                       (LinkPending (S i)
                          match execFileSync env inkscape
                                  (converterParams env (savePath2At i)) with
                          | ExecReturns => Fulfilled
                          | ExecThrows e => Rejected (RejExecError e)
                          end)
                       (set_buffers (Some (bs ++ [b]))
                          (emit [EvAdapterSettle (EngineProc i) (AdapterOk b);
                                 EvSpawn (ConverterProc i) inkscape
                                   (converterParams env (savePath2At i));
                                 EvExecFileSync inkscape
                                   (converterParams env (savePath2At i))
                                   (execFileSync env inkscape
                                      (converterParams env (savePath2At i)))] s)))
              end.
              ** eapply MvConvert; try eassumption. reflexivity.
              ** unfold set_phase, set_buffers, emit; simpl.
                 f_equal. rewrite <- app_assoc. reflexivity.
           ++ eapply MvPush; eassumption.
        -- eapply MvPushNull; eassumption.
      * eapply MvAdapterErr; eassumption.
    + apply MvStutter.
  - destruct (handle_in h (procs s)) eqn:E; [| apply MvStutter].
    apply MvExit. apply handle_in_In. exact E.
  - destruct (handle_in h (procs s)) eqn:E; [| apply MvStutter].
    apply MvKill. apply handle_in_In. exact E.
Qed.

Lemma wf_init : started = true -> wf (run' []).
Proof.
  intro H. unfold run, exec. simpl. rewrite (createTask_ok H).
  unfold wf. simpl. repeat split; try reflexivity; try lia.
  apply started_launch. exact H.
Qed.

Lemma wf_moves (s s' : State) : wf s -> Moves s s' -> wf s'.
Proof.
  intros (Hl & Hp & Hf & Hsp & Hk & Hph) Hm.
  destruct Hm; unfold wf; simpl;
    try (rewrite H in Hph; simpl in Hph);
    try solve [repeat split; try assumption; try tauto; try lia].
  - (* MvLaunch *)
    destruct Hph as (Hj & Ho & Hlaunch). subst j.
    rewrite length_app. simpl. rewrite Nat.add_1_r.
    rewrite map_seq_S, map_seq_S.
    unfold procs. rewrite Hp, Hf, Hsp.
    rewrite formatAfter_S, savePathAfter_S.
    repeat split; try reflexivity; try lia; try exact Ho; try exact Hlaunch.
    rewrite Hl at 1. unfold linkOf at 2. reflexivity.
  - (* MvSettle *)
    destruct Hph as (? & ? & ?). repeat split; try assumption.
    eexists. reflexivity.
Qed.

Lemma wf_step (s : State) (a : Action) : wf s -> wf (step' a s).
Proof. intro H. apply (wf_moves s); [exact H | apply step_moves; exact H]. Qed.

Lemma wf_exec (acts : list Action) (s : State) : wf s -> wf (exec' acts s).
Proof.
  revert s. induction acts as [|a acts IH]; intros s H; [exact H |].
  rewrite exec_cons. apply IH. apply wf_step. exact H.
Qed.

Lemma reachable_wf (s : State) : started = true -> reachable s -> wf s.
Proof.
  intros H [acts ->]. unfold run. apply wf_exec. apply (wf_init H).
Qed.

(** Where line 107 throws, the first iteration of the loop ends the call,
    and nothing moves before or after it. *)
Lemma aborted_step (a : Action) (s : State) :
  preflight_ok = true -> launch_ok = false -> aborted s -> aborted (step' a s).
Proof.
  intros Hpre Hl Hab. destruct (launch_fails_include Hl) as [HN Hinc].
  destruct Hab as [-> | ->];
    destruct a as [|h|h]; try (left; reflexivity); try (right; reflexivity).
  right. simpl. apply Nat.ltb_lt in HN. rewrite HN.
  unfold launchPage. rewrite Hinc. reflexivity.
Qed.

Lemma aborted_exec (acts : list Action) (s : State) :
  preflight_ok = true -> launch_ok = false -> aborted s -> aborted (exec' acts s).
Proof.
  intros Hpre Hl. revert s.
  induction acts as [|a acts IH]; intros s Hab; [exact Hab |].
  rewrite exec_cons. apply IH. apply aborted_step; assumption.
Qed.

(** Nothing was spawned, written or recorded in such a run. *)
Lemma aborted_inert (s : State) :
  aborted s ->
  st_trace s = [] /\ procs s = [] /\ st_killed s = [] /\ st_exited s = []
  /\ st_buffers s = Some [] /\ st_format s = format /\ st_savePath s = savePath
  /\ (st_outcome s = None \/ st_outcome s = Some CreateTaskThrew).
Proof.
  intros [-> | ->]; repeat split; try reflexivity; try (right; reflexivity);
    left; reflexivity.
Qed.

(** A reachable state belongs to a started task, or is the task rejected
    by the preflight, or belongs to a call that throws at line 107. *)
Lemma reachable_cases (s : State) :
  reachable s ->
  (started = true /\ wf s)
  \/ (preflight_ok = false /\ s = createTask env diagram savePath format)
  \/ (preflight_ok = true /\ launch_ok = false /\ aborted s).
Proof.
  intros Hr. unfold started. destruct preflight_ok eqn:E.
  - destruct launch_ok eqn:El.
    + left. split; [reflexivity |]. apply reachable_wf; [| assumption].
      unfold started. rewrite E, El. reflexivity.
    + right. right. repeat split. destruct Hr as [acts ->].
      unfold run. apply aborted_exec; [exact E | exact El |].
      left. apply createTask_passes. exact E.
  - right. left. split; [reflexivity |]. destruct Hr as [acts ->].
    apply rejected_task_is_stuck. exact E.
Qed.

(** Invariants of a started task are proved move by move. *)
Lemma started_invariant (P : State -> Prop) :
  started = true ->
  P (run' []) ->
  (forall s s', reachable s -> wf s -> P s -> Moves s s' -> P s') ->
  forall s, reachable s -> P s.
Proof.
  intros Hpre H0 Hstep s [acts ->].
  induction acts as [|a acts IH] using rev_ind; [exact H0 |].
  rewrite run_app. simpl.
  assert (Hwf : wf (run' acts)) by (apply reachable_wf; [exact Hpre | apply reachable_run]).
  apply (Hstep (run' acts));
    [apply reachable_run | exact Hwf | exact IH | apply step_moves; exact Hwf].
Qed.

(** ** What a transition leaves alone *)

Lemma moves_trace (s s' : State) :
  Moves s s' -> exists new, st_trace s' = st_trace s ++ new.
Proof.
  intro Hm. destruct Hm; simpl;
    try (exists []; rewrite app_nil_r; reflexivity);
    eexists; reflexivity.
Qed.

Lemma moves_procs (s s' : State) :
  Moves s s' -> exists extra, procs s' = procs s ++ extra.
Proof.
  intro Hm. destruct Hm; unfold procs; simpl;
    try (exists []; rewrite app_nil_r; reflexivity).
  eexists. reflexivity.
Qed.

Lemma moves_killed (s s' : State) (h : Handle) :
  Moves s s' -> In h (st_killed s) -> In h (st_killed s').
Proof.
  intros Hm Hin. destruct Hm; simpl; try assumption. right. exact Hin.
Qed.

Lemma moves_exited_in (s s' : State) (h : Handle) :
  Moves s s' -> In h (st_exited s) -> In h (st_exited s').
Proof.
  intros Hm Hin. destruct Hm; simpl; try assumption. right. exact Hin.
Qed.

Lemma exec_trace (acts : list Action) (s : State) :
  wf s -> exists new, st_trace (exec' acts s) = st_trace s ++ new.
Proof.
  revert s. induction acts as [|a acts IH]; intros s Hwf.
  - exists []. rewrite app_nil_r. reflexivity.
  - rewrite exec_cons.
    destruct (moves_trace s _ (step_moves s a Hwf)) as [n1 H1].
    destruct (IH _ (wf_step s a Hwf)) as [n2 H2].
    exists (n1 ++ n2). rewrite H2, H1, app_assoc. reflexivity.
Qed.

Lemma exec_procs (acts : list Action) (s : State) :
  wf s -> exists extra, procs (exec' acts s) = procs s ++ extra.
Proof.
  revert s. induction acts as [|a acts IH]; intros s Hwf.
  - exists []. rewrite app_nil_r. reflexivity.
  - rewrite exec_cons.
    destruct (moves_procs s _ (step_moves s a Hwf)) as [n1 H1].
    destruct (IH _ (wf_step s a Hwf)) as [n2 H2].
    exists (n1 ++ n2). rewrite H2, H1, app_assoc. reflexivity.
Qed.

Lemma wf_procs (s : State) :
  wf s -> procs s = map EngineProc (seq 0 (List.length (st_links s))).
Proof. intros (_ & Hp & _). unfold procs. rewrite Hp. reflexivity. Qed.

(** In a started task the trace opens with the spawns of the pages
    launched so far, and holds nothing else while the loop still runs. *)
Lemma spawns_come_first (s : State) :
  started = true -> reachable s ->
  exists rest,
    st_trace s = map spawnOf (seq 0 (List.length (st_links s))) ++ rest
    /\ (forall i cmd args, ~ In (EvSpawn (EngineProc i) cmd args) rest)
    /\ match st_phase s with Launching _ => rest = [] | _ => True end.
Proof.
  intros Hpre Hr. revert s Hr. apply started_invariant; [exact Hpre | |].
  - unfold run, exec. simpl. rewrite (createTask_ok Hpre). simpl.
    exists []. repeat split. intros i c a [].
  - intros s s' _ Hwf (rest & Htr & Hno & Hph) Hm.
    destruct Hwf as (Hl & Hp & Hf & Hsp & Hk & Hphase).
    assert (Hext : forall new,
               (forall i c a, ~ In (EvSpawn (EngineProc i) c a) new) ->
               exists rest',
                 st_trace s ++ new
                 = map spawnOf (seq 0 (List.length (st_links s))) ++ rest'
                 /\ (forall i c a, ~ In (EvSpawn (EngineProc i) c a) rest')
                 /\ True).
    { intros new Hnew. exists (rest ++ new). rewrite Htr, app_assoc.
      repeat split. intros i c a Hin. apply in_app_or in Hin.
      destruct Hin as [Hin|Hin]; [apply (Hno i c a Hin) | apply (Hnew i c a Hin)]. }
    destruct Hm; simpl;
      try (rewrite H in Hph);
      try (exists rest; repeat split; assumption);
      try (apply Hext; intros i0 c a Hin; simpl in Hin;
           repeat (destruct Hin as [Hin|Hin]; [discriminate Hin |]);
           exact Hin).
    + (* MvLaunch *)
      rewrite H in Hphase. destruct Hphase as [Hj _]. subst j. subst rest.
      exists []. rewrite app_nil_r in Htr. rewrite Htr.
      rewrite length_app. simpl. rewrite Nat.add_1_r, map_seq_S.
      rewrite Hf, formatAfter_S, app_nil_r.
      repeat split. intros i c a [].
    + (* MvFeed *)
      apply Hext. intros i0 c a Hin. unfold feedEvents in Hin.
      destruct (truthy (content diagram)); simpl in Hin;
        repeat (destruct Hin as [Hin|Hin]; [discriminate Hin |]); exact Hin.
Qed.

(** ** Claims *)



(** C9. The handle list is append-only and never longer than the page
    count: at any point of any run it has at most [N] entries, and whatever
    happens next only extends it at its end.  The converter spawns of the
    two-stage path are among the transitions covered. *)
Theorem handle_list_append_only (before after : list Action) :
  List.length (procs (run' before)) <= N
  /\ exists extra, procs (run' (before ++ after)) = procs (run' before) ++ extra.
Proof.
  destruct (reachable_cases _ (reachable_run before))
    as [[Hpre Hwf]|[[Hpre Hs]|(Hpre & Hl & Hab)]].
  - split.
    + rewrite (wf_procs _ Hwf), length_map, length_seq.
      destruct Hwf as (_ & _ & _ & _ & Hk & _). exact Hk.
    + rewrite run_app. apply exec_procs. exact Hwf.
  - rewrite (rejected_task_is_stuck (before ++ after) Hpre).
    rewrite (rejected_task_is_stuck before Hpre).
    rewrite (createTask_rejected Hpre). unfold procs. simpl.
    split; [lia | exists []; reflexivity].
  - rewrite run_app.
    destruct (aborted_inert _ (aborted_exec after _ Hpre Hl Hab)) as (_ & -> & _).
    destruct (aborted_inert _ Hab) as (_ & -> & _).
    split; [simpl; lia | exists []; reflexivity].
Qed.

(** ** Traces as sequences of blocks *)

Lemma moves_block (s s' : State) :
  Moves s s' -> exists new, st_trace s' = st_trace s ++ new /\ Block new.
Proof.
  intro Hm. destruct Hm; simpl;
    try (exists []; rewrite app_nil_r; split; [reflexivity | constructor]);
    try (eexists; split; [reflexivity | constructor]).
  unfold feedEvents. destruct (truthy (content diagram));
    eexists; split; try reflexivity; constructor.
Qed.

Lemma reachable_blocks (s : State) : reachable s -> Blocks (st_trace s).
Proof.
  intro Hr.
  destruct (reachable_cases s Hr) as [[Hpre _]|[[Hpre ->]|(Hpre & Hl & Hab)]].
  - revert s Hr. apply started_invariant; [exact Hpre | |].
    + unfold run, exec. simpl. rewrite (createTask_ok Hpre). constructor.
    + intros s s' _ _ IH Hm. destruct (moves_block s s' Hm) as (new & -> & Hb).
      constructor; assumption.
  - rewrite (createTask_rejected Hpre). constructor.
  - destruct (aborted_inert _ Hab) as (-> & _). constructor.
Qed.

Ltac enum_occ H :=
  lazymatch type of H with
  | [] = ?pre ++ _ :: _ => destruct pre; discriminate H
  | _ :: _ = ?pre ++ _ :: _ =>
      let Hhd := fresh "Hhd" in
      destruct pre as [|? pre]; simpl in H;
      [ injection H as Hhd H; try discriminate Hhd
      | injection H as Hhd H; enum_occ H ]
  end.

(** In a sequence of blocks a converter spawn is always followed at once
    by the blocking call with the same program and arguments. *)
Lemma blocks_spawn_then_exec (tr : list Event) :
  Blocks tr ->
  forall pre i cmd args post,
    tr = pre ++ EvSpawn (ConverterProc i) cmd args :: post ->
    cmd = inkscape
    /\ exists r post', post = EvExecFileSync inkscape args r :: post'.
Proof.
  induction 1 as [|tr new Hbs IH Hb]; intros pre i cmd args post Heq.
  - destruct pre; discriminate Heq.
  - destruct (app_split_occurrence _ _ _ _ _ Heq)
      as [(post' & H1 & H2)|(pre' & H1 & H2)].
    + destruct (IH _ _ _ _ _ H1) as (Hc & r & p' & Hp). subst.
      split; [reflexivity |]. exists r, (p' ++ new). reflexivity.
    + destruct Hb; enum_occ H2.
      subst. split; [reflexivity |]. exists r, []. reflexivity.
Qed.

(** ... and the blocking call is always preceded at once by that spawn. *)
Lemma blocks_exec_after_spawn (tr : list Event) :
  Blocks tr ->
  forall pre cmd args r post,
    tr = pre ++ EvExecFileSync cmd args r :: post ->
    exists pre' i, pre = pre' ++ [EvSpawn (ConverterProc i) cmd args].
Proof.
  induction 1 as [|tr new Hbs IH Hb]; intros pre cmd args r post Heq.
  - destruct pre; discriminate Heq.
  - destruct (app_split_occurrence _ _ _ _ _ Heq)
      as [(post' & H1 & H2)|(pre' & H1 & H2)].
    + apply (IH _ _ _ _ _ H1).
    + destruct Hb; enum_occ H2.
      subst. eexists (tr ++ [_]), i. rewrite <- app_assoc. reflexivity.
Qed.

(** C10. Every conversion invokes the converter twice with one argument
    vector: in every trace a spawn of the converter (whose handle is
    [ConverterProc i]) is immediately followed by the blocking
    [execFileSync] of the same program with the same arguments, a blocking
    call never occurs without that spawn right before it, and no converter
    handle is ever in the task's handle list. *)
Theorem converter_runs_twice_unreachable (acts : list Action) :
  (forall pre i cmd args post,
      st_trace (run' acts) = pre ++ EvSpawn (ConverterProc i) cmd args :: post ->
      cmd = inkscape
      /\ exists r post', post = EvExecFileSync inkscape args r :: post')
  /\ (forall pre cmd args r post,
         st_trace (run' acts) = pre ++ EvExecFileSync cmd args r :: post ->
         exists pre' i, pre = pre' ++ [EvSpawn (ConverterProc i) cmd args])
  /\ (forall i, ~ In (ConverterProc i) (procs (run' acts))).
Proof.
  pose proof (reachable_blocks _ (reachable_run acts)) as Hb.
  split; [| split].
  - apply blocks_spawn_then_exec. exact Hb.
  - apply blocks_exec_after_spawn. exact Hb.
  - intros i Hin.
    destruct (reachable_cases _ (reachable_run acts))
      as [[Hpre Hwf]|[[Hpre Hs]|(Hpre & Hl & Hab)]].
    + rewrite (wf_procs _ Hwf) in Hin. apply In_map_seq in Hin.
      destruct Hin as (j & _ & Hj). discriminate Hj.
    + rewrite Hs, (createTask_rejected Hpre) in Hin. exact Hin.
    + destruct (aborted_inert _ Hab) as (_ & Hp0 & _). rewrite Hp0 in Hin.
      exact Hin.
Qed.

(** ** Pages are visited in order *)

Ltac in_new Hin :=
  simpl in Hin;
  repeat (let H := fresh "Hev" in
          destruct Hin as [H|Hin]; [inversion H; subst; try clear H |]);
  try contradiction.

(** The trace mentions only pages the chain has reached. *)
Lemma page_bounds (s : State) :
  started = true -> reachable s -> pages_in_order s.
Proof.
  intros Hpre Hr. revert s Hr. apply started_invariant; [exact Hpre | |].
  - unfold run, exec. simpl. rewrite (createTask_ok Hpre). simpl.
    intros ev m [].
  - intros s s' _ Hwf IH Hm ev m Hin. unfold pages_in_order in IH.
    destruct Hwf as (_ & _ & _ & _ & _ & Hph).
    destruct Hm; unfold fed_bound, settled_bound in *; simpl in *;
      try (rewrite H in IH, Hph; simpl in IH, Hph);
      try (apply in_app_or in Hin; destruct Hin as [Hin|Hin]);
      try (specialize (IH ev m Hin); destruct IH as [IH1 IH2];
           split; intro Hq;
           [specialize (IH1 Hq) | specialize (IH2 Hq)]; lia);
      try (progress unfold feedEvents in Hin; destruct (truthy (content diagram)));
      in_new Hin; simpl; split; intro Hq; inversion Hq; subst; lia.
Qed.

(** ** Failures reach the task *)

(** A chain that carries a rejection keeps carrying it. *)
Lemma failing_moves (r : Rejection) (s s' : State) :
  failing r s -> Moves s s' -> failing r s'.
Proof.
  intros Hf Hm. unfold failing in *.
  destruct Hm; simpl; try exact Hf;
    destruct Hf as [[i' Hp]|[Hp Ho]]; rewrite Hp in H;
    try discriminate H; injection H as ? ?; subst.
  - left. eexists. reflexivity.
  - right. split; reflexivity.
Qed.

(** Once an adapter failure or a converter failure is in the trace, the
    chain is carrying the matching rejection. *)
Lemma failure_is_carried (s : State) :
  started = true -> reachable s -> failures_carried s.
Proof.
  intros Hpre Hr. revert s Hr. apply started_invariant; [exact Hpre | |].
  - unfold run, exec. simpl. rewrite (createTask_ok Hpre). simpl.
    intros ev r [].
  - intros s s' _ Hwf IH Hm ev r Hin Hrej.
    assert (Hold : In ev (st_trace s) -> failing r s')
      by (intro Hi; apply (failing_moves r s); [exact (IH ev r Hi Hrej) | exact Hm]).
    clear IH.
    destruct Hm; simpl in Hin;
      try (apply Hold; exact Hin);
      apply in_app_or in Hin; destruct Hin as [Hin|Hin];
      try (apply Hold; exact Hin);
      try (progress unfold feedEvents in Hin; destruct (truthy (content diagram)));
      in_new Hin; simpl in Hrej; try discriminate Hrej;
      try (destruct (execFileSync env inkscape _); try discriminate Hrej);
      injection Hrej as <-; left; eexists; reflexivity.
Qed.

(** A chain that carries a rejection has no further effect. *)
Lemma failing_silent (r : Rejection) (s s' : State) :
  failing r s -> Moves s s' -> st_trace s' = st_trace s.
Proof.
  intros Hf Hm. unfold failing in *.
  destruct Hm; simpl; try reflexivity;
    destruct Hf as [[i' Hp]|[Hp Ho]]; rewrite Hp in H; discriminate H.
Qed.

Lemma failing_outcome (r : Rejection) (s : State) :
  wf s -> failing r s ->
  st_outcome s = None \/ st_outcome s = Some (RejectedWith r).
Proof.
  intros (_ & _ & _ & _ & _ & Hph) [[i Hp]|[Hp Ho]].
  - rewrite Hp in Hph. left. tauto.
  - right. exact Ho.
Qed.

Lemma failing_hops (r : Rejection) (s : State) (a : Action) :
  wf s -> failing r s ->
  hops_left (step' a s)
  = match a with ARun => pred (hops_left s) | _ => hops_left s end.
Proof.
  intros (Hl & _ & _ & _ & _ & Hph) Hf.
  destruct a as [|h|h]; unfold step.
  - destruct Hf as [[i Hp]|[Hp Ho]]; rewrite Hp in *.
    + destruct Hph as (HkN & Hi & _).
      rewrite Hl, HkN, nth_error_map_seq.
      destruct (Nat.ltb_spec i (pageCount diagram)); unfold hops_left;
        cbn [st_phase set_phase settleTask set_outcome]; rewrite ?Hp; lia.
    + unfold hops_left. rewrite Hp. reflexivity.
  - destruct (handle_in h (procs s)); reflexivity.
  - destruct (handle_in h (procs s)); reflexivity.
Qed.

Lemma failing_exec (r : Rejection) (acts : list Action) (s : State) :
  wf s -> failing r s ->
  failing r (exec' acts s)
  /\ hops_left (exec' acts s) = hops_left s - runs acts.
Proof.
  revert s. induction acts as [|a acts IH]; intros s Hwf Hf.
  - simpl. split; [exact Hf | lia].
  - rewrite exec_cons.
    assert (Hf' : failing r (step' a s))
      by (apply (failing_moves r s); [exact Hf | apply step_moves; exact Hwf]).
    destruct (IH _ (wf_step s a Hwf) Hf') as [H1 H2].
    split; [exact H1 |]. rewrite H2, (failing_hops r s a Hwf Hf).
    destruct a; simpl; lia.
Qed.

Lemma failing_done (r : Rejection) (s : State) :
  wf s -> failing r s -> hops_left s = 0 ->
  st_outcome s = Some (RejectedWith r).
Proof.
  intros (_ & _ & _ & _ & _ & Hph) [[i Hp]|[Hp Ho]] Hz; [| exact Ho].
  unfold hops_left in Hz. rewrite Hp in *. lia.
Qed.

Lemma failure_bounds_feeding (s : State) :
  started = true -> reachable s -> fed_up_to_failure s.
Proof.
  intros Hpre Hr. revert s Hr. apply started_invariant; [exact Hpre | |].
  - unfold run, exec. simpl. rewrite (createTask_ok Hpre). simpl.
    intros k e out [].
  - intros s s' Hr Hwf IH Hm k e out Hin ev j Hev Hfed.
    assert (Hold : In (EvAdapterSettle (EngineProc k) (AdapterErr e out)) (st_trace s)
                   -> j <= k).
    { intro Hi.
      assert (Hf : failing
                     (RejRenderError (localize env 10 None [title diagram; e]) out) s)
        by (apply (failure_is_carried s Hpre Hr _ _ Hi); reflexivity).
      rewrite (failing_silent _ s s' Hf Hm) in Hev.
      exact (IH k e out Hi ev j Hev Hfed). }
    pose proof (page_bounds s Hpre Hr) as Hb.
    destruct Hm; simpl in Hin, Hev;
      try (apply Hold; exact Hin);
      apply in_app_or in Hin; destruct Hin as [Hin|Hin];
      try (apply Hold; exact Hin);
      try (progress unfold feedEvents in Hin; destruct (truthy (content diagram)));
      in_new Hin.
    apply in_app_or in Hev. destruct Hev as [Hev|Hev].
    + destruct (Hb ev j Hev) as [Hb1 _]. specialize (Hb1 Hfed).
      unfold fed_bound in Hb1. rewrite H in Hb1. lia.
    + in_new Hev. discriminate Hfed.
Qed.

(** C4. When the adapter fails on page [k] with [{error := e; out}], the
    task's promise is rejected with the [RenderError] whose message is
    [localize 10] of the diagram's title and [e] and whose output is
    [out]: however the run goes on, the promise is pending or rejected with
    exactly that error, it is rejected once the event loop has taken [N]
    more turns, and no input is ever written to a page after [k]. *)
Theorem adapter_failure_rejects_task (acts : list Action) (k : nat)
  (e : string) (out : Buffer) :
  In (EvAdapterSettle (EngineProc k) (AdapterErr e out)) (st_trace (run' acts)) ->
  (forall more,
      st_outcome (exec' more (run' acts)) = None
      \/ st_outcome (exec' more (run' acts))
         = Some (RejectedWith
                   (RejRenderError (localize env 10 None [title diagram; e]) out)))
  /\ (forall more,
         N <= runs more ->
         st_outcome (exec' more (run' acts))
         = Some (RejectedWith
                   (RejRenderError (localize env 10 None [title diagram; e]) out)))
  /\ (forall more j data,
         k < j ->
         ~ In (EvStdinWrite (EngineProc j) data)
              (st_trace (exec' more (run' acts)))).
Proof.
  intro Hin.
  destruct (reachable_cases _ (reachable_run acts)) as [[Hpre Hwf]|[[Hpre Hs]|(Hpre & Hl & Hab)]];
    [| rewrite Hs, (createTask_rejected Hpre) in Hin; destruct Hin
     | destruct Hab as [Hs|Hs]; rewrite Hs in Hin; destruct Hin].
  assert (Hf : failing
                 (RejRenderError (localize env 10 None [title diagram; e]) out)
                 (run' acts))
    by (apply (failure_is_carried _ Hpre (reachable_run acts) _ _ Hin); reflexivity).
  split; [| split].
  - intro more. destruct (failing_exec _ more _ Hwf Hf) as [Hf' _].
    apply failing_outcome; [apply wf_exec; exact Hwf | exact Hf'].
  - intros more Hruns. destruct (failing_exec _ more _ Hwf Hf) as [Hf' Hh].
    apply failing_done; [apply wf_exec; exact Hwf | exact Hf' |].
    rewrite Hh. unfold hops_left.
    destruct (page_bounds _ Hpre (reachable_run acts) _ k Hin) as [_ Hb].
    specialize (Hb eq_refl). unfold settled_bound in Hb.
    destruct (st_phase (run' acts)); lia.
  - intros more j data Hlt Hw.
    assert (Hr' : reachable (exec' more (run' acts)))
      by (apply reachable_exec; apply reachable_run).
    destruct (exec_trace more _ Hwf) as [new Hnew].
    assert (Hin' : In (EvAdapterSettle (EngineProc k) (AdapterErr e out))
                      (st_trace (exec' more (run' acts))))
      by (rewrite Hnew; apply in_or_app; left; exact Hin).
    pose proof (failure_bounds_feeding _ Hpre Hr' k e out Hin' _ j Hw eq_refl).
    lia.
Qed.

(** C3. When the engine executable is not configured, or the engine bundle
    is not on disk, the promise of the returned task is rejected from the
    start (the empty schedule included) with the localized configuration
    message (number 5, or number 6 with the extension's install location as
    its argument), and no process is ever spawned. *)
Theorem preflight_rejects_before_spawn (acts : list Action) :
  truthy (config_java env) = false
  \/ fs_existsSync env (config_jar env (parentUri diagram)) = false ->
  st_outcome (run' acts)
  = Some (RejectedWith
            (RejMessage
               (if truthy (config_java env)
                then localize env 6 None [extensionPath env]
                else localize env 5 None [])))
  /\ st_trace (run' acts) = []
  /\ procs (run' acts) = [].
Proof.
  intro H.
  assert (Hpre : preflight_ok = false).
  { unfold preflight_ok. destruct H as [H|H]; rewrite H;
      [reflexivity | apply andb_false_r]. }
  rewrite (rejected_task_is_stuck acts Hpre), (createTask_rejected Hpre).
  repeat split.
Qed.

(** ** Killed pages *)

Lemma killed_are_listed (s : State) (h : Handle) :
  reachable s -> In h (st_killed s) -> In h (procs s).
Proof.
  intros Hr. destruct (reachable_cases s Hr) as [[Hpre _]|[[Hpre ->]|(Hpre & Hl & Hab)]].
  - revert s Hr.
    apply (started_invariant (fun s => In h (st_killed s) -> In h (procs s)));
      [exact Hpre | |].
    + unfold run, exec. simpl. rewrite (createTask_ok Hpre). simpl. tauto.
    + intros s s' _ _ IH Hm Hin.
      destruct (moves_procs s s' Hm) as [extra ->]. apply in_or_app.
      destruct Hm; simpl in Hin; try (left; apply IH; exact Hin).
      destruct Hin as [<-|Hin]; left; [assumption | apply IH; exact Hin].
  - rewrite (createTask_rejected Hpre). simpl. tauto.
  - destruct Hab as [-> | ->]; simpl; tauto.
Qed.

(** The link of a killed page resolves at once and touches nothing but
    [buffers]. *)
Lemma skip_killed_step (s : State) (k : nat) :
  wf s -> st_phase s = LinkPending k Fulfilled -> k < N ->
  In (EngineProc k) (st_killed s) ->
  step' ARun s = set_phase (LinkPending (S k) Fulfilled) (set_buffers None s).
Proof.
  intros (Hl & _ & _ & _ & _ & Hph) Hp Hk Hin.
  rewrite Hp in Hph. destruct Hph as (HkN & _ & _).
  unfold step. rewrite Hp, Hl, HkN, nth_error_map_seq.
  apply Nat.ltb_lt in Hk. rewrite Hk.
  unfold linkFulfilled. simpl lk_process.
  apply handle_in_In in Hin. rewrite Hin. reflexivity.
Qed.

(** When every remaining page is killed the chain runs through to the
    task's promise without any effect. *)
Lemma skip_all_killed (d : nat) :
  forall (k : nat) (s : State),
    d = N - k -> k <= N -> wf s ->
    st_phase s = LinkPending k Fulfilled ->
    (forall j, k <= j -> j < N -> In (EngineProc j) (st_killed s)) ->
    (k = N -> st_buffers s = None) ->
    st_outcome (exec' (repeat ARun (S d)) s) = Some (Resolved None)
    /\ st_trace (exec' (repeat ARun (S d)) s) = st_trace s.
Proof.
  induction d as [|d IH]; intros k s Hd Hk Hwf Hp Hall Hnull.
  - assert (k = N) by lia. subst k.
    destruct Hwf as (Hl & _ & _ & _ & _ & Hph).
    rewrite Hp in Hph. destruct Hph as (HkN & _ & _).
    simpl. rewrite Hp, Hl, HkN, nth_error_map_seq, Nat.ltb_irrefl.
    simpl. rewrite (Hnull eq_refl). split; reflexivity.
  - assert (Hlt : k < N) by lia.
    change (repeat ARun (S (S d))) with (ARun :: repeat ARun (S d)).
    rewrite exec_cons.
    rewrite (skip_killed_step s k Hwf Hp Hlt (Hall k (Nat.le_refl k) Hlt)).
    assert (Hwf' : wf (set_phase (LinkPending (S k) Fulfilled) (set_buffers None s))).
    { rewrite <- (skip_killed_step s k Hwf Hp Hlt (Hall k (Nat.le_refl k) Hlt)).
      apply wf_step. exact Hwf. }
    destruct (IH (S k) (set_phase (LinkPending (S k) Fulfilled) (set_buffers None s)))
      as [H1 H2]; try assumption; try reflexivity; try lia.
    + intros j Hj1 Hj2. simpl. apply Hall; lia.
    + split; [exact H1 | rewrite H2; reflexivity].
Qed.

(** C5 (as the code has it). When the chain reaches page [k] and finds its
    process killed, the link writes no input and has no other effect, raises
    no error, sets the artifact list to [null], and fulfils: the chain goes
    on to the link of page [k+1], which makes its own check.  When every
    page from [k] on is found killed, the chain reaches the end without any
    effect and the task's promise resolves with [null]. *)
Theorem killed_page_is_skipped (acts : list Action) (k : nat) :
  st_phase (run' acts) = LinkPending k Fulfilled ->
  In (EngineProc k) (st_killed (run' acts)) ->
  st_trace (step' ARun (run' acts)) = st_trace (run' acts)
  /\ st_buffers (step' ARun (run' acts)) = None
  /\ st_phase (step' ARun (run' acts)) = LinkPending (S k) Fulfilled
  /\ st_outcome (step' ARun (run' acts)) = None
  /\ ((forall j, k <= j -> j < N -> In (EngineProc j) (st_killed (run' acts))) ->
      st_outcome (exec' (repeat ARun (S (N - k))) (run' acts))
      = Some (Resolved None)
      /\ st_trace (exec' (repeat ARun (S (N - k))) (run' acts))
         = st_trace (run' acts)).
Proof.
  intros Hp Hkill.
  destruct (reachable_cases _ (reachable_run acts)) as [[Hpre Hwf]|[[Hpre Hs]|(Hpre & Hl & Hab)]];
    [| rewrite Hs, (createTask_rejected Hpre) in Hp; discriminate Hp
     | destruct Hab as [Hs|Hs]; rewrite Hs in Hp; discriminate Hp].
  assert (Hk : k < N).
  { pose proof (killed_are_listed _ _ (reachable_run acts) Hkill) as Hin.
    rewrite (wf_procs _ Hwf) in Hin. apply In_map_seq in Hin.
    destruct Hin as (j & Hj & Heq). injection Heq as ->.
    destruct Hwf as (_ & _ & _ & _ & Hle & _). lia. }
  rewrite (skip_killed_step _ k Hwf Hp Hk Hkill). simpl.
  repeat split.
  - destruct Hwf as (_ & _ & _ & _ & _ & Hph). rewrite Hp in Hph. tauto.
  - apply (skip_all_killed (N - k) k); try assumption; try reflexivity; lia.
  - apply (skip_all_killed (N - k) k); try assumption; try reflexivity; lia.
Qed.

(** ** The next page waits for the previous one *)

Lemma page_done_mono (i : nat) (tr : list Event) (kl kl' : list Handle) :
  page_done i tr kl ->
  (forall h, In h kl -> In h kl') ->
  page_done i tr kl'.
Proof.
  intros [H|[Hk Hno]] Hkl; [left; exact H |].
  right. split; [apply Hkl; exact Hk | exact Hno].
Qed.

Lemma page_gate_holds (s : State) :
  started = true -> reachable s -> page_gate s.
Proof.
  intros Hpre Hr. revert s Hr. apply started_invariant; [exact Hpre | |].
  - unfold run, exec. simpl. rewrite (createTask_ok Hpre). split; simpl.
    + intros i H. discriminate H.
    + intros i data pre post H. destruct pre; discriminate H.
  - intros s s' Hr Hwf [IHa IHb] Hm.
    assert (Hkl : forall h, In h (st_killed s) -> In h (st_killed s'))
      by (intros h; apply moves_killed; exact Hm).
    pose proof (page_bounds s Hpre Hr) as Hb.
    split.
    + (* the chain stands before page [i+1] *)
      intros i Hph'.
      destruct Hm; simpl in Hph';
        try (simpl; apply (page_done_mono i _ (st_killed s));
             [apply IHa; exact Hph' | exact Hkl]);
        try discriminate Hph'; injection Hph' as ->.
      * right. simpl. split; [assumption |].
        intros sp Hin. destruct (Hb _ i Hin) as [Hfed _].
        specialize (Hfed eq_refl). unfold fed_bound in Hfed.
        rewrite H in Hfed. lia.
      * left. exists b. simpl. split; [apply in_or_app; right; left; reflexivity |].
        congruence.
      * destruct r; [| congruence].
        left. exists b. simpl. split; [apply in_or_app; right; left; reflexivity |].
        intros _. exists (converterParams env (savePath2At i)).
        split; apply in_or_app; right; simpl; tauto.
    + (* page [i+1] has been fed *)
      intros i data pre post Heq.
      assert (Hold : forall post', st_trace s = pre ++ EvStdinWrite (EngineProc (S i)) data :: post' ->
                     page_done i pre (st_killed s'))
        by (intros post' Hp; apply (page_done_mono i pre (st_killed s));
            [apply (IHb i data pre post'); exact Hp | exact Hkl]).
      destruct Hm; simpl in Heq; try (apply (Hold post); exact Heq);
        destruct (app_split_occurrence _ _ _ _ _ Heq)
          as [(post' & H1' & H2')|(pre' & H1' & H2')];
        try (apply (Hold post'); exact H1');
        try (progress unfold feedEvents in H2'; destruct (truthy (content diagram)));
        simpl in H2'; enum_occ H2'.
      subst. rewrite app_nil_r.
      apply (page_done_mono i (st_trace s) (st_killed s));
        [apply IHa; assumption | exact Hkl].
Qed.

(** C2 (as the code has it). Whenever input is written to page [i+1], page
    [i] is behind the chain: either its output was fully consumed by the
    adapter before that write (and, when its link captured "emf", its
    converter was spawned and the blocking conversion returned before that
    write), or its process was killed and its link was skipped: the adapter
    was not called on it, so its output is not consumed. *)
Theorem next_page_waits_for_previous (acts : list Action) (i : nat)
  (data : string) (pre post : list Event) :
  st_trace (run' acts) = pre ++ EvStdinWrite (EngineProc (S i)) data :: post ->
  (exists b,
      In (EvAdapterSettle (EngineProc i) (AdapterOk b)) pre
      /\ (is_emf (formatAfter i) = true ->
          exists args,
            In (EvSpawn (ConverterProc i) inkscape args) pre
            /\ In (EvExecFileSync inkscape args ExecReturns) pre))
  \/ (In (EngineProc i) (st_killed (run' acts))
      /\ forall sp, ~ In (EvAdapterCall (EngineProc i) sp) pre).
Proof.
  intro Heq.
  destruct (reachable_cases _ (reachable_run acts)) as [[Hpre Hwf]|[[Hpre Hs]|(Hpre & Hl & Hab)]].
  - destruct (page_gate_holds _ Hpre (reachable_run acts)) as [_ Hb].
    exact (Hb i data pre post Heq).
  - rewrite Hs, (createTask_rejected Hpre) in Heq. destruct pre; discriminate Heq.
  - destruct (aborted_inert _ Hab) as (Htr0 & _). rewrite Htr0 in Heq.
    destruct pre; discriminate Heq.
Qed.

(** ** Progress *)

Lemma run_keeps_flags (s : State) :
  st_killed (step' ARun s) = st_killed s
  /\ st_exited (step' ARun s) = st_exited s.
Proof.
  unfold step, launchPage, linkFulfilled, adapterSettled, convertStage, settleTask.
  repeat match goal with
         | |- context [match ?x with _ => _ end] => destruct x
         end; simpl; split; reflexivity.
Qed.

(** Once the processes have finished, every turn of the event loop brings
    the task closer to its end. *)
Lemma turns_decrease (s : State) :
  wf s ->
  (forall i, i < N -> In (EngineProc i) (st_exited s)) ->
  turns_left (step' ARun s) <= pred (turns_left s).
Proof.
  intros (Hl & _ & _ & _ & Hk & Hph) Hex. unfold step.
  destruct (st_phase s) as [j|i v|i sp2|] eqn:Ephase.
  - destruct Hph as (Hj & _ & Hlaunch).
    destruct (Nat.ltb_spec j (pageCount diagram));
      [unfold launchPage; rewrite (launch_ok_include Hlaunch); [| lia] |];
      unfold turns_left; cbn [st_phase spawnPage set_phase]; rewrite ?Ephase; lia.
  - destruct Hph as (HkN & Hi & _).
    rewrite Hl, HkN, nth_error_map_seq.
    destruct (Nat.ltb_spec i (pageCount diagram)).
    + destruct v.
      * unfold linkFulfilled.
        destruct (handle_in (lk_process (linkOf i)) (st_killed s));
          unfold turns_left; cbn [st_phase set_phase]; rewrite ?Ephase; lia.
      * unfold turns_left; cbn [st_phase set_phase]; rewrite ?Ephase; lia.
    + unfold turns_left; cbn [st_phase settleTask set_phase]; rewrite ?Ephase; lia.
  - destruct Hph as (HkN & Hi & _).
    rewrite Hl, HkN, nth_error_map_seq.
    pose proof (Hex i Hi) as Hin. apply handle_in_In in Hin.
    apply Nat.ltb_lt in Hi. rewrite Hi. apply Nat.ltb_lt in Hi.
    simpl lk_process. rewrite Hin.
    unfold adapterSettled, convertStage.
    repeat match goal with
           | |- context [match ?x with _ => _ end] => destruct x
           end;
      unfold turns_left; cbn [st_phase set_phase]; rewrite ?Ephase; lia.
  - unfold turns_left. rewrite Ephase. lia.
Qed.

Lemma finished_stays (s : State) (m : nat) :
  st_phase s = Finished -> exec' (repeat ARun m) s = s.
Proof.
  intro H. induction m as [|m IH]; [reflexivity |].
  change (repeat ARun (S m)) with (ARun :: repeat ARun m).
  rewrite exec_cons. simpl. rewrite H. exact IH.
Qed.

Lemma settles_within (m : nat) :
  forall s,
    wf s ->
    (forall i, i < N -> In (EngineProc i) (st_exited s)) ->
    turns_left s <= m ->
    st_phase (exec' (repeat ARun m) s) = Finished.
Proof.
  induction m as [|m IH]; intros s Hwf Hex Hle.
  - simpl. destruct Hwf as (_ & _ & _ & _ & _ & Hph).
    unfold turns_left in Hle.
    destruct (st_phase s); try reflexivity; lia.
  - change (repeat ARun (S m)) with (ARun :: repeat ARun m).
    rewrite exec_cons. apply IH.
    + apply wf_step. exact Hwf.
    + destruct (run_keeps_flags s) as [_ He]. rewrite He. exact Hex.
    + pose proof (turns_decrease s Hwf Hex). lia.
Qed.

Lemma turns_left_bound (s : State) : wf s -> turns_left s <= 3 * N + 2.
Proof.
  intros (_ & _ & _ & _ & _ & Hph). unfold turns_left.
  destruct (st_phase s); lia.
Qed.

Lemma runs_keep_killed (m : nat) (s : State) :
  st_killed (exec' (repeat ARun m) s) = st_killed s.
Proof.
  revert s. induction m as [|m IH]; intro s; [reflexivity |].
  change (repeat ARun (S m)) with (ARun :: repeat ARun m).
  rewrite exec_cons, IH. apply run_keeps_flags.
Qed.

(** ** The artifact list *)

Lemma stays_on_track (out : nat -> Buffer) (s : State) :
  started = true ->
  (forall i, i < N ->
             processWrapper env (EngineProc i) (savePath2At i) = AdapterOk (out i)) ->
  (forall i, i < N -> is_emf (formatAfter i) = true ->
             execFileSync env inkscape (converterParams env (savePath2At i))
             = ExecReturns) ->
  reachable s -> on_track out s.
Proof.
  intros Hpre Hok Hconv Hr. revert s Hr.
  apply started_invariant; [exact Hpre | |].
  - unfold run, exec. simpl. rewrite (createTask_ok Hpre). intros _. reflexivity.
  - intros s s' _ Hwf IH Hm Hk. unfold on_track in IH.
    destruct Hm; simpl in *;
      try discriminate Hk;
      specialize (IH Hk); try rewrite H in IH; simpl in IH;
      try assumption.
    + (* MvLaunched *) split; [reflexivity | exact IH].
    + (* MvSkipKilled *) rewrite Hk in H1. destruct H1.
    + (* MvFeed *) tauto.
    + (* MvForward *) destruct IH as [IH _]. discriminate IH.
    + (* MvSettle *) destruct IH as [-> IH]. rewrite IH. reflexivity.
    + (* MvAdapterErr *) rewrite (Hok i H0) in H2. discriminate H2.
    + (* MvPushNull *) congruence.
    + (* MvPush *)
      rewrite (Hok i H0) in H2. injection H2 as <-.
      rewrite IH in H3. injection H3 as <-.
      split; [reflexivity |].
      change (out 0 :: map out (seq 1 i)) with (map out (seq 0 (S i))).
      rewrite map_seq_S. reflexivity.
    + (* MvConvert *)
      rewrite (Hok i H0) in H2. injection H2 as <-.
      rewrite IH in H3. injection H3 as <-.
      rewrite (Hconv i H0 H4) in H5. subst r.
      split; [reflexivity |].
      change (out 0 :: map out (seq 1 i)) with (map out (seq 0 (S i))).
      rewrite map_seq_S. reflexivity.
Qed.

(** C1 (as the code has it). When the preflight passes, the include
    path can be built, no process is killed, the adapter yields [out i] for
    every page [i], and no blocking call of the converter that the task
    makes throws (the call of a page whose link captured "emf"), the task's
    promise can only resolve, and only with the list [out 0; ...; out (N-1)]
    in page order, whatever the order in which the processes finish and
    however their completion is interleaved with the chain; once all
    processes have finished, [3N+2] turns of the event loop are enough for
    the promise to resolve. *)
Theorem all_pages_resolve_in_order (out : nat -> Buffer) (acts : list Action) :
  preflight_ok = true ->
  launch_ok = true ->
  (forall i, i < N ->
             processWrapper env (EngineProc i) (savePath2At i) = AdapterOk (out i)) ->
  (forall i, i < N -> is_emf (formatAfter i) = true ->
             execFileSync env inkscape (converterParams env (savePath2At i))
             = ExecReturns) ->
  st_killed (run' acts) = [] ->
  (st_outcome (run' acts) = None
   \/ st_outcome (run' acts) = Some (Resolved (Some (map out (seq 0 N)))))
  /\ ((forall i, i < N -> In (EngineProc i) (st_exited (run' acts))) ->
      st_outcome (exec' (repeat ARun (3 * N + 2)) (run' acts))
      = Some (Resolved (Some (map out (seq 0 N))))).
Proof.
  intros Hpf Hl Hok Hconv Hk.
  assert (Hpre : started = true) by (unfold started; rewrite Hpf, Hl; reflexivity).
  pose proof (reachable_wf _ Hpre (reachable_run acts)) as Hwf.
  split.
  - pose proof (stays_on_track out _ Hpre Hok Hconv (reachable_run acts) Hk) as Ht.
    destruct Hwf as (_ & _ & _ & _ & _ & Hph).
    destruct (st_phase (run' acts)); try (left; tauto).
    right. exact Ht.
  - intro Hex.
    assert (Hfin : st_phase (exec' (repeat ARun (3 * N + 2)) (run' acts)) = Finished)
      by (apply settles_within; [exact Hwf | exact Hex | apply turns_left_bound; exact Hwf]).
    assert (Hr : reachable (exec' (repeat ARun (3 * N + 2)) (run' acts)))
      by (apply reachable_exec; apply reachable_run).
    pose proof (stays_on_track out _ Hpre Hok Hconv Hr) as Ht.
    unfold on_track in Ht. rewrite Hfin, runs_keep_killed in Ht.
    exact (Ht Hk).
Qed.

Lemma outputs_only (s : State) : reachable s -> only_adapter_outputs s.
Proof.
  intro Hr. destruct (reachable_cases s Hr) as [[Hpre _]|[[Hpre ->]|(Hpre & Hl & Hab)]].
  - revert s Hr. apply started_invariant; [exact Hpre | |].
    + unfold run, exec. simpl. rewrite (createTask_ok Hpre).
      split; simpl; intros bs H; [injection H as <-; constructor | discriminate H].
    + intros s s' _ Hwf [IHb IHo] Hm.
      assert (Hpush : forall i b bs,
                 i < N ->
                 processWrapper env (EngineProc i) (savePath2At i) = AdapterOk b ->
                 st_buffers s = Some bs -> Forall adapter_output (bs ++ [b])).
      { intros i b bs Hi Hw Hb. apply Forall_app. split; [apply IHb; exact Hb |].
        constructor; [| constructor]. exists i. split; assumption. }
      destruct Hm; split; simpl; intros bs' Hbs;
        try (apply IHb; exact Hbs); try (apply IHo; exact Hbs);
        try discriminate Hbs.
      * destruct v; [| discriminate Hbs]. injection Hbs as Hbs.
        apply IHb. exact Hbs.
      * injection Hbs as <-. apply (Hpush i); assumption.
      * injection Hbs as <-. apply (Hpush i); assumption.
  - rewrite (createTask_rejected Hpre).
    split; simpl; intros bs H; [injection H as <-; constructor | discriminate H].
  - destruct Hab as [-> | ->];
      split; simpl; intros bs H; [injection H as <-; constructor | discriminate H
                                 | injection H as <-; constructor | discriminate H].
Qed.

Lemma hops_left_bound (s : State) : hops_left s <= S N.
Proof. unfold hops_left. destruct (st_phase s); lia. Qed.

(** C7 (as the code has it). The conversion stage adds nothing to the
    artifact list: in every run, whether the converter succeeds, fails or
    is not run at all, the list and the value the promise resolves with
    hold adapter outputs only.  A failure of the blocking call of the
    converter is surfaced: once [execFileSync] has thrown [e], however the
    run goes on, the task's promise is pending or rejected with [e] as it
    was thrown, and it is rejected once the event loop has taken more than
    [N] further turns. *)
Theorem converter_failure_rejects_task (acts : list Action) :
  (forall bs,
      (st_buffers (run' acts) = Some bs
       \/ st_outcome (run' acts) = Some (Resolved (Some bs))) ->
      Forall adapter_output bs)
  /\ (forall cmd args e,
         In (EvExecFileSync cmd args (ExecThrows e)) (st_trace (run' acts)) ->
         (forall more,
             st_outcome (exec' more (run' acts)) = None
             \/ st_outcome (exec' more (run' acts))
                = Some (RejectedWith (RejExecError e)))
         /\ (forall more,
                N < runs more ->
                st_outcome (exec' more (run' acts))
                = Some (RejectedWith (RejExecError e)))).
Proof.
  split.
  - intros bs Hbs.
    destruct (outputs_only (run' acts)) as [Hb Ho]; [apply reachable_run |].
    destruct Hbs as [Hbs|Hbs]; [apply Hb | apply Ho]; exact Hbs.
  - intros cmd args e Hin.
    destruct (reachable_cases _ (reachable_run acts))
      as [[Hpre Hwf]|[[Hpre Hs]|(Hpre & Hl & Hab)]];
      [| rewrite Hs, (createTask_rejected Hpre) in Hin; destruct Hin
       | destruct Hab as [Hs|Hs]; rewrite Hs in Hin; destruct Hin].
    assert (Hf : failing (RejExecError e) (run' acts))
      by (apply (failure_is_carried _ Hpre (reachable_run acts) _ _ Hin); reflexivity).
    split.
    + intro more. destruct (failing_exec _ more _ Hwf Hf) as [Hf' _].
      apply failing_outcome; [apply wf_exec; exact Hwf | exact Hf'].
    + intros more Hruns. destruct (failing_exec _ more _ Hwf Hf) as [Hf' Hh].
      apply failing_done; [apply wf_exec; exact Hwf | exact Hf' |].
      rewrite Hh. pose proof (hops_left_bound (run' acts)). lia.
Qed.

(** ** The two-stage path *)

(** Only the link of page 0 ever runs the converter, and only when "emf"
    was requested: the later links captured the swapped format. *)
Lemma only_first_page_is_converted (s : State) (i : nat) (cmd : string)
  (args : list string) :
  reachable s ->
  In (EvSpawn (ConverterProc i) cmd args) (st_trace s) ->
  i = 0 /\ is_emf format = true
  /\ args = converterParams env (savePath2At 0).
Proof.
  intro Hr. destruct (reachable_cases s Hr) as [[Hpre _]|[[Hpre ->]|(Hpre & Hl & Hab)]].
  - revert s Hr.
    apply (started_invariant
             (fun s => In (EvSpawn (ConverterProc i) cmd args) (st_trace s) ->
                       i = 0 /\ is_emf format = true
                       /\ args = converterParams env (savePath2At 0)));
      [exact Hpre | |].
    + unfold run, exec. simpl. rewrite (createTask_ok Hpre). simpl. tauto.
    + intros s s' _ _ IH Hm Hin.
      destruct Hm; simpl in Hin; try (apply IH; exact Hin);
        apply in_app_or in Hin; destruct Hin as [Hin|Hin];
        try (apply IH; exact Hin);
        try (progress unfold feedEvents in Hin; destruct (truthy (content diagram)));
        in_new Hin.
      destruct i as [|i]; [repeat split; assumption |].
      rewrite formatAfter_not_emf in H4. discriminate H4.
  - rewrite (createTask_rejected Hpre). simpl. tauto.
  - destruct Hab as [-> | ->]; simpl; tauto.
Qed.

(** When "emf" is requested the destination ends in .svg from the first
    launch on, and the converter's output path ends in .emf. *)
Lemma emf_destination_is_svg (k : nat) :
  is_emf format = true -> exists stem, savePathAfter (S k) = stem ^^ ".svg".
Proof.
  intro H. simpl. rewrite H. unfold svgSavePath. apply path_format_suffix.
Qed.

Lemma converter_output_is_emf (savePath2 : string) :
  exists stem, emfOutputFileName env savePath2 = stem ^^ ".emf".
Proof. unfold emfOutputFileName. apply path_format_suffix. Qed.

(** When "emf" is requested every engine is asked for "svg". *)
Lemma emf_engines_render_svg (incl : string) (i : nat) :
  is_emf format = true ->
  In "-tsvg" (engineParams env diagram taskType incl (formatAfter (S i)) i).
Proof.
  intro H. unfold engineParams. simpl formatAfter. rewrite H.
  do 4 (apply in_or_app; right). apply in_or_app. left.
  simpl. left. reflexivity.
Qed.

(** ** What the trace records *)

(** Every engine spawn in a trace is the one of its page. *)
Lemma engine_spawn_shape (s : State) (i : nat) (cmd : string) (args : list string) :
  reachable s ->
  In (EvSpawn (EngineProc i) cmd args) (st_trace s) ->
  i < N /\ EvSpawn (EngineProc i) cmd args = spawnOf i
  /\ includePath env diagram = Some includeArg.
Proof.
  intros Hr Hin. destruct (reachable_cases s Hr) as [[Hpre Hwf]|[[Hpre ->]|(Hpre & Hl & Hab)]].
  - destruct (spawns_come_first s Hpre Hr) as (rest & Htr & Hno & _).
    rewrite Htr in Hin. apply in_app_or in Hin. destruct Hin as [Hin|Hin].
    + apply In_map_seq in Hin. destruct Hin as (j & Hj & Heq).
      destruct Hwf as (_ & _ & _ & _ & Hk & _).
      unfold spawnOf in Heq. injection Heq as -> -> ->.
      split; [lia | split; [reflexivity |]].
      apply launch_ok_include; [apply started_launch; exact Hpre | lia].
    + destruct (Hno _ _ _ Hin).
  - rewrite (createTask_rejected Hpre) in Hin. destruct Hin.
  - destruct (aborted_inert _ Hab) as (Htr0 & _). rewrite Htr0 in Hin. destruct Hin.
Qed.

(** X1. Every engine process is started with the configured executable and
    with the argument vector of its own page, built from the include path
    (which could be built, then) and from the format as it stands after the
    swap of the first iteration; so when "emf" is requested every engine,
    the one of page 0 included, is asked for "svg". *)
Theorem engine_started_for_its_page (acts : list Action) (i : nat) (cmd : string)
  (args : list string) :
  In (EvSpawn (EngineProc i) cmd args) (st_trace (run' acts)) ->
  exists incl,
    includePath env diagram = Some incl
    /\ i < N
    /\ cmd = config_java env
    /\ args = engineParams env diagram taskType incl
                (if is_emf format then Some "svg" else format) i
    /\ (is_emf format = true -> In "-tsvg" args).
Proof.
  intro Hin.
  destruct (engine_spawn_shape _ i cmd args (reachable_run acts) Hin)
    as (Hi & Heq & Hinc).
  unfold spawnOf in Heq. simpl formatAfter in Heq. injection Heq as -> ->.
  exists includeArg. repeat split; try assumption.
  intro He. rewrite He. unfold engineParams.
  do 4 (apply in_or_app; right). apply in_or_app. left. simpl. left. reflexivity.
Qed.

(** Every call of the adapter is the one of its page. *)
Lemma adapter_call_shape (s : State) (h : Handle) (sp : string) :
  reachable s ->
  In (EvAdapterCall h sp) (st_trace s) ->
  exists i, i < N /\ h = EngineProc i /\ sp = savePath2At i.
Proof.
  intro Hr. destruct (reachable_cases s Hr) as [[Hpre _]|[[Hpre ->]|(Hpre & Hl & Hab)]].
  - revert s Hr.
    apply (started_invariant
             (fun s => In (EvAdapterCall h sp) (st_trace s) ->
                       exists i, i < N /\ h = EngineProc i /\ sp = savePath2At i));
      [exact Hpre | |].
    + unfold run, exec. simpl. rewrite (createTask_ok Hpre). simpl. tauto.
    + intros s s' _ _ IH Hm Hin.
      destruct Hm; simpl in Hin; try (apply IH; exact Hin);
        apply in_app_or in Hin; destruct Hin as [Hin|Hin];
        try (apply IH; exact Hin);
        try (progress unfold feedEvents in Hin; destruct (truthy (content diagram)));
        in_new Hin; exists i; repeat split; assumption.
  - rewrite (createTask_rejected Hpre). simpl. tauto.
  - destruct Hab as [-> | ->]; simpl; tauto.
Qed.

(** X2. The adapter is only ever called on the engine process of a page
    [i < N], and with the destination of that page: the page-indexed name
    derived from the destination (rewritten to .svg when "emf" was
    requested), or the empty string when that destination is empty. *)
Theorem adapter_gets_page_destination (acts : list Action) (h : Handle)
  (sp : string) :
  In (EvAdapterCall h sp) (st_trace (run' acts)) ->
  exists i,
    i < N /\ h = EngineProc i
    /\ sp = (if truthy (if is_emf format then svgSavePath env savePath else savePath)
             then addFileIndex env
                    (if is_emf format then svgSavePath env savePath else savePath)
                    i N
             else "").
Proof.
  intro Hin.
  destruct (adapter_call_shape _ h sp (reachable_run acts) Hin) as (i & Hi & Hh & Hsp).
  exists i. repeat split; try assumption.
  rewrite Hsp. unfold savePath2At, savePath2Of.
  destruct (pageCount diagram) as [|n]; [lia | reflexivity].
Qed.

(** X3. Pages are fed strictly in page order: in every trace, an input
    written, a standard input closed or an adapter called for page [i]
    never comes after such an effect for a later page. *)
Theorem pages_fed_in_page_order (acts : list Action) (pre post : list Event)
  (e1 e2 : Event) (i j : nat) :
  st_trace (run' acts) = pre ++ e2 :: post ->
  In e1 pre ->
  fed_page e1 = Some i -> fed_page e2 = Some j ->
  i <= j.
Proof.
  destruct (reachable_cases _ (reachable_run acts)) as [[Hpre _]|[[Hpre Hs]|(Hpre & Hl & Hab)]].
  - revert pre e1 e2 post i j. fold (fed_in_order (run' acts)).
    generalize (run' acts) (reachable_run acts).
    apply started_invariant; [exact Hpre | |].
    + unfold run, exec. simpl. rewrite (createTask_ok Hpre).
      intros pre e1 e2 post i j H. destruct pre; discriminate H.
    + intros s s' Hr _ IH Hm pre e1 e2 post i j Heq Hin H1 H2.
      pose proof (page_bounds s Hpre Hr) as Hb.
      destruct Hm; simpl in Heq;
        try (apply (IH pre e1 e2 post i j Heq Hin H1 H2));
        destruct (app_split_occurrence _ _ _ _ _ Heq)
          as [(post' & H1' & H2')|(pre' & H1' & H2')];
        try (apply (IH pre e1 e2 post' i j H1' Hin H1 H2));
        try (progress unfold feedEvents in H2'; destruct (truthy (content diagram)));
        simpl in H2'; enum_occ H2'; subst; simpl in H2; try discriminate H2;
        injection H2 as <-;
        (apply in_app_or in Hin; destruct Hin as [Hin|Hin];
         [ destruct (Hb e1 i Hin) as [Hfed _]; specialize (Hfed H1);
           unfold fed_bound in Hfed; rewrite H in Hfed; lia
         | in_new Hin; simpl in H1; injection H1 as <-; lia ]).
  - intro Heq. rewrite Hs, (createTask_rejected Hpre) in Heq.
    destruct pre; discriminate Heq.  - intro Heq. destruct (aborted_inert _ Hab) as (Htr0 & _). rewrite Htr0 in Heq.
    destruct pre; discriminate Heq.
Qed.

(** What one transition adds for the pages: only effects on the page the
    chain stands before, with the call of the adapter last. *)
Lemma moves_feed_block (s s' : State) :
  Moves s s' ->
  exists new,
    st_trace s' = st_trace s ++ new
    /\ (forall ev j, In ev new -> fed_page ev = Some j ->
                     st_phase s = LinkPending j Fulfilled)
    /\ (forall pre' i sp post,
           new = pre' ++ EvAdapterCall (EngineProc i) sp :: post ->
           post = [] /\ forall sp', ~ In (EvAdapterCall (EngineProc i) sp') pre').
Proof.
  intro Hm.
  destruct Hm; simpl;
    try (exists []; rewrite app_nil_r;
         split; [reflexivity |];
         split; [ intros ? ? [] | intros pre' ? ? ? Hx; destruct pre'; discriminate Hx ]);
    try (progress unfold feedEvents; destruct (truthy (content diagram)); simpl);
    (eexists; split; [reflexivity |]; split;
     [ intros ev j0 Hin Hf; in_new Hin; simpl in Hf; try discriminate Hf;
       injection Hf as <-; assumption
     | intros pre' i0 sp post Hx; enum_occ Hx; subst;
       (split; [reflexivity | intros sp' Hin; in_new Hin]) ]).
Qed.

Lemma adapter_calls_are_unique (s : State) :
  started = true -> reachable s -> called_once s.
Proof.
  intros Hpre Hr. revert s Hr. apply started_invariant; [exact Hpre | |].
  - unfold run, exec. simpl. rewrite (createTask_ok Hpre).
    intros pre i sp post H. destruct pre; discriminate H.
  - intros s s' Hr _ IH Hm pre i sp post Heq.
    pose proof (page_bounds s Hpre Hr) as Hb.
    destruct (moves_feed_block s s' Hm) as (new & Htr & Hnew & Hcall).
    rewrite Htr in Heq.
    destruct (app_split_occurrence _ _ _ _ _ Heq)
      as [(post' & H1' & H2')|(pre' & H1' & H2')].
    + destruct (IH pre i sp post' H1') as [Ha Hp].
      split; [exact Ha |]. intros ev j Hin Hf. subst post.
      apply in_app_or in Hin. destruct Hin as [Hin|Hin]; [apply (Hp ev j Hin Hf) |].
      pose proof (Hnew ev j Hin Hf) as Hph.
      assert (Hc : In (EvAdapterCall (EngineProc i) sp) (st_trace s))
        by (rewrite H1'; apply in_or_app; right; left; reflexivity).
      destruct (Hb _ i Hc) as [Hfed _]. specialize (Hfed eq_refl).
      unfold fed_bound in Hfed. rewrite Hph in Hfed. exact Hfed.
    + destruct (Hcall pre' i sp post H2') as [-> Hno].
      assert (Hph : st_phase s = LinkPending i Fulfilled).
      { apply (Hnew (EvAdapterCall (EngineProc i) sp));
          [rewrite H2'; apply in_or_app; right; left; reflexivity | reflexivity]. }
      split; [| intros ev j []].
      intros sp' Hin. subst pre. apply in_app_or in Hin. destruct Hin as [Hin|Hin].
      * destruct (Hb _ i Hin) as [Hfed _]. specialize (Hfed eq_refl).
        unfold fed_bound in Hfed. rewrite Hph in Hfed. lia.
      * exact (Hno sp' Hin).
Qed.

(** X4. The adapter is called at most once for each page: around a call
    on page [i] the trace holds no other call on that page, before or
    after it. *)
Theorem adapter_called_once_per_page (acts : list Action) (pre post : list Event)
  (i : nat) (sp : string) :
  st_trace (run' acts) = pre ++ EvAdapterCall (EngineProc i) sp :: post ->
  forall sp',
    ~ In (EvAdapterCall (EngineProc i) sp') pre
    /\ ~ In (EvAdapterCall (EngineProc i) sp') post.
Proof.
  intros Heq sp'.
  destruct (reachable_cases _ (reachable_run acts)) as [[Hpre _]|[[Hpre Hs]|(Hpre & Hl & Hab)]].
  - destruct (adapter_calls_are_unique _ Hpre (reachable_run acts) pre i sp post Heq)
      as [Ha Hp].
    split; [apply Ha |]. intro Hin.
    pose proof (Hp _ i Hin eq_refl). lia.
  - rewrite Hs, (createTask_rejected Hpre) in Heq. destruct pre; discriminate Heq.
  - destruct (aborted_inert _ Hab) as (Htr0 & _). rewrite Htr0 in Heq.
    destruct pre; discriminate Heq.
Qed.

(** Without content nothing is written to any process and no standard
    input is closed. *)
Lemma no_stdin_without_content (acts : list Action) (ev : Event) :
  truthy (content diagram) = false ->
  In ev (st_trace (run' acts)) ->
  is_stdin ev = false.
Proof.
  intros Hc.
  destruct (reachable_cases _ (reachable_run acts)) as [[Hpre _]|[[Hpre Hs]|(Hpre & Hl & Hab)]].
  - generalize (run' acts) (reachable_run acts).
    apply (started_invariant
             (fun s => In ev (st_trace s) -> is_stdin ev = false));
      [exact Hpre | |].
    + unfold run, exec. simpl. rewrite (createTask_ok Hpre). simpl. tauto.
    + intros s s' _ _ IH Hm Hin.
      destruct Hm; simpl in Hin; try (apply IH; exact Hin);
        apply in_app_or in Hin; destruct Hin as [Hin|Hin];
        try (apply IH; exact Hin);
        try (progress unfold feedEvents in Hin; rewrite Hc in Hin);
        in_new Hin; reflexivity.
  - rewrite Hs, (createTask_rejected Hpre). simpl. tauto.
  - destruct (aborted_inert _ Hab) as (Htr0 & _). rewrite Htr0. simpl. tauto.
Qed.

(** The turn of the link of a page whose process was not killed. *)
Lemma feed_step (s : State) (i : nat) :
  wf s ->
  st_phase s = LinkPending i Fulfilled -> i < N ->
  ~ In (EngineProc i) (st_killed s) ->
  step' ARun s
  = set_phase (LinkAwaiting i (savePath2At i)) (emit (feedEvents i) s).
Proof.
  intros (Hl & Hp & Hf & Hsp & Hk & Hph) Ep Hi Hnk.
  unfold step. rewrite Ep. rewrite Ep in Hph. destruct Hph as (HkN & _ & _).
  rewrite Hl, HkN, nth_error_map_seq.
  apply Nat.ltb_lt in Hi. rewrite Hi.
  unfold linkFulfilled. simpl lk_process. simpl lk_index.
  rewrite (proj2 (handle_in_false _ _) Hnk).
  unfold savePath2At, feedEvents, savePath2At. rewrite Hsp, HkN.
  destruct (truthy (content diagram)); unfold set_phase, emit; simpl;
    f_equal; rewrite <- app_assoc; reflexivity.
Qed.

(** X5. When the diagram has no content, nothing is written to any
    process and no standard input is ever closed; the adapter is called
    all the same: the turn of the link of a page whose process was not
    killed adds exactly the call of the adapter on that process, with the
    destination of the page, and the chain then awaits that adapter. *)
Theorem empty_content_leaves_stdin_alone (acts : list Action) :
  truthy (content diagram) = false ->
  (forall ev, In ev (st_trace (run' acts)) -> is_stdin ev = false)
  /\ (forall i,
         st_phase (run' acts) = LinkPending i Fulfilled -> i < N ->
         ~ In (EngineProc i) (st_killed (run' acts)) ->
         st_trace (step' ARun (run' acts))
         = st_trace (run' acts) ++ [EvAdapterCall (EngineProc i) (savePath2At i)]
         /\ st_phase (step' ARun (run' acts)) = LinkAwaiting i (savePath2At i)).
Proof.
  intro Hc. split.
  - intros ev Hin. exact (no_stdin_without_content acts ev Hc Hin).
  - intros i Hp Hi Hnk.
    destruct (reachable_cases _ (reachable_run acts))
      as [[Hpre Hwf]|[[Hpre Hs]|(Hpre & Hl & Hab)]];
      [| rewrite Hs, (createTask_rejected Hpre) in Hp; discriminate Hp
       | destruct Hab as [Hs|Hs]; rewrite Hs in Hp; discriminate Hp].
    rewrite (feed_step _ i Hwf Hp Hi Hnk).
    unfold feedEvents. rewrite Hc. split; reflexivity.
Qed.

(** X6. When the diagram has content, every call of the adapter on a
    process comes right after the whole content was written to that
    process and its standard input was closed. *)
Theorem content_written_before_adapter (acts : list Action) (h : Handle)
  (sp : string) (pre post : list Event) :
  truthy (content diagram) = true ->
  st_trace (run' acts) = pre ++ EvAdapterCall h sp :: post ->
  exists pre', pre = pre' ++ [EvStdinWrite h (content diagram); EvStdinEnd h].
Proof.
  intros Hc.
  destruct (reachable_cases _ (reachable_run acts)) as [[Hpre _]|[[Hpre Hs]|(Hpre & Hl & Hab)]].
  - revert pre post. generalize (run' acts) (reachable_run acts).
    apply (started_invariant
             (fun s => forall pre post,
                  st_trace s = pre ++ EvAdapterCall h sp :: post ->
                  exists pre',
                    pre = pre' ++ [EvStdinWrite h (content diagram); EvStdinEnd h]));
      [exact Hpre | |].
    + unfold run, exec. simpl. rewrite (createTask_ok Hpre).
      intros pre post H. destruct pre; discriminate H.
    + intros s s' _ _ IH Hm pre post Heq.
      destruct Hm; simpl in Heq; try (apply (IH pre post Heq));
        destruct (app_split_occurrence _ _ _ _ _ Heq)
          as [(post' & H1' & H2')|(pre' & H1' & H2')];
        try (apply (IH pre post' H1'));
        try (progress unfold feedEvents in H2'; rewrite Hc in H2');
        simpl in H2'; enum_occ H2'; subst.
      exists (st_trace s). reflexivity.
  - intro Heq. rewrite Hs, (createTask_rejected Hpre) in Heq.
    destruct pre; discriminate Heq.  - intro Heq. destruct (aborted_inert _ Hab) as (Htr0 & _). rewrite Htr0 in Heq.
    destruct pre; discriminate Heq.
Qed.

(** ** Settling *)

(** A finished task is quiescent. *)
Lemma finished_is_quiescent (more : list Action) :
  forall s,
    st_phase s = Finished ->
    st_phase (exec' more s) = Finished
    /\ st_outcome (exec' more s) = st_outcome s
    /\ st_trace (exec' more s) = st_trace s
    /\ st_buffers (exec' more s) = st_buffers s
    /\ procs (exec' more s) = procs s.
Proof.
  induction more as [|a more IH]; intros s Hp; [repeat split; assumption |].
  rewrite exec_cons.
  assert (Hstep : st_phase (step' a s) = Finished
                  /\ st_outcome (step' a s) = st_outcome s
                  /\ st_trace (step' a s) = st_trace s
                  /\ st_buffers (step' a s) = st_buffers s
                  /\ procs (step' a s) = procs s).
  { destruct a as [|h|h]; simpl.
    - rewrite Hp. repeat split; assumption.
    - destruct (handle_in h (procs s)); repeat split; assumption.
    - destruct (handle_in h (procs s)); repeat split; assumption. }
  destruct Hstep as (H1 & H2 & H3 & H4 & H5).
  destruct (IH _ H1) as (G1 & G2 & G3 & G4 & G5).
  repeat split; congruence.
Qed.

Lemma settled_is_finished (s : State) :
  reachable s -> st_outcome s <> None -> st_phase s = Finished.
Proof.
  intros Hr Ho. destruct (reachable_cases s Hr) as [[Hpre Hwf]|[[Hpre ->]|(Hpre & Hl & Hab)]].
  - destruct Hwf as (_ & _ & _ & _ & _ & Hph).
    destruct (st_phase s); try reflexivity; exfalso; apply Ho; tauto.
  - rewrite (createTask_rejected Hpre). reflexivity.
  - destruct Hab as [Hs|Hs]; rewrite Hs; [| reflexivity].
    rewrite Hs in Ho. exfalso. apply Ho. reflexivity.
Qed.

(** X7. The promise of a task settles once: after it has settled with
    [o], whatever happens next leaves the outcome [o], adds no effect to the
    trace, and changes neither the artifact list nor the handle list. *)
Theorem settled_task_is_quiescent (acts more : list Action) (o : Outcome) :
  st_outcome (run' acts) = Some o ->
  st_outcome (exec' more (run' acts)) = Some o
  /\ st_trace (exec' more (run' acts)) = st_trace (run' acts)
  /\ st_buffers (exec' more (run' acts)) = st_buffers (run' acts)
  /\ procs (exec' more (run' acts)) = procs (run' acts).
Proof.
  intro Ho.
  assert (Hp : st_phase (run' acts) = Finished)
    by (apply settled_is_finished; [apply reachable_run | congruence]).
  destruct (finished_is_quiescent more _ Hp) as (_ & H2 & H3 & H4 & H5).
  repeat split; congruence.
Qed.

(** Kills and process exits leave the chain where it is. *)
Lemma idle_step (s : State) (a : Action) :
  a <> ARun ->
  st_phase (step' a s) = st_phase s
  /\ st_buffers (step' a s) = st_buffers s
  /\ st_trace (step' a s) = st_trace s
  /\ st_outcome (step' a s) = st_outcome s
  /\ (forall h, In h (st_exited s) -> In h (st_exited (step' a s))).
Proof.
  intro Ha. destruct a as [|h|h]; [congruence | |]; simpl;
    destruct (handle_in h (procs s)); simpl; repeat split; auto.
Qed.

Lemma turns_after (more : list Action) :
  forall s,
    wf s ->
    (forall i, i < N -> In (EngineProc i) (st_exited s)) ->
    turns_left (exec' more s) <= turns_left s - runs more.
Proof.
  induction more as [|a more IH]; intros s Hwf Hex; [simpl; lia |].
  rewrite exec_cons.
  assert (Hex' : forall i, i < N -> In (EngineProc i) (st_exited (step' a s))).
  { intros i Hi. apply (moves_exited_in s); [apply step_moves; exact Hwf |].
    apply Hex. exact Hi. }
  specialize (IH _ (wf_step s a Hwf) Hex').
  destruct a as [|h|h].
  - pose proof (turns_decrease s Hwf Hex). simpl runs. lia.
  - destruct (idle_step s (AExit h)) as (Hp & _); [discriminate |].
    unfold turns_left in *. rewrite Hp in IH. simpl runs. exact IH.
  - destruct (idle_step s (AKill h)) as (Hp & _); [discriminate |].
    unfold turns_left in *. rewrite Hp in IH. simpl runs. exact IH.
Qed.

(** X8. The chain never hangs on its own: once every engine process has
    finished, the promise is settled after at most [3N+2] further turns of
    the event loop, whatever else happens in between. *)
Theorem task_settles_once_processes_finish (acts more : list Action) :
  (forall i, i < N -> In (EngineProc i) (st_exited (run' acts))) ->
  3 * N + 2 <= runs more ->
  exists o, st_outcome (exec' more (run' acts)) = Some o.
Proof.
  intros Hex Hruns.
  destruct (reachable_cases _ (reachable_run acts)) as [[Hpre Hwf]|[[Hpre Hs]|(Hpre & Hl & Hab)]].
  - pose proof (turns_after more _ Hwf Hex) as Ht.
    pose proof (turns_left_bound _ Hwf) as Hb.
    pose proof (wf_exec more _ Hwf) as (_ & _ & _ & _ & _ & Hph).
    remember (turns_left (run' acts)) as t0 eqn:Et0. clear Et0.
    unfold turns_left in Ht.
    destruct (st_phase (exec' more (run' acts))); try lia.
    destruct Hph as [_ Ho]. exact Ho.
  - assert (Hp : st_phase (run' acts) = Finished)
      by (rewrite Hs, (createTask_rejected Hpre); reflexivity).
    destruct (finished_is_quiescent more _ Hp) as (_ & H2 & _).
    rewrite H2, Hs, (createTask_rejected Hpre). eexists. reflexivity.
  - destruct (launch_fails_include Hl) as [HN _].
    destruct (aborted_inert _ Hab) as (_ & _ & _ & Hex0 & _).
    pose proof (Hex 0 HN) as Hin. rewrite Hex0 in Hin. destruct Hin.
Qed.

(** X9. There is no timeout: while the chain waits for the output of page
    [i] and that process does not finish, nothing happens, whatever the
    event loop and the caller do: the phase, the trace and the pending
    promise stay as they are. *)
Theorem chain_waits_for_running_process (acts more : list Action) (i : nat)
  (sp : string) :
  st_phase (run' acts) = LinkAwaiting i sp ->
  ~ In (EngineProc i) (st_exited (run' acts)) ->
  ~ In (AExit (EngineProc i)) more ->
  st_phase (exec' more (run' acts)) = LinkAwaiting i sp
  /\ st_trace (exec' more (run' acts)) = st_trace (run' acts)
  /\ st_outcome (exec' more (run' acts)) = None.
Proof.
  intros Hp Hne Hmore.
  destruct (reachable_cases _ (reachable_run acts)) as [[Hpre Hwf]|[[Hpre Hs]|(Hpre & Hl & Hab)]];
    [| rewrite Hs, (createTask_rejected Hpre) in Hp; discriminate Hp
     | destruct Hab as [Hs|Hs]; rewrite Hs in Hp; discriminate Hp].
  revert Hwf Hp Hne. generalize (run' acts).
  induction more as [|a more IH]; intros s Hwf Hp Hne.
  - repeat split; try assumption.
    destruct Hwf as (_ & _ & _ & _ & _ & Hph). rewrite Hp in Hph. tauto.
  - rewrite exec_cons.
    assert (Hstep : st_phase (step' a s) = LinkAwaiting i sp
                    /\ st_trace (step' a s) = st_trace s
                    /\ ~ In (EngineProc i) (st_exited (step' a s))).
    { destruct a as [|h|h]; simpl.
      - rewrite Hp.
        destruct Hwf as (Hl & _ & _ & _ & _ & Hph). rewrite Hp in Hph.
        destruct Hph as (HkN & Hi & _).
        rewrite Hl, HkN, nth_error_map_seq.
        apply Nat.ltb_lt in Hi. rewrite Hi. simpl lk_process.
        rewrite (proj2 (handle_in_false _ _) Hne). repeat split; assumption.
      - destruct (handle_in h (procs s)); simpl; repeat split; try assumption.
        intros [Heq|Hin]; [| exact (Hne Hin)].
        apply Hmore. left. rewrite Heq. reflexivity.
      - destruct (handle_in h (procs s)); simpl; repeat split; assumption. }
    destruct Hstep as (H1 & H2 & H3).
    destruct (IH (fun Hin => Hmore (or_intror Hin)) _ (wf_step s a Hwf) H1 H3)
      as (G1 & G2 & G3).
    repeat split; congruence.
Qed.

(** ** Why a task fails *)

Lemma accounted_holds (s : State) :
  started = true -> reachable s -> accounted s.
Proof.
  intros Hpre Hr. revert s Hr. apply started_invariant; [exact Hpre | |].
  - unfold run, exec. simpl. rewrite (createTask_ok Hpre).
    repeat split; simpl; intros; discriminate.
  - intros s s' _ Hwf (I1 & I2 & I3 & I4) Hm.
    destruct Hwf as (_ & _ & _ & _ & _ & Hph).
    assert (Hnone : forall (P : Prop) o,
               st_outcome s = None -> st_outcome s = Some o -> P)
      by (intros P o H1 H2; rewrite H1 in H2; discriminate H2).
    destruct Hm; unfold accounted; simpl;
      try (rewrite H in Hph; simpl in Hph).
    + (* MvStutter *) repeat split; assumption.
    + (* MvKill *)
      repeat split; try assumption.
      intro Hb. destruct (I4 Hb) as [k Hk]. exists k. right. exact Hk.
    + (* MvExit *) repeat split; assumption.
    + (* MvLaunch *)
      destruct Hph as (_ & Ho & _).
      repeat split; try (intros; discriminate); try assumption;
        intros; eapply Hnone; eassumption.
    + (* MvLaunched *)
      destruct Hph as (_ & Ho & _).
      repeat split; try (intros; discriminate); try assumption;
        intros; eapply Hnone; eassumption.
    + (* MvSkipKilled *)
      destruct Hph as (_ & _ & Ho).
      repeat split; try (intros; discriminate);
        try (intros; eapply Hnone; eassumption).
      intros _. exists i. assumption.
    + (* MvFeed *)
      destruct Hph as (_ & _ & Ho).
      repeat split; try (intros; discriminate); try assumption;
        intros; eapply Hnone; eassumption.
    + (* MvForward *)
      destruct Hph as (_ & _ & Ho).
      repeat split; try assumption;
        try (intros; eapply Hnone; eassumption).
      intros i' r' Heq. injection Heq as _ <-. exact (I1 i r H).
    + (* MvSettle *)
      repeat split; try (intros; discriminate); try assumption.
      * intros r Heq. destruct v as [|r0]; [discriminate Heq |].
        injection Heq as <-. exact (I1 _ r0 H).
      * intros b Heq. destruct v as [|r0]; [| discriminate Heq].
        injection Heq as <-. reflexivity.
    + (* MvAdapterErr *)
      destruct Hph as (_ & _ & _ & Ho).
      repeat split; try assumption;
        try (intros; eapply Hnone; eassumption).
      intros i' r' Heq. injection Heq as _ <-. simpl.
      exists i, e. split; [apply in_or_app; right; left; reflexivity | reflexivity].
    + (* MvPushNull *)
      destruct Hph as (_ & _ & _ & Ho).
      repeat split; try assumption;
        try (intros; eapply Hnone; eassumption).
      intros i' r' Heq. injection Heq as _ <-. simpl. assumption.
    + (* MvPush *)
      destruct Hph as (_ & _ & _ & Ho).
      repeat split; try (intros; discriminate);
        intros; eapply Hnone; eassumption.
    + (* MvConvert *)
      destruct Hph as (_ & _ & _ & Ho).
      repeat split; try (intros; discriminate);
        try (intros; eapply Hnone; eassumption).
      intros i' r' Heq. destruct r as [|e]; [discriminate Heq |].
      injection Heq as _ <-. simpl. split.
      * destruct i as [|i]; [exact H4 |].
        rewrite formatAfter_not_emf in H4. discriminate H4.
      * exists (converterParams env (savePath2At i)).
        apply in_or_app. right. simpl. tauto.
Qed.

(** X10. Every rejection of a task has one of four causes, and each kind
    of rejection tells which: a plain message comes from the preflight
    only; a [RenderError] carries the localized title-and-error message and
    the output of an adapter failure that is in the trace; the [TypeError]
    only occurs after some process was killed; an error of the converter
    only occurs when "emf" was requested and the blocking call threw it. *)
Theorem rejection_has_a_cause (acts : list Action) (r : Rejection) :
  st_outcome (run' acts) = Some (RejectedWith r) ->
  match r with
  | RejMessage m =>
      preflight_ok = false
      /\ m = (if truthy (config_java env)
              then localize env 6 None [extensionPath env]
              else localize env 5 None [])
  | RejRenderError m out =>
      exists k e,
        In (EvAdapterSettle (EngineProc k) (AdapterErr e out)) (st_trace (run' acts))
        /\ m = localize env 10 None [title diagram; e]
  | RejTypeError => exists k, In (EngineProc k) (st_killed (run' acts))
  | RejExecError e =>
      is_emf format = true
      /\ exists args,
           In (EvExecFileSync inkscape args (ExecThrows e)) (st_trace (run' acts))
  end.
Proof.
  intro Ho.
  destruct (reachable_cases _ (reachable_run acts)) as [[Hpre _]|[[Hpre Hs]|(Hpre & Hl & Hab)]].
  - destruct (accounted_holds _ Hpre (reachable_run acts)) as (_ & I2 & _ & I4).
    pose proof (I2 r Ho) as Hc.
    destruct r; simpl in Hc; try assumption; [destruct Hc | exact (I4 Hc)].
  - rewrite Hs, (createTask_rejected Hpre) in Ho. injection Ho as <-.
    split; [exact Hpre | reflexivity].
  - destruct Hab as [Hs|Hs]; rewrite Hs in Ho; discriminate Ho.
Qed.

(** X11. A discarded artifact list is never rebuilt: once [buffers] is
    [null] it stays [null] whatever happens next, and the promise never
    resolves with a list afterwards (it resolves with [null] or is
    rejected). *)
Theorem discarded_list_stays_discarded (acts more : list Action) :
  st_buffers (run' acts) = None ->
  st_buffers (exec' more (run' acts)) = None
  /\ forall bs, st_outcome (exec' more (run' acts)) <> Some (Resolved (Some bs)).
Proof.
  intro Hb.
  destruct (reachable_cases _ (reachable_run acts)) as [[Hpre Hwf]|[[Hpre Hs]|(Hpre & Hl & Hab)]];
    [| rewrite Hs, (createTask_rejected Hpre) in Hb; discriminate Hb
     | destruct Hab as [Hs|Hs]; rewrite Hs in Hb; discriminate Hb].
  assert (Hnull : st_buffers (exec' more (run' acts)) = None).
  { revert Hwf Hb. generalize (run' acts).
    induction more as [|a more IH]; intros s Hwf Hb; [exact Hb |].
    rewrite exec_cons. apply IH; [apply wf_step; exact Hwf |].
    pose proof (step_moves s a Hwf) as Hm.
    destruct Hm; simpl; try assumption; try reflexivity; congruence. }
  split; [exact Hnull |].
  intros bs Ho.
  destruct (accounted_holds _ Hpre (reachable_exec _ more (reachable_run acts)))
    as (_ & _ & I3 & _).
  pose proof (I3 _ Ho) as Heq. rewrite Hnull in Heq. discriminate Heq.
Qed.

(** X12. After a kill has discarded the artifact list, a later page whose
    process was not killed is still rendered, and when its adapter succeeds
    the push on the discarded list rejects the task: if the chain awaits
    page [j] with [buffers] at [null], the process of page [j] has finished
    and the adapter yields bytes for it, then the promise is rejected with
    the [TypeError] once the event loop has taken more than [N] turns. *)
Theorem push_on_discarded_list_rejects (acts more : list Action) (j : nat)
  (sp : string) (b : Buffer) :
  st_phase (run' acts) = LinkAwaiting j sp ->
  st_buffers (run' acts) = None ->
  In (EngineProc j) (st_exited (run' acts)) ->
  processWrapper env (EngineProc j) sp = AdapterOk b ->
  N < runs more ->
  st_outcome (exec' more (run' acts)) = Some (RejectedWith RejTypeError).
Proof.
  intros Hp Hb Hex Hok.
  destruct (reachable_cases _ (reachable_run acts)) as [[Hpre Hwf]|[[Hpre Hs]|(Hpre & Hl & Hab)]];
    [| rewrite Hs, (createTask_rejected Hpre) in Hp; discriminate Hp
     | destruct Hab as [Hs|Hs]; rewrite Hs in Hp; discriminate Hp].
  revert Hwf Hp Hb Hex. generalize (run' acts).
  induction more as [|a more IH]; intros s Hwf Hp Hb Hex Hruns;
    [simpl in Hruns; lia |].
  rewrite exec_cons.
  destruct a as [|h|h].
  - (* the adapter settles and the push throws *)
    assert (Hstep : step' ARun s
                    = set_phase (LinkPending (S j) (Rejected RejTypeError))
                        (emit [EvAdapterSettle (EngineProc j) (AdapterOk b)] s)).
    { destruct Hwf as (Hl & _ & _ & _ & _ & Hph). rewrite Hp in Hph.
      destruct Hph as (HkN & Hj & Hsp & _).
      unfold step. rewrite Hp, Hl, HkN, nth_error_map_seq.
      apply Nat.ltb_lt in Hj. rewrite Hj. simpl lk_process.
      apply handle_in_In in Hex. rewrite Hex.
      unfold adapterSettled. simpl lk_process. rewrite Hok. simpl st_buffers.
      rewrite Hb. reflexivity. }
    assert (Hf : failing RejTypeError (step' ARun s))
      by (rewrite Hstep; left; eexists; reflexivity).
    destruct (failing_exec _ more _ (wf_step s ARun Hwf) Hf) as [Hf' Hh].
    apply failing_done; [apply wf_exec; apply wf_step; exact Hwf | exact Hf' |].
    rewrite Hh, Hstep. unfold hops_left. cbn [st_phase set_phase]. cbv iota beta.
    simpl in Hruns. lia.
  - destruct (idle_step s (AExit h)) as (H1 & H2 & _ & _ & H5); [discriminate |].
    apply IH; try (apply wf_step; exact Hwf); try congruence;
      try exact Hruns.
    apply H5. exact Hex.
  - destruct (idle_step s (AKill h)) as (H1 & H2 & _ & _ & H5); [discriminate |].
    apply IH; try (apply wf_step; exact Hwf); try congruence;
      try exact Hruns.
    apply H5. exact Hex.
Qed.

(** ** Tasks without pages, kills, and the plain path *)

(** X13. A diagram without pages: the loop spawns nothing, nothing is ever
    written or consumed, and the promise resolves with the empty list at
    the second turn of the event loop. *)
Theorem no_pages_resolve_with_empty_list (acts : list Action) :
  preflight_ok = true ->
  N = 0 ->
  st_trace (run' acts) = []
  /\ procs (run' acts) = []
  /\ st_outcome (run' acts)
     = (if Nat.ltb (runs acts) 2 then None else Some (Resolved (Some []))).
Proof.
  intros Hpre HN.
  assert (Hshape :
    run' acts
    = {| st_format := format; st_savePath := savePath;
         st_processes := Some []; st_buffers := Some [];
         st_links := [];
         st_phase := match runs acts with
                     | 0 => Launching 0
                     | 1 => LinkPending 0 Fulfilled
                     | _ => Finished
                     end;
         st_outcome := if Nat.ltb (runs acts) 2 then None
                       else Some (Resolved (Some []));
         st_killed := []; st_exited := []; st_trace := [] |}).
  { induction acts as [|a acts IH] using rev_ind.
    - unfold run, exec. simpl. apply (createTask_passes Hpre).
    - rewrite run_app, IH, runs_app. simpl exec.
      destruct a as [|h|h]; simpl runs; rewrite ?Nat.add_0_r, ?Nat.add_1_r;
        [| reflexivity | reflexivity].
      unfold step. simpl st_phase.
      destruct (runs acts) as [|[|n]]; simpl; rewrite ?HN; reflexivity. }
  rewrite Hshape. repeat split.
Qed.

Lemma mark_killed_commutes (s : State) (h : Handle) :
  wf s ->
  (forall i, st_phase s = LinkPending i Fulfilled -> h <> EngineProc i) ->
  step' ARun (mark_killed h s) = mark_killed h (step' ARun s).
Proof.
  intros (Hl & _ & _ & _ & _ & Hph) Hnot. unfold step. simpl st_phase.
  destruct (st_phase s) as [j|i v|i sp2|] eqn:Ephase.
  - destruct (Nat.ltb j (pageCount diagram)); [| reflexivity].
    unfold launchPage. destruct (includePath env diagram); reflexivity.
  - simpl st_links. destruct Hph as (HkN & Hi & _).
    rewrite Hl, HkN, nth_error_map_seq.
    destruct (Nat.ltb i (pageCount diagram)); [| reflexivity].
    destruct v as [|r]; [| reflexivity].
    assert (Hsame : handle_in (EngineProc i) (st_killed (mark_killed h s))
                    = handle_in (EngineProc i) (st_killed s)).
    { change (st_killed (mark_killed h s)) with (h :: st_killed s).
      change (handle_in (EngineProc i) (h :: st_killed s))
        with (handle_eqb (EngineProc i) h || handle_in (EngineProc i) (st_killed s)).
      destruct (handle_eqb (EngineProc i) h) eqn:Eh; [| reflexivity].
      apply handle_eqb_eq in Eh. exfalso. apply (Hnot i eq_refl). congruence. }
    unfold linkFulfilled. simpl lk_process. rewrite Hsame.
    destruct (handle_in (EngineProc i) (st_killed s)); [reflexivity |].
    destruct (truthy (content diagram)); reflexivity.
  - simpl st_links. simpl st_exited.
    destruct (nth_error (st_links s) i) as [lk|]; [| reflexivity].
    destruct (handle_in (lk_process lk) (st_exited s)); [| reflexivity].
    unfold adapterSettled, convertStage.
    destruct (processWrapper env (lk_process lk) sp2); [| reflexivity].
    simpl st_buffers. destruct (st_buffers s); [| reflexivity].
    destruct (is_emf (lk_origFormat lk)); reflexivity.
  - reflexivity.
Qed.

(** X14. A kill is only observed by the link of the killed page, at the
    moment that link starts: for a listed process, unless the chain stands
    right before the link of that very page, it makes no difference to the
    next turn of the event loop whether the kill comes before or after
    it. *)
Theorem kill_only_seen_at_link_start (acts : list Action) (h : Handle) :
  In h (procs (run' acts)) ->
  (forall i, st_phase (run' acts) = LinkPending i Fulfilled -> h <> EngineProc i) ->
  step' ARun (step' (AKill h) (run' acts))
  = step' (AKill h) (step' ARun (run' acts)).
Proof.
  intros Hin Hnot.
  destruct (reachable_cases _ (reachable_run acts)) as [[Hpre Hwf]|[[Hpre Hs]|(Hpre & Hl & Hab)]];
    [| rewrite Hs, (createTask_rejected Hpre) in Hin; destruct Hin
     | destruct Hab as [Hs|Hs]; rewrite Hs in Hin; destruct Hin].
  assert (Hin' : In h (procs (step' ARun (run' acts)))).
  { destruct (moves_procs _ _ (step_moves _ ARun Hwf)) as [extra ->].
    apply in_or_app. left. exact Hin. }
  apply handle_in_In in Hin. apply handle_in_In in Hin'.
  simpl step at 2. rewrite Hin.
  change (step' (AKill h) (step' ARun (run' acts)))
    with (if handle_in h (procs (step' ARun (run' acts)))
          then mark_killed h (step' ARun (run' acts))
          else step' ARun (run' acts)).
  rewrite Hin'. apply mark_killed_commutes; assumption.
Qed.

(** X15. The converter is only ever run by the link of page 0, and only
    when "emf" was requested: every spawn of the converter in a trace is
    the one of page 0, of the program /usr/bin/inkscape, with the arguments
    --without-gui, --export-emf=<the .emf path derived from the destination
    of page 0> and the destination of page 0. *)
Theorem converter_runs_for_first_page_only (acts : list Action) (i : nat)
  (cmd : string) (args : list string) :
  In (EvSpawn (ConverterProc i) cmd args) (st_trace (run' acts)) ->
  i = 0
  /\ is_emf format = true
  /\ cmd = inkscape
  /\ args = ["--without-gui";
             "--export-emf=" ^^ emfOutputFileName env (savePath2At 0);
             savePath2At 0].
Proof.
  intro Hin.
  destruct (only_first_page_is_converted _ i cmd args (reachable_run acts) Hin)
    as (Hi & He & Ha).
  destruct (in_split _ _ Hin) as (pre & post & Heq).
  destruct (blocks_spawn_then_exec _ (reachable_blocks _ (reachable_run acts))
              _ _ _ _ _ Heq) as [Hc _].
  repeat split; assumption.
Qed.

(** Without "emf" nothing is rewritten and nothing is converted. *)
Lemma plain_format_untouched (s : State) :
  is_emf format = false -> reachable s ->
  st_format s = format
  /\ st_savePath s = savePath
  /\ forall ev, In ev (st_trace s) -> is_converter ev = false.
Proof.
  intros He Hr. split; [| split].
  - destruct (reachable_cases s Hr) as [[Hpre Hwf]|[[Hpre ->]|(Hpre & Hl & Hab)]].
    + destruct Hwf as (_ & _ & Hf & _). rewrite Hf.
      destruct (List.length (st_links s)); simpl; [| rewrite He]; reflexivity.
    + rewrite (createTask_rejected Hpre). reflexivity.
    + destruct Hab as [-> | ->]; reflexivity.
  - destruct (reachable_cases s Hr) as [[Hpre Hwf]|[[Hpre ->]|(Hpre & Hl & Hab)]].
    + destruct Hwf as (_ & _ & _ & Hsp & _). rewrite Hsp.
      destruct (List.length (st_links s)); simpl; [| rewrite He]; reflexivity.
    + rewrite (createTask_rejected Hpre). reflexivity.
    + destruct Hab as [-> | ->]; reflexivity.
  - intros ev Hin.
    destruct ev as [[i|i] c a| | | | |c a r]; try reflexivity.
    + destruct (only_first_page_is_converted s i c a Hr Hin) as (_ & He' & _).
      congruence.
    + destruct (in_split _ _ Hin) as (pre & post & Heq).
      destruct (blocks_exec_after_spawn _ (reachable_blocks s Hr) _ _ _ _ _ Heq)
        as (pre' & i & Hpre').
      assert (Hs : In (EvSpawn (ConverterProc i) c a) (st_trace s)).
      { rewrite Heq, Hpre'. apply in_or_app. left. apply in_or_app. right.
        left. reflexivity. }
      destruct (only_first_page_is_converted s i c a Hr Hs) as (_ & He' & _).
      congruence.
Qed.

(** X16. When the requested format is not "emf" (or none is given), the
    format and the destination are never reassigned and the conversion
    stage never runs: no converter is spawned and [execFileSync] is never
    called. *)
Theorem plain_render_never_converts (acts : list Action) :
  is_emf format = false ->
  st_format (run' acts) = format
  /\ st_savePath (run' acts) = savePath
  /\ forall ev, In ev (st_trace (run' acts)) -> is_converter ev = false.
Proof.
  intro He. apply plain_format_untouched; [exact He | apply reachable_run].
Qed.

(** ** The include path and the workspace folder *)

Lemma resolveFolder_none (p : string) :
  resolveFolder env diagram p = None
  <-> path_isAbsolute env p = false
      /\ workspaceFolder_fsPath env (parentUri diagram) = None.
Proof.
  unfold resolveFolder.
  destruct (path_isAbsolute env p);
    destruct (workspaceFolder_fsPath env (parentUri diagram));
    split; intro H; try discriminate H; try (split; reflexivity);
    destruct H as [H1 H2]; try discriminate H1; try discriminate H2;
    reflexivity.
Qed.

(** The loop over the include folders throws at the first non-empty folder
    that cannot be resolved. *)
Lemma include_folders_none (l : list string) (acc : option string) :
  fold_left (addIncludeFolder env diagram) l acc = None
  <-> acc = None
      \/ exists p, In p l /\ truthy p = true /\ resolveFolder env diagram p = None.
Proof.
  revert acc. induction l as [|p l IH]; intro acc; simpl.
  - split; [intro H; left; exact H | intros [H|(p & [] & _)]; exact H].
  - rewrite IH. split.
    + intros [H|(q & Hq & Ht & Hr)].
      * unfold addIncludeFolder in H. destruct acc as [a|]; [| left; reflexivity].
        destruct (truthy p) eqn:Et; [| discriminate H].
        destruct (resolveFolder env diagram p) eqn:Er; [discriminate H |].
        right. exists p. repeat split; try assumption. left. reflexivity.
      * right. exists q. repeat split; try assumption. right. exact Hq.
    + intros [H|(q & [<-|Hq] & Ht & Hr)].
      * left. subst acc. reflexivity.
      * left. destruct acc as [a|]; [| reflexivity].
        unfold addIncludeFolder. rewrite Ht, Hr. reflexivity.
      * right. exists q. repeat split; assumption.
Qed.

Lemma includePath_none :
  includePath env diagram = None
  <-> workspaceFolder_fsPath env (parentUri diagram) = None
      /\ exists folderPath,
           In folderPath (config_includepaths env (parentUri diagram))
           /\ truthy folderPath = true
           /\ path_isAbsolute env folderPath = false.
Proof.
  unfold includePath.
  match goal with
  | |- context [fold_left ?f ?l ?a] =>
      pose proof (include_folders_none l a) as Hfold;
      destruct (fold_left f l a) as [w|]
  end.
  - split; [intro H; discriminate H |].
    intros (Hws & p & Hin & Ht & Habs).
    assert (Hnone : @None string = None) by reflexivity.
    destruct Hfold as [_ Hfold].
    assert (H : Some w = @None string); [| discriminate H].
    apply Hfold. right. exists p. repeat split; try assumption.
    apply resolveFolder_none. split; assumption.
  - split; [intros _ | reflexivity].
    destruct Hfold as [Hfold _].
    destruct (Hfold eq_refl) as [H|(p & Hin & Ht & Hr)]; [discriminate H |].
    apply resolveFolder_none in Hr. destruct Hr as [Habs Hws].
    split; [exact Hws |]. exists p. repeat split; assumption.
Qed.

(** The run of a call that throws at line 107. *)
Lemma aborted_run (acts : list Action) :
  preflight_ok = true -> launch_ok = false ->
  run' acts = if Nat.eqb (runs acts) 0 then initial else createTaskThrows initial.
Proof.
  intros Hpre Hl. destruct (launch_fails_include Hl) as [HN Hinc].
  induction acts as [|a acts IH] using rev_ind.
  - unfold run, exec. simpl. apply createTask_passes. exact Hpre.
  - rewrite run_app, IH, runs_app. simpl exec.
    destruct a as [|h|h]; simpl runs; rewrite ?Nat.add_0_r, ?Nat.add_1_r.
    + destruct (runs acts) as [|n]; simpl; [| reflexivity].
      apply Nat.ltb_lt in HN. rewrite HN.
      unfold launchPage. rewrite Hinc. reflexivity.
    + destruct (Nat.eqb (runs acts) 0); reflexivity.
    + destruct (Nat.eqb (runs acts) 0); reflexivity.
Qed.

(** A task that starts never ends by a throw of [createTask]. *)
Lemma started_never_throws (s : State) :
  started = true -> reachable s -> st_outcome s <> Some CreateTaskThrew.
Proof.
  intros Hpre Hr. revert s Hr. apply started_invariant; [exact Hpre | |].
  - unfold run, exec. simpl. rewrite (createTask_ok Hpre). discriminate.
  - intros s s' _ _ IH Hm. destruct Hm; simpl; try exact IH.
    destruct v; discriminate.
Qed.

(** X19. [createTask] throws exactly when the preflight passes, the diagram
    has at least one page, no workspace folder contains the diagram, and some
    configured include folder is non-empty and relative (line 107); it
    throws in the first iteration of the loop, before anything is spawned:
    the trace and the handle list are empty. *)
Theorem createTask_throws_without_workspace (acts : list Action) :
  (st_outcome (run' acts) = Some CreateTaskThrew
   <-> preflight_ok = true
       /\ 0 < N
       /\ 0 < runs acts
       /\ workspaceFolder_fsPath env (parentUri diagram) = None
       /\ exists folderPath,
            In folderPath (config_includepaths env (parentUri diagram))
            /\ truthy folderPath = true
            /\ path_isAbsolute env folderPath = false)
  /\ (st_outcome (run' acts) = Some CreateTaskThrew ->
      st_trace (run' acts) = [] /\ procs (run' acts) = []).
Proof.
  split; [split |].
  - intro Ho.
    destruct (reachable_cases _ (reachable_run acts))
      as [[Hpre Hwf]|[[Hpre Hs]|(Hpre & Hl & Hab)]].
    + destruct (started_never_throws _ Hpre (reachable_run acts) Ho).
    + rewrite Hs, (createTask_rejected Hpre) in Ho. discriminate Ho.
    + destruct (launch_fails_include Hl) as [HN Hinc].
      apply includePath_none in Hinc.
      rewrite (aborted_run acts Hpre Hl) in Ho.
      destruct (runs acts) as [|n]; [discriminate Ho |].
      repeat split; try assumption; try lia; apply Hinc.
  - intros (Hpre & HN & Hruns & Hinc).
    apply includePath_none in Hinc.
    assert (Hl : launch_ok = false).
    { unfold launch_ok. rewrite Hinc.
      destruct (Nat.eqb_spec (pageCount diagram) 0); [lia | reflexivity]. }
    rewrite (aborted_run acts Hpre Hl).
    destruct (runs acts) as [|n]; [lia | reflexivity].
  - intro Ho.
    destruct (reachable_cases _ (reachable_run acts))
      as [[Hpre Hwf]|[[Hpre Hs]|(Hpre & Hl & Hab)]].
    + destruct (started_never_throws _ Hpre (reachable_run acts) Ho).
    + rewrite Hs, (createTask_rejected Hpre) in Ho. discriminate Ho.
    + destruct (aborted_inert _ Hab) as (Htr0 & Hp0 & _). split; assumption.
Qed.

End Task.

(** ** Engine arguments *)

Lemma append_nil_r (a : string) : a ^^ "" = a.
Proof. induction a as [|x a IH]; simpl; [reflexivity | rewrite IH; reflexivity]. Qed.

Lemma to_uint_nonnil (n : nat) : Nat.to_uint n <> Decimal.Nil.
Proof.
  rewrite <- (DecimalNat.Unsigned.of_to n) at 1.
  rewrite DecimalNat.Unsigned.to_of. apply DecimalFacts.unorm_nonnil.
Qed.

Lemma string_of_nat_inj (n m : nat) : string_of_nat n = string_of_nat m -> n = m.
Proof.
  unfold string_of_nat. intro H. apply DecimalNat.Unsigned.to_uint_inj.
  assert (E : NilZero.uint_of_string (NilZero.string_of_uint (Nat.to_uint n))
              = NilZero.uint_of_string (NilZero.string_of_uint (Nat.to_uint m)))
    by (rewrite H; reflexivity).
  rewrite !NilZero.usu in E by apply to_uint_nonnil. congruence.
Qed.

(** X17. Different pages get different argument vectors: the vectors of
    two engine processes of one task differ (in the value that follows
    -pipeimageindex) whenever their page indices differ. *)
Theorem engine_params_differ_by_page (env : Env) (diagram : Diagram)
  (taskType incl : string) (format : option string) (i j : nat) :
  i <> j ->
  engineParams env diagram taskType incl format i
  <> engineParams env diagram taskType incl format j.
Proof.
  intros Hne Heq. apply Hne. unfold engineParams in Heq.
  apply app_inv_head in Heq. simpl in Heq.
  injection Heq as Heq. apply string_of_nat_inj. exact Heq.
Qed.

(** X18. Every format the renderer advertises reaches the engine as a -t
    flag: the format itself, except that "emf" is asked for as "svg". *)
Theorem advertised_format_reaches_engine (env : Env) (diagram : Diagram)
  (taskType incl f : string) (i : nat) :
  In f formats ->
  In ("-t" ^^ (if String.eqb f "emf" then "svg" else f))
     (engineParams env diagram taskType incl (formatAfter (Some f) (S i)) i).
Proof.
  intro Hin. unfold engineParams.
  do 4 (apply in_or_app; right). apply in_or_app. left.
  simpl in Hin.
  repeat (destruct Hin as [<-|Hin]; [simpl; left; reflexivity |]).
  destruct Hin.
Qed.

(** X20. A task made by [getMapData] is a plain one: the destination is
    never rewritten, the conversion stage never runs, and every engine is
    started with the configured executable and -pipemap as its pipe mode,
    with no -t flag between the pipe mode and the file-name hint. *)
Theorem map_data_task_is_plain (env : Env) (diagram : Diagram) (savePath : string)
  (acts : list Action) :
  st_savePath (getMapData env diagram savePath acts) = savePath
  /\ (forall ev, In ev (st_trace (getMapData env diagram savePath acts)) ->
                 is_converter ev = false)
  /\ (forall i cmd args,
         In (EvSpawn (EngineProc i) cmd args)
            (st_trace (getMapData env diagram savePath acts)) ->
         exists incl,
           includePath env diagram = Some incl
           /\ cmd = config_java env
           /\ args = config_commandArgs env (parentUri diagram)
                     ++ ["-Dplantuml.include.path=" ^^ incl;
                         "-Djava.awt.headless=true"; "-jar";
                         config_jar env (parentUri diagram);
                         "-pipeimageindex"; string_of_nat i; "-charset"; "utf-8";
                         "-pipemap"]
                     ++ (if truthy (path diagram)
                         then ["-filename"; path_basename env (path diagram)]
                         else [])
                     ++ config_jarArgs env (parentUri diagram)).
Proof.
  unfold getMapData.
  destruct (plain_format_untouched env diagram "-pipemap" savePath None
              (run env diagram "-pipemap" savePath None acts) eq_refl
              (reachable_run env diagram "-pipemap" savePath None acts))
    as (_ & Hsp & Hconv).
  split; [exact Hsp | split; [exact Hconv |]].
  intros i cmd args Hin.
  destruct (engine_spawn_shape env diagram "-pipemap" savePath None _ i cmd args
              (reachable_run env diagram "-pipemap" savePath None acts) Hin)
    as (_ & Heq & Hinc).
  unfold spawnOf in Heq. injection Heq as -> ->.
  exists (includeArg env diagram). repeat split. exact Hinc.
Qed.

(** ** Runs of sample tasks *)

(** Two pages on the two-stage path, both processes finishing before the
    chain starts and out of page order: the promise resolves with the pages
    in order. *)
Lemma all_pages_resolve_in_order_sample :
  preflight_ok (sampleEnv "java" true adapterAllOk converterOk) (sampleDiagram 2)
  = true
  /\ launch_ok (sampleEnv "java" true adapterAllOk converterOk) (sampleDiagram 2)
     = true
  /\ execFileSync (sampleEnv "java" true adapterAllOk converterOk) inkscape
       (converterParams (sampleEnv "java" true adapterAllOk converterOk)
          (savePath2At (sampleEnv "java" true adapterAllOk converterOk)
             (sampleDiagram 2) "/out/d.emf" (Some "emf") 0))
     = ExecReturns
  /\ st_killed
       (run (sampleEnv "java" true adapterAllOk converterOk) (sampleDiagram 2)
          "-pipe" "/out/d.emf" (Some "emf")
          [ARun; ARun; ARun; AExit (EngineProc 1); AExit (EngineProc 0)]) = []
  /\ st_outcome
       (exec (sampleEnv "java" true adapterAllOk converterOk) (sampleDiagram 2)
          "-pipe" (repeat ARun 8)
          (run (sampleEnv "java" true adapterAllOk converterOk) (sampleDiagram 2)
             "-pipe" "/out/d.emf" (Some "emf")
             [ARun; ARun; ARun; AExit (EngineProc 1); AExit (EngineProc 0)]))
     = Some (Resolved (Some ["page0"; "page1"])).
Proof.
  split; [reflexivity | split; [reflexivity | split; [reflexivity |]]].
  split; [reflexivity |].
  refine (proj2
            (all_pages_resolve_in_order
               (sampleEnv "java" true adapterAllOk converterOk) (sampleDiagram 2)
               "-pipe" "/out/d.emf" (Some "emf")
               (fun i => "page" ^^ string_of_nat i)
               [ARun; ARun; ARun; AExit (EngineProc 1); AExit (EngineProc 0)]
               eq_refl eq_refl (fun i _ => eq_refl) (fun i _ _ => eq_refl)
               eq_refl) _).
  intros i Hi. simpl in Hi. destruct i as [|[|i]]; simpl; [tauto | tauto | lia].
Defined.

(** With "emf" requested and a converter that cannot be run, a single page
    whose engine and adapter succeed and whose process nobody kills still
    ends in a rejected promise. *)
Lemma converter_failure_breaks_resolution :
  preflight_ok (sampleEnv "java" true adapterAllOk converterFails) (sampleDiagram 1)
  = true
  /\ processWrapper (sampleEnv "java" true adapterAllOk converterFails)
       (EngineProc 0)
       (savePath2At (sampleEnv "java" true adapterAllOk converterFails)
          (sampleDiagram 1) "/out/d.emf" (Some "emf") 0)
     = AdapterOk "page0"
  /\ st_killed
       (run (sampleEnv "java" true adapterAllOk converterFails) (sampleDiagram 1)
          "-pipe" "/out/d.emf" (Some "emf") (sampleSchedule 1 [] [0])) = []
  /\ st_outcome
       (run (sampleEnv "java" true adapterAllOk converterFails) (sampleDiagram 1)
          "-pipe" "/out/d.emf" (Some "emf") (sampleSchedule 1 [] [0]))
     = Some (RejectedWith (RejExecError "spawnSync /usr/bin/inkscape ENOENT")).
Proof. repeat split; vm_compute; reflexivity. Qed.



(** Two pages, drained in order: the input of page 1 is written after the
    output of page 0 was consumed. *)
Lemma next_page_waits_for_previous_sample :
  st_trace
    (run (sampleEnv "java" true adapterAllOk converterOk) (sampleDiagram 2)
       "-pipe" "" (Some "png") (sampleSchedule 2 [] [1; 0]))
  = firstn 6
      (st_trace
         (run (sampleEnv "java" true adapterAllOk converterOk) (sampleDiagram 2)
            "-pipe" "" (Some "png") (sampleSchedule 2 [] [1; 0])))
    ++ EvStdinWrite (EngineProc 1) "@startuml"
       :: [EvStdinEnd (EngineProc 1); EvAdapterCall (EngineProc 1) "";
           EvAdapterSettle (EngineProc 1) (AdapterOk "page1")]
  /\ ((exists b,
          In (EvAdapterSettle (EngineProc 0) (AdapterOk b))
             (firstn 6
                (st_trace
                   (run (sampleEnv "java" true adapterAllOk converterOk)
                      (sampleDiagram 2) "-pipe" "" (Some "png")
                      (sampleSchedule 2 [] [1; 0]))))
          /\ (is_emf (formatAfter (Some "png") 0) = true ->
              exists args,
                In (EvSpawn (ConverterProc 0) inkscape args)
                   (firstn 6
                      (st_trace
                         (run (sampleEnv "java" true adapterAllOk converterOk)
                            (sampleDiagram 2) "-pipe" "" (Some "png")
                            (sampleSchedule 2 [] [1; 0]))))
                /\ In (EvExecFileSync inkscape args ExecReturns)
                      (firstn 6
                         (st_trace
                            (run (sampleEnv "java" true adapterAllOk converterOk)
                               (sampleDiagram 2) "-pipe" "" (Some "png")
                               (sampleSchedule 2 [] [1; 0]))))))
      \/ (In (EngineProc 0)
             (st_killed
                (run (sampleEnv "java" true adapterAllOk converterOk)
                   (sampleDiagram 2) "-pipe" "" (Some "png")
                   (sampleSchedule 2 [] [1; 0])))
          /\ forall sp,
               ~ In (EvAdapterCall (EngineProc 0) sp)
                    (firstn 6
                       (st_trace
                          (run (sampleEnv "java" true adapterAllOk converterOk)
                             (sampleDiagram 2) "-pipe" "" (Some "png")
                             (sampleSchedule 2 [] [1; 0])))))).
Proof.
  split; [vm_compute; reflexivity |].
  apply (next_page_waits_for_previous
           (sampleEnv "java" true adapterAllOk converterOk) (sampleDiagram 2)
           "-pipe" "" (Some "png") (sampleSchedule 2 [] [1; 0]) 0 "@startuml" _
           [EvStdinEnd (EngineProc 1); EvAdapterCall (EngineProc 1) "";
            EvAdapterSettle (EngineProc 1) (AdapterOk "page1")]).
  vm_compute. reflexivity.
Defined.

(** Two pages, the caller kills the process of page 0 only: the chain skips
    page 0 and writes the input of page 1, although the output of page 0 is
    never consumed. *)
Lemma killed_page_lets_next_page_start :
  st_trace
    (run (sampleEnv "java" true adapterAllOk converterOk) (sampleDiagram 2)
       "-pipe" "" (Some "png") (sampleSchedule 2 [0] [1; 0]))
  = [spawnOf (sampleEnv "java" true adapterAllOk converterOk) (sampleDiagram 2)
       "-pipe" (Some "png") 0;
     spawnOf (sampleEnv "java" true adapterAllOk converterOk) (sampleDiagram 2)
       "-pipe" (Some "png") 1;
     EvStdinWrite (EngineProc 1) "@startuml";
     EvStdinEnd (EngineProc 1);
     EvAdapterCall (EngineProc 1) "";
     EvAdapterSettle (EngineProc 1) (AdapterOk "page1")].
Proof. vm_compute. reflexivity. Qed.

(** No engine configured, and engine bundle missing. *)
Lemma preflight_rejects_before_spawn_sample :
  (truthy (config_java (sampleEnv "" true adapterAllOk converterOk)) = false
   /\ st_outcome
        (run (sampleEnv "" true adapterAllOk converterOk) (sampleDiagram 2)
           "-pipe" "" (Some "png") (sampleSchedule 2 [] [0; 1]))
      = Some (RejectedWith (RejMessage "msg5()"))
   /\ st_trace
        (run (sampleEnv "" true adapterAllOk converterOk) (sampleDiagram 2)
           "-pipe" "" (Some "png") (sampleSchedule 2 [] [0; 1])) = [])
  /\ (fs_existsSync (sampleEnv "java" false adapterAllOk converterOk)
        "/ext/plantuml.jar" = false
      /\ st_outcome
           (run (sampleEnv "java" false adapterAllOk converterOk) (sampleDiagram 2)
              "-pipe" "" (Some "png") (sampleSchedule 2 [] [0; 1]))
         = Some (RejectedWith (RejMessage "msg6(/ext)"))
      /\ st_trace
           (run (sampleEnv "java" false adapterAllOk converterOk) (sampleDiagram 2)
              "-pipe" "" (Some "png") (sampleSchedule 2 [] [0; 1])) = []).
Proof.
  split; (split; [reflexivity |]).
  - pose proof (preflight_rejects_before_spawn
                  (sampleEnv "" true adapterAllOk converterOk) (sampleDiagram 2)
                  "-pipe" "" (Some "png") (sampleSchedule 2 [] [0; 1])
                  (or_introl eq_refl)) as H.
    split; [exact (proj1 H) | exact (proj1 (proj2 H))].
  - pose proof (preflight_rejects_before_spawn
                  (sampleEnv "java" false adapterAllOk converterOk) (sampleDiagram 2)
                  "-pipe" "" (Some "png") (sampleSchedule 2 [] [0; 1])
                  (or_intror eq_refl)) as H.
    split; [exact (proj1 H) | exact (proj1 (proj2 H))].
Defined.

(** Three pages, the adapter fails on page 1: the promise is rejected with
    the wrapped error and page 2 gets no input. *)
Lemma adapter_failure_rejects_task_sample :
  In (EvAdapterSettle (EngineProc 1) (AdapterErr "syntax error" "partial"))
     (st_trace
        (run (sampleEnv "java" true (adapterFailsAt 1) converterOk) (sampleDiagram 3)
           "-pipe" "" (Some "png")
           [ARun; ARun; ARun; ARun; AExit (EngineProc 2); AExit (EngineProc 1);
            AExit (EngineProc 0); ARun; ARun; ARun; ARun]))
  /\ st_outcome
       (exec (sampleEnv "java" true (adapterFailsAt 1) converterOk) (sampleDiagram 3)
          "-pipe" [ARun; ARun; ARun]
          (run (sampleEnv "java" true (adapterFailsAt 1) converterOk)
             (sampleDiagram 3) "-pipe" "" (Some "png")
             [ARun; ARun; ARun; ARun; AExit (EngineProc 2); AExit (EngineProc 1);
              AExit (EngineProc 0); ARun; ARun; ARun; ARun]))
     = Some (RejectedWith (RejRenderError "msg10(a,syntax error)" "partial"))
  /\ ~ In (EvStdinWrite (EngineProc 2) "@startuml")
          (st_trace
             (exec (sampleEnv "java" true (adapterFailsAt 1) converterOk)
                (sampleDiagram 3) "-pipe" [ARun; ARun; ARun]
                (run (sampleEnv "java" true (adapterFailsAt 1) converterOk)
                   (sampleDiagram 3) "-pipe" "" (Some "png")
                   [ARun; ARun; ARun; ARun; AExit (EngineProc 2);
                    AExit (EngineProc 1); AExit (EngineProc 0);
                    ARun; ARun; ARun; ARun]))).
Proof.
  assert (Hin : In (EvAdapterSettle (EngineProc 1) (AdapterErr "syntax error" "partial"))
                   (st_trace
                      (run (sampleEnv "java" true (adapterFailsAt 1) converterOk)
                         (sampleDiagram 3) "-pipe" "" (Some "png")
                         [ARun; ARun; ARun; ARun; AExit (EngineProc 2);
                          AExit (EngineProc 1); AExit (EngineProc 0);
                          ARun; ARun; ARun; ARun]))).
  { vm_compute. do 10 right. left. reflexivity. }
  pose proof (adapter_failure_rejects_task
                (sampleEnv "java" true (adapterFailsAt 1) converterOk)
                (sampleDiagram 3) "-pipe" "" (Some "png") _ 1 _ _ Hin)
    as (_ & Hrej & Hno).
  split; [exact Hin | split].
  - apply (Hrej [ARun; ARun; ARun]). simpl. lia.
  - apply (Hno [ARun; ARun; ARun] 2 "@startuml"). lia.
Defined.

(** Two pages, both killed before the chain starts: the chain runs through
    without effect and the promise resolves with [null]. *)
Lemma killed_page_is_skipped_sample :
  st_phase
    (run (sampleEnv "java" true adapterAllOk converterOk) (sampleDiagram 2)
       "-pipe" "" (Some "png")
       [ARun; ARun; ARun; AKill (EngineProc 0); AKill (EngineProc 1)])
  = LinkPending 0 Fulfilled
  /\ In (EngineProc 0)
        (st_killed
           (run (sampleEnv "java" true adapterAllOk converterOk) (sampleDiagram 2)
              "-pipe" "" (Some "png")
              [ARun; ARun; ARun; AKill (EngineProc 0); AKill (EngineProc 1)]))
  /\ st_outcome
       (exec (sampleEnv "java" true adapterAllOk converterOk) (sampleDiagram 2)
          "-pipe" (repeat ARun 3)
          (run (sampleEnv "java" true adapterAllOk converterOk) (sampleDiagram 2)
             "-pipe" "" (Some "png")
             [ARun; ARun; ARun; AKill (EngineProc 0); AKill (EngineProc 1)]))
     = Some (Resolved None)
  /\ st_trace
       (exec (sampleEnv "java" true adapterAllOk converterOk) (sampleDiagram 2)
          "-pipe" (repeat ARun 3)
          (run (sampleEnv "java" true adapterAllOk converterOk) (sampleDiagram 2)
             "-pipe" "" (Some "png")
             [ARun; ARun; ARun; AKill (EngineProc 0); AKill (EngineProc 1)]))
     = st_trace
         (run (sampleEnv "java" true adapterAllOk converterOk) (sampleDiagram 2)
            "-pipe" "" (Some "png")
            [ARun; ARun; ARun; AKill (EngineProc 0); AKill (EngineProc 1)]).
Proof.
  assert (Hk : In (EngineProc 0)
                  (st_killed
                     (run (sampleEnv "java" true adapterAllOk converterOk)
                        (sampleDiagram 2) "-pipe" "" (Some "png")
                        [ARun; ARun; ARun; AKill (EngineProc 0);
                         AKill (EngineProc 1)])))
    by (simpl; tauto).
  split; [reflexivity | split; [exact Hk |]].
  refine (proj2 (proj2 (proj2 (proj2
            (killed_page_is_skipped
               (sampleEnv "java" true adapterAllOk converterOk) (sampleDiagram 2)
               "-pipe" "" (Some "png")
               [ARun; ARun; ARun; AKill (EngineProc 0); AKill (EngineProc 1)]
               0 eq_refl Hk)))) _).
  intros j _ Hj. simpl in Hj. destruct j as [|[|j]]; simpl; [tauto | tauto | lia].
Defined.

(** Two pages, the caller kills the process of page 0 only: the chain goes
    on to page 1, writes its input, and the push of its output on the
    discarded list rejects the promise. *)
Lemma chain_goes_on_after_killed_page :
  st_phase
    (run (sampleEnv "java" true adapterAllOk converterOk) (sampleDiagram 2)
       "-pipe" "" (Some "png") [ARun; ARun; ARun; AKill (EngineProc 0)])
  = LinkPending 0 Fulfilled
  /\ st_killed
       (run (sampleEnv "java" true adapterAllOk converterOk) (sampleDiagram 2)
          "-pipe" "" (Some "png") [ARun; ARun; ARun; AKill (EngineProc 0)])
     = [EngineProc 0]
  /\ nth_error
       (st_trace
          (run (sampleEnv "java" true adapterAllOk converterOk) (sampleDiagram 2)
             "-pipe" "" (Some "png")
             [ARun; ARun; ARun; AKill (EngineProc 0); AExit (EngineProc 0);
              AExit (EngineProc 1); ARun; ARun; ARun; ARun])) 2
     = Some (EvStdinWrite (EngineProc 1) "@startuml")
  /\ st_outcome
       (run (sampleEnv "java" true adapterAllOk converterOk) (sampleDiagram 2)
          "-pipe" "" (Some "png")
          [ARun; ARun; ARun; AKill (EngineProc 0); AExit (EngineProc 0);
           AExit (EngineProc 1); ARun; ARun; ARun; ARun])
     = Some (RejectedWith RejTypeError).
Proof. repeat split; vm_compute; reflexivity. Qed.

(** C6 (what the code does). Two pages with "emf" requested and a
    destination of /out/d.emf, every engine and the converter succeeding:
    both engines are asked for "svg" and write to the .svg destinations, the
    converter is run after page 0 with the .emf output path, and after the
    output of page 1 is consumed no converter is run for it, because the
    link of page 1 captured [origFormat] after [format] was reassigned. *)
Theorem emf_converts_first_page_only :
  map lk_origFormat
    (st_links
       (run (sampleEnv "java" true adapterAllOk converterOk) (sampleDiagram 2)
          "-pipe" "/out/d.emf" (Some "emf") (sampleSchedule 2 [] [0; 1])))
  = [Some "emf"; Some "svg"]
  /\ st_trace
       (run (sampleEnv "java" true adapterAllOk converterOk) (sampleDiagram 2)
          "-pipe" "/out/d.emf" (Some "emf") (sampleSchedule 2 [] [0; 1]))
     = [spawnOf (sampleEnv "java" true adapterAllOk converterOk) (sampleDiagram 2)
          "-pipe" (Some "emf") 0;
        spawnOf (sampleEnv "java" true adapterAllOk converterOk) (sampleDiagram 2)
          "-pipe" (Some "emf") 1;
        EvStdinWrite (EngineProc 0) "@startuml";
        EvStdinEnd (EngineProc 0);
        EvAdapterCall (EngineProc 0) "/out/d-page1.svg";
        EvAdapterSettle (EngineProc 0) (AdapterOk "page0");
        EvSpawn (ConverterProc 0) "/usr/bin/inkscape"
          ["--without-gui"; "--export-emf=/out/d-page1.emf"; "/out/d-page1.svg"];
        EvExecFileSync "/usr/bin/inkscape"
          ["--without-gui"; "--export-emf=/out/d-page1.emf"; "/out/d-page1.svg"]
          ExecReturns;
        EvStdinWrite (EngineProc 1) "@startuml";
        EvStdinEnd (EngineProc 1);
        EvAdapterCall (EngineProc 1) "/out/d-page2.svg";
        EvAdapterSettle (EngineProc 1) (AdapterOk "page1")]
  /\ st_outcome
       (run (sampleEnv "java" true adapterAllOk converterOk) (sampleDiagram 2)
          "-pipe" "/out/d.emf" (Some "emf") (sampleSchedule 2 [] [0; 1]))
     = Some (Resolved (Some ["page0"; "page1"])).
Proof. repeat split; vm_compute; reflexivity. Qed.

(** One page with "emf" requested and a converter that cannot be run: the
    promise is rejected with the error thrown by the blocking call. *)
Lemma converter_failure_rejects_task_sample :
  In (EvExecFileSync "/usr/bin/inkscape"
        ["--without-gui"; "--export-emf=/out/d.emf"; "/out/d.svg"]
        (ExecThrows "spawnSync /usr/bin/inkscape ENOENT"))
     (st_trace
        (run (sampleEnv "java" true adapterAllOk converterFails) (sampleDiagram 1)
           "-pipe" "/out/d.emf" (Some "emf")
           [ARun; ARun; AExit (EngineProc 0); ARun; ARun]))
  /\ st_outcome
       (exec (sampleEnv "java" true adapterAllOk converterFails) (sampleDiagram 1)
          "-pipe" [ARun; ARun]
          (run (sampleEnv "java" true adapterAllOk converterFails) (sampleDiagram 1)
             "-pipe" "/out/d.emf" (Some "emf")
             [ARun; ARun; AExit (EngineProc 0); ARun; ARun]))
     = Some (RejectedWith (RejExecError "spawnSync /usr/bin/inkscape ENOENT")).
Proof.
  assert (Hin : In (EvExecFileSync "/usr/bin/inkscape"
                      ["--without-gui"; "--export-emf=/out/d.emf"; "/out/d.svg"]
                      (ExecThrows "spawnSync /usr/bin/inkscape ENOENT"))
                   (st_trace
                      (run (sampleEnv "java" true adapterAllOk converterFails)
                         (sampleDiagram 1) "-pipe" "/out/d.emf" (Some "emf")
                         [ARun; ARun; AExit (EngineProc 0); ARun; ARun]))).
  { vm_compute. do 6 right. left. reflexivity. }
  split; [exact Hin |].
  apply (proj2
           (proj2
              (converter_failure_rejects_task
                 (sampleEnv "java" true adapterAllOk converterFails)
                 (sampleDiagram 1) "-pipe" "/out/d.emf" (Some "emf") _)
              _ _ _ Hin) [ARun; ARun]).
  simpl. lia.
Defined.

(** The same request settles differently with a converter that works and
    with one that cannot be run. *)
Lemma converter_result_changes_outcome :
  st_outcome
    (run (sampleEnv "java" true adapterAllOk converterOk) (sampleDiagram 1)
       "-pipe" "/out/d.emf" (Some "emf") (sampleSchedule 1 [] [0]))
  = Some (Resolved (Some ["page0"]))
  /\ st_outcome
       (run (sampleEnv "java" true adapterAllOk converterFails) (sampleDiagram 1)
          "-pipe" "/out/d.emf" (Some "emf") (sampleSchedule 1 [] [0]))
     = Some (RejectedWith (RejExecError "spawnSync /usr/bin/inkscape ENOENT")).
Proof. split; vm_compute; reflexivity. Qed.

(** One converted page: the spawn of the converter is followed at once by
    the blocking call with the same arguments. *)
Lemma converter_runs_twice_sample :
  st_trace
    (run (sampleEnv "java" true adapterAllOk converterOk) (sampleDiagram 1)
       "-pipe" "/out/d.emf" (Some "emf") (sampleSchedule 1 [] [0]))
  = firstn 5
      (st_trace
         (run (sampleEnv "java" true adapterAllOk converterOk) (sampleDiagram 1)
            "-pipe" "/out/d.emf" (Some "emf") (sampleSchedule 1 [] [0])))
    ++ EvSpawn (ConverterProc 0) "/usr/bin/inkscape"
         ["--without-gui"; "--export-emf=/out/d.emf"; "/out/d.svg"]
       :: [EvExecFileSync "/usr/bin/inkscape"
             ["--without-gui"; "--export-emf=/out/d.emf"; "/out/d.svg"]
             ExecReturns]
  /\ exists r post',
       [EvExecFileSync "/usr/bin/inkscape"
          ["--without-gui"; "--export-emf=/out/d.emf"; "/out/d.svg"] ExecReturns]
       = EvExecFileSync inkscape
           ["--without-gui"; "--export-emf=/out/d.emf"; "/out/d.svg"] r :: post'.
Proof.
  assert (Heq :
    st_trace
      (run (sampleEnv "java" true adapterAllOk converterOk) (sampleDiagram 1)
         "-pipe" "/out/d.emf" (Some "emf") (sampleSchedule 1 [] [0]))
    = firstn 5
        (st_trace
           (run (sampleEnv "java" true adapterAllOk converterOk) (sampleDiagram 1)
              "-pipe" "/out/d.emf" (Some "emf") (sampleSchedule 1 [] [0])))
      ++ EvSpawn (ConverterProc 0) "/usr/bin/inkscape"
           ["--without-gui"; "--export-emf=/out/d.emf"; "/out/d.svg"]
         :: [EvExecFileSync "/usr/bin/inkscape"
               ["--without-gui"; "--export-emf=/out/d.emf"; "/out/d.svg"]
               ExecReturns])
    by (vm_compute; reflexivity).
  split; [exact Heq |].
  exact (proj2
           (proj1
              (converter_runs_twice_unreachable
                 (sampleEnv "java" true adapterAllOk converterOk) (sampleDiagram 1)
                 "-pipe" "/out/d.emf" (Some "emf") (sampleSchedule 1 [] [0]))
              _ _ _ _ _ Heq)).
Defined.

(** ** More sample runs *)

(** The engine of page 1 on the two-stage path is asked for "svg". *)
Lemma engine_started_for_its_page_sample :
  In (EvSpawn (EngineProc 1) "java"
        (engineParams plainEnv (sampleDiagram 2) "-pipe"
           "/ws:/ws/inc:/abs:/ws/diagrams" (Some "svg") 1))
     (st_trace twoPagesEmf)
  /\ includePath plainEnv (sampleDiagram 2) = Some "/ws:/ws/inc:/abs:/ws/diagrams"
  /\ In "-tsvg"
        (engineParams plainEnv (sampleDiagram 2) "-pipe"
           "/ws:/ws/inc:/abs:/ws/diagrams" (Some "svg") 1).
Proof.
  assert (Hin : In (EvSpawn (EngineProc 1) "java"
                      (engineParams plainEnv (sampleDiagram 2) "-pipe"
                         "/ws:/ws/inc:/abs:/ws/diagrams" (Some "svg") 1))
                   (st_trace twoPagesEmf))
    by (vm_compute; right; left; reflexivity).
  split; [exact Hin | split; [reflexivity |]].
  destruct (engine_started_for_its_page plainEnv (sampleDiagram 2) "-pipe"
              "/out/d.emf" (Some "emf") (sampleSchedule 2 [] [0; 1]) 1 _ _ Hin)
    as (incl & _ & _ & _ & _ & Hsvg).
  exact (Hsvg eq_refl).
Defined.

(** The adapter of page 1 on the two-stage path gets the page-indexed .svg
    destination. *)
Lemma adapter_gets_page_destination_sample :
  In (EvAdapterCall (EngineProc 1) "/out/d-page2.svg") (st_trace twoPagesEmf)
  /\ exists i,
       i < 2 /\ EngineProc 1 = EngineProc i
       /\ "/out/d-page2.svg" = sample_addFileIndex "/out/d.svg" i 2.
Proof.
  assert (Hin : In (EvAdapterCall (EngineProc 1) "/out/d-page2.svg")
                   (st_trace twoPagesEmf))
    by (vm_compute; do 10 right; left; reflexivity).
  split; [exact Hin |].
  exact (adapter_gets_page_destination plainEnv (sampleDiagram 2) "-pipe"
           "/out/d.emf" (Some "emf") (sampleSchedule 2 [] [0; 1]) _ _ Hin).
Defined.

(** The adapter call of page 0 comes before the input of page 1. *)
Lemma pages_fed_in_page_order_sample :
  st_trace twoPagesDrained
  = firstn 6 (st_trace twoPagesDrained)
    ++ EvStdinWrite (EngineProc 1) "@startuml" :: skipn 7 (st_trace twoPagesDrained)
  /\ In (EvAdapterCall (EngineProc 0) "") (firstn 6 (st_trace twoPagesDrained))
  /\ 0 <= 1.
Proof.
  assert (Heq : st_trace twoPagesDrained
                = firstn 6 (st_trace twoPagesDrained)
                  ++ EvStdinWrite (EngineProc 1) "@startuml"
                     :: skipn 7 (st_trace twoPagesDrained))
    by (vm_compute; reflexivity).
  assert (Hin : In (EvAdapterCall (EngineProc 0) "")
                   (firstn 6 (st_trace twoPagesDrained)))
    by (vm_compute; do 4 right; left; reflexivity).
  split; [exact Heq | split; [exact Hin |]].
  exact (pages_fed_in_page_order plainEnv (sampleDiagram 2) "-pipe" "" (Some "png")
           (sampleSchedule 2 [] [1; 0]) _ _ _ _ 0 1 Heq Hin eq_refl eq_refl).
Defined.

(** The adapter is called once on page 0. *)
Lemma adapter_called_once_per_page_sample :
  st_trace twoPagesDrained
  = firstn 4 (st_trace twoPagesDrained)
    ++ EvAdapterCall (EngineProc 0) "" :: skipn 5 (st_trace twoPagesDrained)
  /\ ~ In (EvAdapterCall (EngineProc 0) "") (firstn 4 (st_trace twoPagesDrained))
  /\ ~ In (EvAdapterCall (EngineProc 0) "") (skipn 5 (st_trace twoPagesDrained)).
Proof.
  assert (Heq : st_trace twoPagesDrained
                = firstn 4 (st_trace twoPagesDrained)
                  ++ EvAdapterCall (EngineProc 0) ""
                     :: skipn 5 (st_trace twoPagesDrained))
    by (vm_compute; reflexivity).
  split; [exact Heq |].
  exact (adapter_called_once_per_page plainEnv (sampleDiagram 2) "-pipe" ""
           (Some "png") (sampleSchedule 2 [] [1; 0]) _ _ 0 "" Heq "").
Defined.

(** A diagram without content: nothing is written, and the turn of the
    link of page 0 adds the call of the adapter and nothing else. *)
Lemma empty_content_leaves_stdin_alone_sample :
  truthy (content silentDiagram) = false
  /\ (forall ev,
        In ev (st_trace (run plainEnv silentDiagram "-pipe" "" (Some "png")
                           (sampleSchedule 1 [] [0]))) ->
        is_stdin ev = false)
  /\ st_phase (run plainEnv silentDiagram "-pipe" "" (Some "png") [ARun; ARun])
     = LinkPending 0 Fulfilled
  /\ st_trace
       (step plainEnv silentDiagram "-pipe" ARun
          (run plainEnv silentDiagram "-pipe" "" (Some "png") [ARun; ARun]))
     = st_trace (run plainEnv silentDiagram "-pipe" "" (Some "png") [ARun; ARun])
       ++ [EvAdapterCall (EngineProc 0) ""].
Proof.
  split; [reflexivity | split].
  - exact (proj1
             (empty_content_leaves_stdin_alone plainEnv silentDiagram "-pipe" ""
                (Some "png") (sampleSchedule 1 [] [0]) eq_refl)).
  - split; [reflexivity |].
    refine (proj1
              (proj2
                 (empty_content_leaves_stdin_alone plainEnv silentDiagram "-pipe" ""
                    (Some "png") [ARun; ARun] eq_refl) 0 eq_refl _ _)).
    + simpl. lia.
    + simpl. tauto.
Defined.

(** The content is written and the input closed right before the adapter
    is called on page 0. *)
Lemma content_written_before_adapter_sample :
  truthy (content (sampleDiagram 2)) = true
  /\ st_trace twoPagesDrained
     = firstn 4 (st_trace twoPagesDrained)
       ++ EvAdapterCall (EngineProc 0) "" :: skipn 5 (st_trace twoPagesDrained)
  /\ exists pre',
       firstn 4 (st_trace twoPagesDrained)
       = pre' ++ [EvStdinWrite (EngineProc 0) "@startuml"; EvStdinEnd (EngineProc 0)].
Proof.
  assert (Heq : st_trace twoPagesDrained
                = firstn 4 (st_trace twoPagesDrained)
                  ++ EvAdapterCall (EngineProc 0) ""
                     :: skipn 5 (st_trace twoPagesDrained))
    by (vm_compute; reflexivity).
  split; [reflexivity | split; [exact Heq |]].
  exact (content_written_before_adapter plainEnv (sampleDiagram 2) "-pipe" ""
           (Some "png") (sampleSchedule 2 [] [1; 0]) _ _ _ _ eq_refl Heq).
Defined.

(** A resolved task stays resolved when the caller kills a process and the
    event loop goes on. *)
Lemma settled_task_is_quiescent_sample :
  st_outcome twoPagesDrained = Some (Resolved (Some ["page0"; "page1"]))
  /\ st_outcome
       (exec plainEnv (sampleDiagram 2) "-pipe" [AKill (EngineProc 0); ARun]
          twoPagesDrained)
     = Some (Resolved (Some ["page0"; "page1"]))
  /\ st_trace
       (exec plainEnv (sampleDiagram 2) "-pipe" [AKill (EngineProc 0); ARun]
          twoPagesDrained)
     = st_trace twoPagesDrained.
Proof.
  assert (Ho : st_outcome twoPagesDrained = Some (Resolved (Some ["page0"; "page1"])))
    by (vm_compute; reflexivity).
  pose proof (settled_task_is_quiescent plainEnv (sampleDiagram 2) "-pipe" ""
                (Some "png") (sampleSchedule 2 [] [1; 0])
                [AKill (EngineProc 0); ARun] _ Ho) as (H1 & H2 & _).
  split; [exact Ho | split; [exact H1 | exact H2]].
Defined.

(** Both processes have finished: eight turns settle the task. *)
Lemma task_settles_once_processes_finish_sample :
  (forall i, i < 2 ->
     In (EngineProc i)
        (st_exited
           (run plainEnv (sampleDiagram 2) "-pipe" "" (Some "png")
              [ARun; ARun; ARun; AExit (EngineProc 1); AExit (EngineProc 0)])))
  /\ exists o,
       st_outcome
         (exec plainEnv (sampleDiagram 2) "-pipe" (repeat ARun 8)
            (run plainEnv (sampleDiagram 2) "-pipe" "" (Some "png")
               [ARun; ARun; ARun; AExit (EngineProc 1); AExit (EngineProc 0)]))
       = Some o.
Proof.
  assert (Hex : forall i, i < 2 ->
            In (EngineProc i)
               (st_exited
                  (run plainEnv (sampleDiagram 2) "-pipe" "" (Some "png")
                     [ARun; ARun; ARun; AExit (EngineProc 1); AExit (EngineProc 0)]))).
  { intros i Hi. destruct i as [|[|i]]; simpl; [tauto | tauto | lia]. }
  split; [exact Hex |].
  apply (task_settles_once_processes_finish plainEnv (sampleDiagram 2) "-pipe" ""
           (Some "png")
           [ARun; ARun; ARun; AExit (EngineProc 1); AExit (EngineProc 0)]
           (repeat ARun 8) Hex).
  simpl. lia.
Defined.

(** The chain waits for page 0 while its process runs. *)
Lemma chain_waits_for_running_process_sample :
  st_phase
    (run plainEnv (sampleDiagram 2) "-pipe" "" (Some "png") [ARun; ARun; ARun; ARun])
  = LinkAwaiting 0 ""
  /\ st_phase
       (exec plainEnv (sampleDiagram 2) "-pipe"
          [ARun; AKill (EngineProc 0); AExit (EngineProc 1); ARun]
          (run plainEnv (sampleDiagram 2) "-pipe" "" (Some "png")
             [ARun; ARun; ARun; ARun]))
     = LinkAwaiting 0 ""
  /\ st_outcome
       (exec plainEnv (sampleDiagram 2) "-pipe"
          [ARun; AKill (EngineProc 0); AExit (EngineProc 1); ARun]
          (run plainEnv (sampleDiagram 2) "-pipe" "" (Some "png")
             [ARun; ARun; ARun; ARun]))
     = None.
Proof.
  assert (Hne : ~ In (EngineProc 0)
                    (st_exited
                       (run plainEnv (sampleDiagram 2) "-pipe" "" (Some "png")
                          [ARun; ARun; ARun; ARun])))
    by (simpl; tauto).
  assert (Hmore : ~ In (AExit (EngineProc 0))
                      [ARun; AKill (EngineProc 0); AExit (EngineProc 1); ARun]).
  { simpl. intros [H|[H|[H|[H|[]]]]]; discriminate H. }
  pose proof (chain_waits_for_running_process plainEnv (sampleDiagram 2) "-pipe" ""
                (Some "png") [ARun; ARun; ARun; ARun]
                [ARun; AKill (EngineProc 0); AExit (EngineProc 1); ARun]
                0 "" eq_refl Hne Hmore) as (H1 & _ & H3).
  split; [reflexivity | split; [exact H1 | exact H3]].
Defined.

(** A task rejected with a [RenderError] has the adapter failure in its
    trace. *)
Lemma rejection_has_a_cause_sample :
  st_outcome
    (run (sampleEnv "java" true (adapterFailsAt 1) converterOk) (sampleDiagram 3)
       "-pipe" "" (Some "png") (sampleSchedule 3 [] [2; 1; 0]))
  = Some (RejectedWith (RejRenderError "msg10(a,syntax error)" "partial"))
  /\ exists k e,
       In (EvAdapterSettle (EngineProc k) (AdapterErr e "partial"))
          (st_trace
             (run (sampleEnv "java" true (adapterFailsAt 1) converterOk)
                (sampleDiagram 3) "-pipe" "" (Some "png")
                (sampleSchedule 3 [] [2; 1; 0])))
       /\ "msg10(a,syntax error)" = sample_localize 10 None ["a"; e].
Proof.
  assert (Ho : st_outcome
                 (run (sampleEnv "java" true (adapterFailsAt 1) converterOk)
                    (sampleDiagram 3) "-pipe" "" (Some "png")
                    (sampleSchedule 3 [] [2; 1; 0]))
               = Some (RejectedWith
                         (RejRenderError "msg10(a,syntax error)" "partial")))
    by (vm_compute; reflexivity).
  split; [exact Ho |].
  exact (rejection_has_a_cause (sampleEnv "java" true (adapterFailsAt 1) converterOk)
           (sampleDiagram 3) "-pipe" "" (Some "png")
           (sampleSchedule 3 [] [2; 1; 0]) _ Ho).
Defined.

(** Page 0 killed: the list is discarded and stays so while page 1 is
    rendered. *)
Lemma discarded_list_stays_discarded_sample :
  st_buffers
    (run plainEnv (sampleDiagram 2) "-pipe" "" (Some "png")
       [ARun; ARun; ARun; AKill (EngineProc 0); ARun])
  = None
  /\ st_buffers
       (exec plainEnv (sampleDiagram 2) "-pipe"
          [AExit (EngineProc 1); ARun; ARun; ARun]
          (run plainEnv (sampleDiagram 2) "-pipe" "" (Some "png")
             [ARun; ARun; ARun; AKill (EngineProc 0); ARun]))
     = None.
Proof.
  split; [reflexivity |].
  exact (proj1
           (discarded_list_stays_discarded plainEnv (sampleDiagram 2) "-pipe" ""
              (Some "png") [ARun; ARun; ARun; AKill (EngineProc 0); ARun]
              [AExit (EngineProc 1); ARun; ARun; ARun] eq_refl)).
Defined.

(** Page 0 killed, page 1 rendered: the push of its output rejects the
    task. *)
Lemma push_on_discarded_list_rejects_sample :
  st_phase
    (run plainEnv (sampleDiagram 2) "-pipe" "" (Some "png")
       [ARun; ARun; ARun; AKill (EngineProc 0); AExit (EngineProc 1); ARun; ARun])
  = LinkAwaiting 1 ""
  /\ st_buffers
       (run plainEnv (sampleDiagram 2) "-pipe" "" (Some "png")
          [ARun; ARun; ARun; AKill (EngineProc 0); AExit (EngineProc 1); ARun; ARun])
     = None
  /\ st_outcome
       (exec plainEnv (sampleDiagram 2) "-pipe" [ARun; ARun; ARun]
          (run plainEnv (sampleDiagram 2) "-pipe" "" (Some "png")
             [ARun; ARun; ARun; AKill (EngineProc 0); AExit (EngineProc 1);
              ARun; ARun]))
     = Some (RejectedWith RejTypeError).
Proof.
  split; [reflexivity | split; [reflexivity |]].
  apply (push_on_discarded_list_rejects plainEnv (sampleDiagram 2) "-pipe" ""
           (Some "png")
           [ARun; ARun; ARun; AKill (EngineProc 0); AExit (EngineProc 1); ARun; ARun]
           [ARun; ARun; ARun] 1 "" "page1" eq_refl eq_refl).
  - simpl. tauto.
  - reflexivity.
  - simpl. lia.
Defined.

(** A diagram without pages resolves with the empty list. *)
Lemma no_pages_resolve_with_empty_list_sample :
  preflight_ok plainEnv (sampleDiagram 0) = true
  /\ st_trace
       (run plainEnv (sampleDiagram 0) "-pipe" "" (Some "png")
          [ARun; AKill (EngineProc 0); ARun]) = []
  /\ st_outcome
       (run plainEnv (sampleDiagram 0) "-pipe" "" (Some "png")
          [ARun; AKill (EngineProc 0); ARun])
     = Some (Resolved (Some [])).
Proof.
  pose proof (no_pages_resolve_with_empty_list plainEnv (sampleDiagram 0) "-pipe" ""
                (Some "png") [ARun; AKill (EngineProc 0); ARun] eq_refl eq_refl)
    as (H1 & _ & H3).
  split; [reflexivity | split; [exact H1 | exact H3]].
Defined.

(** While the chain waits for page 0, killing page 1 before or after the
    next turn makes no difference. *)
Lemma kill_only_seen_at_link_start_sample :
  In (EngineProc 1)
     (procs (run plainEnv (sampleDiagram 2) "-pipe" "" (Some "png")
               [ARun; ARun; ARun; ARun; AExit (EngineProc 0)]))
  /\ step plainEnv (sampleDiagram 2) "-pipe" ARun
       (step plainEnv (sampleDiagram 2) "-pipe" (AKill (EngineProc 1))
          (run plainEnv (sampleDiagram 2) "-pipe" "" (Some "png")
             [ARun; ARun; ARun; ARun; AExit (EngineProc 0)]))
     = step plainEnv (sampleDiagram 2) "-pipe" (AKill (EngineProc 1))
         (step plainEnv (sampleDiagram 2) "-pipe" ARun
            (run plainEnv (sampleDiagram 2) "-pipe" "" (Some "png")
               [ARun; ARun; ARun; ARun; AExit (EngineProc 0)])).
Proof.
  assert (Hin : In (EngineProc 1)
                   (procs (run plainEnv (sampleDiagram 2) "-pipe" "" (Some "png")
                             [ARun; ARun; ARun; ARun; AExit (EngineProc 0)])))
    by (simpl; tauto).
  split; [exact Hin |].
  apply (kill_only_seen_at_link_start plainEnv (sampleDiagram 2) "-pipe" ""
           (Some "png") [ARun; ARun; ARun; ARun; AExit (EngineProc 0)]
           (EngineProc 1) Hin).
  intros i Hp. discriminate Hp.
Defined.

(** The converter spawned on the two-stage path is the one of page 0. *)
Lemma converter_runs_for_first_page_only_sample :
  In (EvSpawn (ConverterProc 0) "/usr/bin/inkscape"
        ["--without-gui"; "--export-emf=/out/d-page1.emf"; "/out/d-page1.svg"])
     (st_trace twoPagesEmf)
  /\ 0 = 0 /\ is_emf (Some "emf") = true.
Proof.
  assert (Hin : In (EvSpawn (ConverterProc 0) "/usr/bin/inkscape"
                      ["--without-gui"; "--export-emf=/out/d-page1.emf";
                       "/out/d-page1.svg"])
                   (st_trace twoPagesEmf))
    by (vm_compute; do 6 right; left; reflexivity).
  pose proof (converter_runs_for_first_page_only plainEnv (sampleDiagram 2) "-pipe"
                "/out/d.emf" (Some "emf") (sampleSchedule 2 [] [0; 1]) _ _ _ Hin)
    as (H1 & H2 & _).
  split; [exact Hin | split; [exact H1 | exact H2]].
Defined.

(** A "png" task keeps its format and destination and never converts. *)
Lemma plain_render_never_converts_sample :
  is_emf (Some "png") = false
  /\ st_format twoPagesDrained = Some "png"
  /\ st_savePath twoPagesDrained = ""
  /\ forall ev, In ev (st_trace twoPagesDrained) -> is_converter ev = false.
Proof.
  split; [reflexivity |].
  exact (plain_render_never_converts plainEnv (sampleDiagram 2) "-pipe" ""
           (Some "png") (sampleSchedule 2 [] [1; 0]) eq_refl).
Defined.

(** Pages 0 and 1 get different argument vectors. *)
Lemma engine_params_differ_by_page_sample :
  0 <> 1
  /\ engineParams plainEnv (sampleDiagram 2) "-pipe" "/ws" (Some "png") 0
     <> engineParams plainEnv (sampleDiagram 2) "-pipe" "/ws" (Some "png") 1.
Proof.
  assert (Hne : 0 <> 1) by discriminate.
  split; [exact Hne |].
  exact (engine_params_differ_by_page plainEnv (sampleDiagram 2) "-pipe" "/ws"
           (Some "png") 0 1 Hne).
Defined.

(** "emf" is advertised and reaches the engine as -tsvg. *)
Lemma advertised_format_reaches_engine_sample :
  In "emf" formats
  /\ In "-tsvg"
        (engineParams plainEnv (sampleDiagram 2) "-pipe" "/ws"
           (formatAfter (Some "emf") 1) 0).
Proof.
  assert (Hin : In "emf" formats) by (simpl; tauto).
  split; [exact Hin |].
  exact (advertised_format_reaches_engine plainEnv (sampleDiagram 2) "-pipe"
           "/ws" "emf" 0 Hin).
Defined.

(** No workspace folder for the diagram and the relative include folder
    "inc": the call throws at its first turn, with nothing spawned. *)
Lemma createTask_throws_without_workspace_sample :
  st_outcome
    (run noWorkspaceEnv (sampleDiagram 2) "-pipe" "" (Some "png")
       [ARun; AKill (EngineProc 0); ARun])
  = Some CreateTaskThrew
  /\ st_trace
       (run noWorkspaceEnv (sampleDiagram 2) "-pipe" "" (Some "png")
          [ARun; AKill (EngineProc 0); ARun]) = [].
Proof.
  assert (Ho : st_outcome
                 (run noWorkspaceEnv (sampleDiagram 2) "-pipe" "" (Some "png")
                    [ARun; AKill (EngineProc 0); ARun])
               = Some CreateTaskThrew).
  { apply (proj1 (createTask_throws_without_workspace noWorkspaceEnv
                    (sampleDiagram 2) "-pipe" "" (Some "png")
                    [ARun; AKill (EngineProc 0); ARun])).
    split; [reflexivity |]. split; [simpl; lia |]. split; [simpl; lia |].
    split; [reflexivity |].
    exists "inc". split; [simpl; tauto | split; reflexivity]. }
  split; [exact Ho |].
  exact (proj1
           (proj2 (createTask_throws_without_workspace noWorkspaceEnv
                     (sampleDiagram 2) "-pipe" "" (Some "png")
                     [ARun; AKill (EngineProc 0); ARun]) Ho)).
Defined.
